(** * Grading helpers of TimeSeriesGym: a shallow embedding

    The development follows [src/timeseriesgym/grade_helpers.py]:
    - Python exceptions are an explicit error monad ([result]);
    - Python floats are IEEE-754 binary64 values ([spec_float] at
      precision 53, [emax = 1024]), computed with the reference
      operations of the Standard Library: [n * 0.1] is a rounded
      product, [round] rounds the exact binary value;
    - a leaderboard is a table of rows, read through its [score]
      column as pandas reads it;
    - a scoring function is what a call to it does (a value or an
      exception) together with what [inspect] says of it;
    - dictionaries are finite maps with string keys, held in a store
      of mutable objects, so that [data.copy()] is a new object.

    The model comes first ([PyFloat], [Pandas], [Grader], [Store],
    [CompetitionReport], [CodeCompetitionReport]), then the vocabulary
    of the specification and the examples, then the facts. *)

From Stdlib Require Import ZArith Lia Bool List String Ascii.
From Stdlib Require Import SpecFloat Sorted.
From stdpp Require Import base option list strings pretty gmap fin_maps.

Local Open Scope string_scope.
Local Open Scope Z_scope.

(** ** Exceptions and the error monad *)

Inductive exn_class :=
| AssertionError | IndexError | ValueError | TypeError | KeyError
| OSError | OverflowError | RuntimeError
| InvalidSubmissionError
| KeyboardInterrupt | SystemExit | GeneratorExit.

Record exn := mkExn { exn_cls : exn_class; exn_msg : string }.

Inductive result (A : Type) :=
| Ret (a : A)
| Raise (e : exn).
Arguments Ret {A} a.
Arguments Raise {A} e.

#[global] Instance result_ret : MRet result := fun A a => Ret a.

#[global] Instance result_bind : MBind result := fun A B k m =>
  match m with
  | Ret a => k a
  | Raise e => Raise e
  end.

Definition raise {A} (c : exn_class) (msg : string) : result A :=
  Raise (mkExn c msg).

#[global] Instance exn_class_eq_dec : EqDecision exn_class.
Proof. solve_decision. Defined.

(** [except Exception] catches every class but the three that derive
    from [BaseException] directly. *)
Definition is_Exception (c : exn_class) : bool :=
  match c with
  | KeyboardInterrupt | SystemExit | GeneratorExit => false
  | _ => true
  end.

(** ** Python floats: IEEE-754 binary64 *)

Module PyFloat.

Definition prec : Z := 53.
Definition emax : Z := 1024.

Abbreviation float := spec_float.

Definition fmul : float -> float -> float := SFmul prec emax.
Definition fadd : float -> float -> float := SFadd prec emax.
Definition fdiv : float -> float -> float := SFdiv prec emax.
Definition flt : float -> float -> bool := SFltb.
Definition fle : float -> float -> bool := SFleb.
Definition feq : float -> float -> bool := SFeqb.

Definition is_nan (x : float) : bool :=
  match x with S754_nan => true | _ => false end.

(** [float(n)] for a Python integer: round to nearest even, and
    [OverflowError] when the integer is beyond the finite doubles. *)
Definition float_of_int (n : Z) : result float :=
  match binary_normalize prec emax n 0 false with
  | S754_infinity _ => raise OverflowError "int too large to convert to float"
  | x => Ret x
  end.

(** [int(x)] for a float: truncation towards zero. *)
Definition int_of_float (x : float) : result Z :=
  match x with
  | S754_zero _ => Ret 0
  | S754_finite s m e =>
      let a := if 0 <=? e then Z.pos m * 2 ^ e else Z.pos m / 2 ^ (- e) in
      Ret (if s then - a else a)
  | S754_infinity _ => raise OverflowError "cannot convert float infinity to integer"
  | S754_nan => raise ValueError "cannot convert float NaN to integer"
  end.

(** The literals of the source, as the doubles nearest to them. *)
Definition c_0_1 : float := S754_finite false 7205759403792794 (-56).
Definition c_0_2 : float := S754_finite false 7205759403792794 (-55).
Definition c_0_4 : float := S754_finite false 7205759403792794 (-54).
Definition c_0_05 : float := S754_finite false 7205759403792794 (-57).
Definition c_0_002 : float := S754_finite false 4611686018427388 (-61).

(** [int(n * c)] with [n] a Python integer and [c] a float. *)
Definition int_mul (n : Z) (c : float) : result Z :=
  x ← float_of_int n; int_of_float (fmul x c).

(** The integer nearest to [p / q] ([q > 0]), ties to the even one. *)
Definition round_half_even (p q : Z) : Z :=
  let fl := p / q in
  match 2 * (p mod q) ?= q with
  | Lt => fl
  | Gt => fl + 1
  | Eq => if Z.even fl then fl else fl + 1
  end.

(** The double nearest to [k / 10^ndigits], with the sign [s]. *)
Definition nearest_decimal (s : bool) (k ndigits : Z) : float :=
  match k with
  | Z.pos kp =>
      fdiv (S754_finite s kp 0) (S754_finite false (Z.to_pos (10 ^ ndigits)) 0)
  | _ => S754_zero s
  end.

(** The exact value of a finite double is [m * 2^e]; scaled by
    [10^ndigits] it is the fraction below. *)
Definition scaled_num (m : positive) (e ndigits : Z) : Z :=
  Z.pos m * 10 ^ ndigits * 2 ^ Z.max e 0.
Definition scaled_den (e : Z) : Z := 2 ^ Z.max (- e) 0.

(** [round(x, ndigits)] for a float and [ndigits >= 0]: the exact
    value is rounded to [ndigits] decimals, ties to even, and the
    decimal is read back as the nearest double; infinities and NaN
    round to themselves. *)
Definition round (x : float) (ndigits : Z) : float :=
  match x with
  | S754_finite s m e =>
      nearest_decimal s
        (round_half_even (scaled_num m e ndigits) (scaled_den e)) ndigits
  | _ => x
  end.

End PyFloat.
Import PyFloat.

(** ** numpy.float64: the rounding of numpy *)

Module Numpy.

(** [numpy.rint]: the nearest integer, ties to the even one. *)
Definition rint (x : float) : float :=
  match x with
  | S754_finite s m e =>
      if 0 <=? e then x
      else
        let k := round_half_even (Z.pos m) (2 ^ (- e)) in
        binary_normalize prec emax (if s then - k else k) 0 s
  | _ => x
  end.

(** numpy's [power_of_ten]: [10^n] as a double, which is exact for
    [0 <= n <= 22]. *)
Definition power_of_ten (n : Z) : float :=
  binary_normalize prec emax (10 ^ n) 0 false.

(** [numpy.float64.__round__(ndigits)] for [ndigits > 0]: the value
    is multiplied by the power of ten, rounded to the nearest integer
    and divided back, each step in binary64. *)
Definition round (x : float) (ndigits : Z) : float :=
  fdiv (rint (fmul x (power_of_ten ndigits))) (power_of_ten ndigits).

End Numpy.

(** ** Python values *)

(** The scalar values that flow through the grader and the report
    dictionaries. [bool] is a subclass of [int] in Python. *)
Inductive pyval :=
| VNone
| VBool (b : bool)
| VInt (z : Z)
| VFloat (x : float)
| VStr (s : string).

#[global] Instance float_eq_dec : EqDecision spec_float.
Proof. solve_decision. Defined.

#[global] Instance pyval_eq_dec : EqDecision pyval.
Proof. solve_decision. Defined.

(** Python compares an [int] with a [float] by exact value. *)
Definition cmp_int_float (z : Z) (x : float) : option comparison :=
  match x with
  | S754_nan => None
  | S754_infinity s => Some (if s then Gt else Lt)
  | S754_zero _ => Some (z ?= 0)
  | S754_finite s m e =>
      let v := if s then Z.neg m else Z.pos m in
      Some (if 0 <=? e then z ?= v * 2 ^ e else z * 2 ^ (- e) ?= v)
  end.

(** A numeric score: a [float], or an [int] ([bool] included). *)
Inductive number :=
| NFloat (x : float)
| NInt (z : Z).

Definition num_compare (a : number) (t : float) : option comparison :=
  match a with
  | NFloat x => SFcompare x t
  | NInt z => cmp_int_float z t
  end.

Definition num_lt (a : number) (t : float) : bool :=
  match num_compare a t with Some Lt => true | _ => false end.
Definition num_le (a : number) (t : float) : bool :=
  match num_compare a t with Some (Lt | Eq) => true | _ => false end.
Definition num_gt (a : number) (t : float) : bool :=
  match num_compare a t with Some Gt => true | _ => false end.
Definition num_ge (a : number) (t : float) : bool :=
  match num_compare a t with Some (Gt | Eq) => true | _ => false end.

(** [isinstance(v, float | int)] *)
Definition as_number (v : pyval) : option number :=
  match v with
  | VFloat x => Some (NFloat x)
  | VInt z => Some (NInt z)
  | VBool b => Some (NInt (Z.b2z b))
  | VNone | VStr _ => None
  end.

(** ** Tables *)

Module Pandas.

Abbreviation Series := (list float).

(** A table is a list of rows over named columns; only the values
    under the names in [columns] are part of the table. *)
Record DataFrame := mkDataFrame {
  columns : list string;
  rows : list (string -> float)
}.

Definition len (df : DataFrame) : Z := Z.of_nat (length (rows df)).

Definition has_column (df : DataFrame) (name : string) : bool :=
  bool_decide (name ∈ columns df).

(** What [df[name]] selects: the column under a label that occurs
    once, and a table of the columns under a label that occurs more
    than once. *)
Inductive selection :=
| Column (s : Series)
| Frame (df : DataFrame).

(** [df[name]] *)
Definition getitem (df : DataFrame) (name : string) : result selection :=
  match filter (fun c => c = name) (columns df) with
  | [] => raise KeyError name
  | [_] => Ret (Column (map (fun r => r name) (rows df)))
  | labels => Ret (Frame (mkDataFrame labels (rows df)))
  end.

(** [s.iloc[i]]: positional access, negative indices count from the end. *)
Definition iloc {A} (s : list A) (i : Z) : result A :=
  let n := Z.of_nat (length s) in
  let j := if i <? 0 then n + i else i in
  if (0 <=? j) && (j <? n) then
    match s !! Z.to_nat j with
    | Some x => Ret x
    | None => raise IndexError "single positional indexer is out-of-bounds"
    end
  else raise IndexError "single positional indexer is out-of-bounds".

Fixpoint insert_sorted (x : float) (l : Series) : Series :=
  match l with
  | [] => [x]
  | y :: l' => if fle x y then x :: l else y :: insert_sorted x l'
  end.

Definition sort (s : Series) : Series := foldr insert_sorted [] s.

Definition two : float := S754_finite false 4503599627370496 (-51).

(** [s.median()]: missing values are skipped; an even count averages
    the two middle values; no value at all gives NaN. *)
Definition median (s : Series) : float :=
  let xs := sort (filter (fun x => is_nan x = false) s) in
  let n := length xs in
  match n with
  | O => S754_nan
  | _ =>
      if Nat.odd n then nth (n / 2) xs S754_nan
      else fdiv (fadd (nth (n / 2 - 1) xs S754_nan) (nth (n / 2) xs S754_nan)) two
  end.

End Pandas.
Import Pandas.

(** ** GradingInput *)

(** The bag of optional values handed to the scoring function. The
    payloads (tables, paths, configurations) are opaque to the
    grader, which only tests them against [None]. *)
Record GradingInput {arg : Type} := mkGradingInput {
  submission : option arg;
  answers : option arg;
  submission_folder_path : option arg;
  hyperparameter_search_config : option arg;
  solution_file_path : option arg;
  submission_file_path : option arg;
  coding_config : option arg
}.
Arguments GradingInput arg : clear implicits.
Arguments mkGradingInput {arg}.

(** ** Grader *)

(** What a scoring function returns: a value of a built-in type, or
    a [numpy.float64], which is an instance of [float] (its class
    derives from it) with the [__round__] of numpy. *)
Inductive returned :=
| Builtin (v : pyval)
| Float64 (x : float).

Module Grader.

(** A scoring function: what a call with keyword arguments does, and
    what [inspect.getfile], [inspect.getsourcelines] and [str] say of
    the function object. *)
Record callable {arg : Type} := mkCallable {
  fn_call : list (string * arg) -> result returned;
  inspect_getfile : result string;
  inspect_getsourcelines : result (list string * Z);
  fn_str : string
}.
Arguments callable arg : clear implicits.
Arguments mkCallable {arg}.

Record Grader {arg : Type} := mkGrader {
  name : string;
  grade_fn : callable arg
}.
Arguments Grader arg : clear implicits.
Arguments mkGrader {arg}.

Inductive log_record :=
| LogWarning (msg : string)
| LogError (msg : string).

(** [{k: v for k, v in grading_input.__dict__.items() if v is not None}] *)
Definition kwargs {arg} (gi : GradingInput arg) : list (string * arg) :=
  omap (fun '(k, v) => (fun a => (k, a)) <$> v)
    [("submission", submission gi);
     ("answers", answers gi);
     ("submission_folder_path", submission_folder_path gi);
     ("hyperparameter_search_config", hyperparameter_search_config gi);
     ("solution_file_path", solution_file_path gi);
     ("submission_file_path", submission_file_path gi);
     ("coding_config", coding_config gi)].

(** [Grader.__call__]: the records logged, and the outcome.
    [round(score, 5)] is the [__round__] of the class of the score:
    that of [float], or that of [numpy.float64]. *)
Definition __call__ {arg} (self : Grader arg) (grading_input : GradingInput arg)
  : list log_record * result returned :=
  match fn_call (grade_fn self) (kwargs grading_input) with
  | Ret score =>
      let rounded_score :=
        match score with
        | Builtin (VFloat x) => Builtin (VFloat (PyFloat.round x 5))
        | Float64 x => Float64 (Numpy.round x 5)
        | _ => score
        end in
      ([], Ret rounded_score)
  | Raise e =>
      if decide (exn_cls e = InvalidSubmissionError) then
        ([LogWarning ("Invalid submission: " +:+ exn_msg e)], Ret (Builtin VNone))
      else if is_Exception (exn_cls e) then
        let located : result string :=
          fpath ← inspect_getfile (grade_fn self);
          '(_, line_number) ← inspect_getsourcelines (grade_fn self);
          Ret (fpath +:+ ":" +:+ pretty line_number) in
        let report fn_info :=
          LogError ("Unexpected error during grading: " +:+ exn_msg e
                    +:+ ". Check " +:+ fn_info) in
        match located with
        | Ret fn_info => ([report fn_info], Ret (Builtin VNone))
        | Raise e' =>
            if decide (exn_cls e' = TypeError)
            then ([report (fn_str (grade_fn self))], Ret (Builtin VNone))
            else ([], Raise e')
        end
      else ([], Raise e)
  end.


(** [Grader.is_lower_better]. When [leaderboard["score"]] is a
    table, the two positional reads give rows, their comparison is a
    Series of booleans, and [bool] refuses a Series. *)
Definition is_lower_better (leaderboard : DataFrame) : result bool :=
  scores ← getitem leaderboard "score";
  match scores with
  | Column scores =>
      top_score ← iloc scores 0;
      bottom_score ← iloc scores (-1);
      Ret (flt top_score bottom_score)
  | Frame scores =>
      _ ← iloc (rows scores) 0;
      _ ← iloc (rows scores) (-1);
      raise ValueError "The truth value of a Series is ambiguous."
  end.

(** The dictionary returned by [rank_score], with its fixed keys. *)
Record ranking := mkRanking {
  gold_medal : bool;
  silver_medal : bool;
  bronze_medal : bool;
  above_median : bool;
  gold_threshold : float;
  silver_threshold : float;
  bronze_threshold : float;
  median_threshold : float
}.

(** The closure [get_score_at_position] over [scores]. *)
Definition get_score_at_position {A} (scores : list A) (position : Z) : result A :=
  if (position - 1 >=? Z.of_nat (length scores)) || (position <? 1)
  then raise IndexError "Position out of bounds in the leaderboard."
  else iloc scores (position - 1).

Section GetThresholds.
Context {A : Type}.
(** [get_thresholds] reads the leaderboard through the closure
    [get_score_at_position] and takes [scores.median()]. *)
Variable get_score_at_position : Z -> result A.
Variable scores_median : A.

Definition get_thresholds (num_teams : Z) : result (A * A * A * A) :=
  '(gold_threshold, silver_threshold, bronze_threshold) ←
    (if (1 <=? num_teams) && (num_teams <? 100) then
       p ← int_mul num_teams c_0_1;
       gold_threshold ← get_score_at_position (Z.max 1 p);
       p ← int_mul num_teams c_0_2;
       silver_threshold ← get_score_at_position (Z.max 1 p);
       p ← int_mul num_teams c_0_4;
       bronze_threshold ← get_score_at_position (Z.max 1 p);
       Ret (gold_threshold, silver_threshold, bronze_threshold)
     else if (100 <=? num_teams) && (num_teams <? 250) then
       gold_threshold ← get_score_at_position 10;
       p ← int_mul num_teams c_0_2;
       silver_threshold ← get_score_at_position (Z.max 1 p);
       p ← int_mul num_teams c_0_4;
       bronze_threshold ← get_score_at_position (Z.max 1 p);
       Ret (gold_threshold, silver_threshold, bronze_threshold)
     else if (250 <=? num_teams) && (num_teams <? 1000) then
       p ← int_mul num_teams c_0_002;
       gold_threshold ← get_score_at_position (10 + p);
       silver_threshold ← get_score_at_position 50;
       bronze_threshold ← get_score_at_position 100;
       Ret (gold_threshold, silver_threshold, bronze_threshold)
     else if num_teams >=? 1000 then
       p ← int_mul num_teams c_0_002;
       gold_threshold ← get_score_at_position (10 + p);
       p ← int_mul num_teams c_0_05;
       silver_threshold ← get_score_at_position (Z.max 1 p);
       p ← int_mul num_teams c_0_1;
       bronze_threshold ← get_score_at_position (Z.max 1 p);
       Ret (gold_threshold, silver_threshold, bronze_threshold)
     else raise ValueError "Number of teams in leaderboard must be greater than 0.");
  Ret (gold_threshold, silver_threshold, bronze_threshold, scores_median).
End GetThresholds.

(** [Grader.rank_score]. When [leaderboard["score"]] is a table the
    positions read rows, the median is a row of medians and [float]
    refuses a row; [is_lower_better] has raised before. *)
Definition rank_score (score : pyval) (leaderboard : DataFrame) : result ranking :=
  if negb (has_column leaderboard "score")
  then raise AssertionError "Leaderboard must have a `score` column."
  else
    lower_is_better ← is_lower_better leaderboard;
    let num_teams := len leaderboard in
    scores ← getitem leaderboard "score";
    match scores with
    | Column scores =>
        '(gold_threshold, silver_threshold, bronze_threshold, median_threshold) ←
          get_thresholds (get_score_at_position scores) (median scores) num_teams;
        match score with
        | VNone =>
            Ret (mkRanking false false false false
                   gold_threshold silver_threshold bronze_threshold
                   median_threshold)
        | _ =>
            match as_number score with
            | None =>
                raise AssertionError "Expected `score` to be a `float` or `int`."
            | Some score =>
                let gold_medal :=
                  if lower_is_better : bool then num_le score gold_threshold
                  else num_ge score gold_threshold in
                let silver_medal :=
                  negb gold_medal &&
                  (if lower_is_better : bool then num_le score silver_threshold
                   else num_ge score silver_threshold) in
                let bronze_medal :=
                  negb gold_medal && negb silver_medal &&
                  (if lower_is_better : bool then num_le score bronze_threshold
                   else num_ge score bronze_threshold) in
                let above_median :=
                  if lower_is_better : bool then num_lt score median_threshold
                  else num_gt score median_threshold in
                Ret (mkRanking gold_medal silver_medal bronze_medal above_median
                       gold_threshold silver_threshold bronze_threshold
                       median_threshold)
            end
        end
    | Frame scores =>
        _ ← get_thresholds (get_score_at_position (rows scores))
              (fun name => median (map (fun r => r name) (rows scores)))
              num_teams;
        raise TypeError "cannot convert the series to <class 'float'>"
    end.

(** [Grader.__init__]: the name is stored, the scoring function is
    resolved from its reference by [import_fn], and only then is the
    name checked. [import_fn] lives in [timeseriesgym.utils]; it is a
    parameter here. *)
Definition __init__ {arg} (import_fn : pyval -> result (callable arg))
    (name grade_fn : pyval) : result (Grader arg) :=
  fn ← import_fn grade_fn;
  match name with
  | VStr s =>
      if (0 <? String.length s)%nat then Ret (mkGrader s fn)
      else raise AssertionError "Grader name cannot be empty."
  | _ => raise AssertionError "Grader name must be a string."
  end.

(** [Grader.from_dict]: the constructor called with the items of
    [data] as keyword arguments. A key that is no parameter of
    [__init__] is refused first, then a missing parameter. *)
Definition from_dict {arg} (import_fn : pyval -> result (callable arg))
    (data : gmap string pyval) : result (Grader arg) :=
  if negb (bool_decide (dom data ⊆ ({["name"; "grade_fn"]} : gset string)))
  then raise TypeError "__init__() got an unexpected keyword argument"
  else
    match data !! "name", data !! "grade_fn" with
    | Some name, Some grade_fn => __init__ import_fn name grade_fn
    | _, _ => raise TypeError "__init__() missing required positional argument"
    end.

End Grader.


(** ** The runtime behind the reports *)

(** What the reports take from Python itself: the [datetime] type with
    its ISO-8601 printer and parser, and the text of a float with the
    parser of [float(str)]. *)
Class Runtime := {
  datetime : Type;
  isoformat : datetime -> string;
  fromisoformat : string -> result datetime;
  float_repr : float -> string;
  float_of_string : string -> result float
}.

Section Conversions.
Context `{Runtime}.

(** [str(v)] *)
Definition py_str (v : pyval) : string :=
  match v with
  | VNone => "None"
  | VBool b => if b then "True" else "False"
  | VInt z => pretty z
  | VFloat x => float_repr x
  | VStr s => s
  end.

(** [float(v)] *)
Definition py_float (v : pyval) : result float :=
  match v with
  | VFloat x => Ret x
  | VInt z => float_of_int z
  | VBool b => float_of_int (Z.b2z b)
  | VStr s => float_of_string s
  | VNone =>
      raise TypeError
        "float() argument must be a string or a real number, not 'NoneType'"
  end.

(** [bool(v)] *)
Definition py_bool (v : pyval) : bool :=
  match v with
  | VNone => false
  | VBool b => b
  | VInt z => negb (z =? 0)
  | VFloat (S754_zero _) => false
  | VFloat _ => true
  | VStr s => negb (String.eqb s "")
  end.

(** [datetime.fromisoformat(v)] *)
Definition py_fromisoformat (v : pyval) : result datetime :=
  match v with
  | VStr s => fromisoformat s
  | _ => raise TypeError "fromisoformat: argument must be str"
  end.

End Conversions.

(** ** Dictionaries as mutable objects *)

Module Store.

Abbreviation dict := (gmap string pyval).
Abbreviation loc := positive.
Abbreviation store := (gmap positive (gmap string pyval)).

(** Computations that read and extend the store and may raise. *)
Definition M (A : Type) : Type := store -> result A * store.

#[global] Instance M_ret : MRet M := fun A a σ => (Ret a, σ).

#[global] Instance M_bind : MBind M := fun A B k m σ =>
  match m σ with
  | (Ret a, σ') => k a σ'
  | (Raise e, σ') => (Raise e, σ')
  end.

Definition lift {A} (r : result A) : M A := fun σ => (r, σ).

(** A dictionary display: a new object. *)
Definition new_dict (d : dict) : M loc :=
  fun σ => let l := fresh (dom σ) in (Ret l, <[l := d]> σ).

(** [data.copy()]: a new object with the same items. *)
Definition dict_copy (data : loc) : M loc :=
  fun σ =>
    match σ !! data with
    | Some d => new_dict d σ
    | None => (raise RuntimeError "no such object", σ)
    end.

(** [data[key]] *)
Definition dict_getitem (data : loc) (key : string) : M pyval :=
  fun σ =>
    match σ !! data with
    | Some d =>
        match d !! key with
        | Some v => (Ret v, σ)
        | None => (raise KeyError key, σ)
        end
    | None => (raise RuntimeError "no such object", σ)
    end.

End Store.
Import Store.

(** ** CompetitionReport *)

Module CompetitionReport.
Section WithRuntime.
Context `{Runtime}.

Record report := mkReport {
  competition_id : pyval;
  score : pyval;
  gold_threshold : pyval;
  silver_threshold : pyval;
  bronze_threshold : pyval;
  median_threshold : pyval;
  any_medal : pyval;
  gold_medal : pyval;
  silver_medal : pyval;
  bronze_medal : pyval;
  above_median : pyval;
  submission_exists : pyval;
  valid_submission : pyval;
  is_lower_better : pyval;
  created_at : datetime;
  submission_path : pyval
}.

(** The items of the dictionary display of [to_dict], in order. *)
Definition to_dict_items (self : report) : result (list (string * pyval)) :=
  gold ← py_float (gold_threshold self);
  silver ← py_float (silver_threshold self);
  bronze ← py_float (bronze_threshold self);
  median ← py_float (median_threshold self);
  Ret [("competition_id", competition_id self);
       ("score", if decide (score self = VNone) then VNone
                 else VStr (py_str (score self)));
       ("gold_threshold", VFloat gold);
       ("silver_threshold", VFloat silver);
       ("bronze_threshold", VFloat bronze);
       ("median_threshold", VFloat median);
       ("any_medal", VBool (py_bool (any_medal self)));
       ("gold_medal", VBool (py_bool (gold_medal self)));
       ("silver_medal", VBool (py_bool (silver_medal self)));
       ("bronze_medal", VBool (py_bool (bronze_medal self)));
       ("above_median", VBool (py_bool (above_median self)));
       ("submission_exists", VBool (py_bool (submission_exists self)));
       ("valid_submission", VBool (py_bool (valid_submission self)));
       ("is_lower_better", VBool (py_bool (is_lower_better self)));
       ("created_at", VStr (isoformat (created_at self)));
       ("submission_path", submission_path self)].

(** [CompetitionReport.to_dict] *)
Definition to_dict (self : report) : M loc :=
  items ← lift (to_dict_items self);
  new_dict (list_to_map items).

Definition get_float (data : loc) (key : string) : M pyval :=
  v ← dict_getitem data key; x ← lift (py_float v); mret (VFloat x).

Definition get_bool (data : loc) (key : string) : M pyval :=
  v ← dict_getitem data key; mret (VBool (py_bool v)).

(** [CompetitionReport.from_dict] *)
Definition from_dict (data : loc) : M report :=
  data ← dict_copy data;
  competition_id ← dict_getitem data "competition_id";
  score ← (v ← dict_getitem data "score";
           if decide (v = VNone) then mret VNone
           else get_float data "score");
  gold_threshold ← get_float data "gold_threshold";
  silver_threshold ← get_float data "silver_threshold";
  bronze_threshold ← get_float data "bronze_threshold";
  median_threshold ← get_float data "median_threshold";
  any_medal ← get_bool data "any_medal";
  gold_medal ← get_bool data "gold_medal";
  silver_medal ← get_bool data "silver_medal";
  bronze_medal ← get_bool data "bronze_medal";
  above_median ← get_bool data "above_median";
  submission_exists ← get_bool data "submission_exists";
  valid_submission ← get_bool data "valid_submission";
  is_lower_better ← get_bool data "is_lower_better";
  created_at ← (v ← dict_getitem data "created_at";
                lift (py_fromisoformat v));
  submission_path ← dict_getitem data "submission_path";
  mret (mkReport competition_id score gold_threshold silver_threshold
          bronze_threshold median_threshold any_medal gold_medal
          silver_medal bronze_medal above_median submission_exists
          valid_submission is_lower_better created_at submission_path).

End WithRuntime.
End CompetitionReport.

(** ** CodeCompetitionReport *)

Module CodeCompetitionReport.
Section WithRuntime.
Context `{Runtime}.

Record report := mkReport {
  competition_id : pyval;
  defined_classes : pyval;
  initialized_classes : pyval;
  defined_class_methods : pyval;
  executed_class_methods : pyval;
  defined_functions : pyval;
  executed_functions : pyval;
  test_metric : pyval;
  submission_exists : pyval;
  valid_submission : pyval;
  created_at : datetime;
  submission_path : pyval
}.

(** The items of the dictionary display of [to_dict], in order. *)
Definition to_dict_items (self : report) : list (string * pyval) :=
  [("competition_id", competition_id self);
   ("defined_classes", defined_classes self);
   ("initialized_classes", initialized_classes self);
   ("defined_class_methods", defined_class_methods self);
   ("executed_class_methods", executed_class_methods self);
   ("defined_functions", defined_functions self);
   ("executed_functions", executed_functions self);
   ("test_metric", test_metric self);
   ("submission_exists", VBool (py_bool (submission_exists self)));
   ("valid_submission", VBool (py_bool (valid_submission self)));
   ("created_at", VStr (isoformat (created_at self)));
   ("submission_path", submission_path self)].

(** [CodeCompetitionReport.to_dict] *)
Definition to_dict (self : report) : M loc :=
  new_dict (list_to_map (to_dict_items self)).

Definition get_bool (data : loc) (key : string) : M pyval :=
  v ← dict_getitem data key; mret (VBool (py_bool v)).

(** [CodeCompetitionReport.from_dict] *)
Definition from_dict (data : loc) : M report :=
  data ← dict_copy data;
  competition_id ← dict_getitem data "competition_id";
  defined_classes ← dict_getitem data "defined_classes";
  initialized_classes ← dict_getitem data "initialized_classes";
  defined_class_methods ← dict_getitem data "defined_class_methods";
  executed_class_methods ← dict_getitem data "executed_class_methods";
  defined_functions ← dict_getitem data "defined_functions";
  executed_functions ← dict_getitem data "executed_functions";
  test_metric ← dict_getitem data "test_metric";
  submission_exists ← get_bool data "submission_exists";
  valid_submission ← get_bool data "valid_submission";
  created_at ← (v ← dict_getitem data "created_at";
                lift (py_fromisoformat v));
  submission_path ← dict_getitem data "submission_path";
  mret (mkReport competition_id defined_classes initialized_classes
          defined_class_methods executed_class_methods defined_functions
          executed_functions test_metric submission_exists
          valid_submission created_at submission_path).

End WithRuntime.
End CodeCompetitionReport.

(** ** The vocabulary of the specification *)

(** The 1-based positions of the gold, silver and bronze thresholds as
    the specification's table gives them, with exact integer parts. *)
Definition spec_positions (n : Z) : Z * Z * Z :=
  if n <? 100 then (Z.max 1 (n / 10), Z.max 1 (n / 5), Z.max 1 (n * 2 / 5))
  else if n <? 250 then (10, Z.max 1 (n / 5), Z.max 1 (n * 2 / 5))
  else if n <? 1000 then (10 + n / 500, 50, 100)
  else (10 + n / 500, Z.max 1 (n / 20), Z.max 1 (n / 10)).

(** A leaderboard of at most [2^50 - 1] rows: every table that fits in
    a machine's memory. The binary64 products [n * 0.1], ... are
    certified on this range. *)
Definition max_rows : Z := 2 ^ 50.

(** "Meets or beats" in the specification's words. *)
Definition meets_or_beats (lower_is_better : bool) (score : number)
    (threshold : float) : bool :=
  if lower_is_better then num_le score threshold else num_ge score threshold.

(** Sorted best-to-worst when higher is better, and when lower is
    better: every earlier score is at least (at most) every later one. *)
Definition sorted_descending (s : Series) : Prop :=
  StronglySorted (fun a b => fle b a = true) s.
Definition sorted_ascending (s : Series) : Prop :=
  StronglySorted (fun a b => fle a b = true) s.
Definition strictly_ascending (s : Series) : Prop :=
  StronglySorted (fun a b => flt a b = true) s.

(** The decimal literal [k / 10^ndigits] as Python reads it. *)
Definition decimal (k ndigits : Z) : float := nearest_decimal false k ndigits.

(** Rounding half up at [ndigits] decimals, in the specification's
    words: the integer part of the scaled value plus one half. *)
Definition round_half_up (p q : Z) : Z := (2 * p + q) / (2 * q).

Definition spec_round_half_up (x : float) (ndigits : Z) : float :=
  match x with
  | S754_finite s m e =>
      nearest_decimal s
        (round_half_up (scaled_num m e ndigits) (scaled_den e)) ndigits
  | _ => x
  end.

(** The tail of [rank_score], once the direction and the thresholds
    are known. *)
Definition classify (lower : bool) (g s b m : float) (score : pyval)
  : result Grader.ranking :=
  match score with
  | VNone => Ret (Grader.mkRanking false false false false g s b m)
  | _ =>
      match as_number score with
      | None => raise AssertionError "Expected `score` to be a `float` or `int`."
      | Some score =>
          let gold := if lower then num_le score g else num_ge score g in
          let silver :=
            negb gold && (if lower then num_le score s else num_ge score s) in
          let bronze :=
            negb gold && negb silver
            && (if lower then num_le score b else num_ge score b) in
          let above := if lower then num_lt score m else num_gt score m in
          Ret (Grader.mkRanking gold silver bronze above g s b m)
      end
  end.

(** The number of columns of a table under a label. *)
Definition labelled (df : DataFrame) (name : string) : nat :=
  length (filter (fun c => c = name) (columns df)).

(** ** The order of scores *)

(** The place of a float in the order: its class (infinities, negative
    and positive finite values, zeros), then exponent and mantissa. *)
Definition order_key (x : float) : Z * Z * Z :=
  match x with
  | S754_infinity true => (-2, 0, 0)
  | S754_finite true m e => (-1, - e, Z.neg m)
  | S754_zero _ | S754_nan => (0, 0, 0)
  | S754_finite false m e => (1, e, Z.pos m)
  | S754_infinity false => (2, 0, 0)
  end.

Definition key_lt (k1 k2 : Z * Z * Z) : Prop :=
  let '(a1, b1, c1) := k1 in
  let '(a2, b2, c2) := k2 in
  a1 < a2 \/ (a1 = a2 /\ (b1 < b2 \/ (b1 = b2 /\ c1 < c2))).

(** [a] is at least as good as [b] in the derived direction. *)
Definition as_good (lower : bool) (a b : float) : bool :=
  if lower then fle a b else fle b a.

(** Strictly better. *)
Definition better (lower : bool) (a b : float) : bool :=
  if lower then flt a b else flt b a.

(** A leaderboard sorted best to worst: every row is at least as good
    as every later row. *)
Definition sorted_best_first (lower : bool) (scores : Series) : Prop :=
  StronglySorted (fun a b => as_good lower a b = true) scores.

(** ** The vocabulary of the report codecs *)

Section ReportVocabulary.
Context `{Runtime}.

(** Reading a key of a dictionary value. *)
Definition lookup_key (d : dict) (key : string) : result pyval :=
  match d !! key with
  | Some v => Ret v
  | None => raise KeyError key
  end.

Definition dec_float (d : dict) (key : string) : result pyval :=
  v ← lookup_key d key; x ← py_float v; Ret (VFloat x).

Definition dec_bool (d : dict) (key : string) : result pyval :=
  v ← lookup_key d key; Ret (VBool (py_bool v)).

(** What [CompetitionReport.from_dict] computes from the items of
    its argument. *)
Definition decode_report (d : dict) : result CompetitionReport.report :=
  competition_id ← lookup_key d "competition_id";
  score ← (v ← lookup_key d "score";
           if decide (v = VNone) then Ret VNone else dec_float d "score");
  gold_threshold ← dec_float d "gold_threshold";
  silver_threshold ← dec_float d "silver_threshold";
  bronze_threshold ← dec_float d "bronze_threshold";
  median_threshold ← dec_float d "median_threshold";
  any_medal ← dec_bool d "any_medal";
  gold_medal ← dec_bool d "gold_medal";
  silver_medal ← dec_bool d "silver_medal";
  bronze_medal ← dec_bool d "bronze_medal";
  above_median ← dec_bool d "above_median";
  submission_exists ← dec_bool d "submission_exists";
  valid_submission ← dec_bool d "valid_submission";
  is_lower_better ← dec_bool d "is_lower_better";
  created_at ← (v ← lookup_key d "created_at"; py_fromisoformat v);
  submission_path ← lookup_key d "submission_path";
  Ret (CompetitionReport.mkReport competition_id score gold_threshold
         silver_threshold bronze_threshold median_threshold any_medal
         gold_medal silver_medal bronze_medal above_median submission_exists
         valid_submission is_lower_better created_at submission_path).

(** What [CodeCompetitionReport.from_dict] computes from the items
    of its argument. *)
Definition decode_code_report (d : dict) : result CodeCompetitionReport.report :=
  competition_id ← lookup_key d "competition_id";
  defined_classes ← lookup_key d "defined_classes";
  initialized_classes ← lookup_key d "initialized_classes";
  defined_class_methods ← lookup_key d "defined_class_methods";
  executed_class_methods ← lookup_key d "executed_class_methods";
  defined_functions ← lookup_key d "defined_functions";
  executed_functions ← lookup_key d "executed_functions";
  test_metric ← lookup_key d "test_metric";
  submission_exists ← dec_bool d "submission_exists";
  valid_submission ← dec_bool d "valid_submission";
  created_at ← (v ← lookup_key d "created_at"; py_fromisoformat v);
  submission_path ← lookup_key d "submission_path";
  Ret (CodeCompetitionReport.mkReport competition_id defined_classes
         initialized_classes defined_class_methods executed_class_methods
         defined_functions executed_functions test_metric submission_exists
         valid_submission created_at submission_path).

Definition is_float (v : pyval) : bool :=
  match v with VFloat _ => true | _ => false end.
Definition is_bool (v : pyval) : bool :=
  match v with VBool _ => true | _ => false end.

(** The score survives its text: [float(str(score))] is a float equal
    in value to the score. *)
Definition score_equal (a b : pyval) : Prop :=
  match a with
  | VNone => b = VNone
  | _ => exists n x, as_number a = Some n /\ b = VFloat x
                     /\ num_compare n x = Some Eq
  end.

Definition score_lossless (v : pyval) : Prop :=
  match v with
  | VNone => True
  | _ => exists x, float_of_string (py_str v) = Ret x
                   /\ score_equal v (VFloat x)
  end.

(** A valid report, as the data model has it: thresholds are floats,
    flags are booleans, the timestamp survives ISO-8601 and the score
    survives its text. *)
Definition valid_report (r : CompetitionReport.report) : Prop :=
  is_float (CompetitionReport.gold_threshold r)
  && is_float (CompetitionReport.silver_threshold r)
  && is_float (CompetitionReport.bronze_threshold r)
  && is_float (CompetitionReport.median_threshold r)
  && is_bool (CompetitionReport.any_medal r)
  && is_bool (CompetitionReport.gold_medal r)
  && is_bool (CompetitionReport.silver_medal r)
  && is_bool (CompetitionReport.bronze_medal r)
  && is_bool (CompetitionReport.above_median r)
  && is_bool (CompetitionReport.submission_exists r)
  && is_bool (CompetitionReport.valid_submission r)
  && is_bool (CompetitionReport.is_lower_better r) = true
  /\ fromisoformat (isoformat (CompetitionReport.created_at r))
     = Ret (CompetitionReport.created_at r)
  /\ score_lossless (CompetitionReport.score r).

(** The shape of an encoded [CompetitionReport]: the score is text or
    [None], the thresholds are floats, the flags are booleans and the
    timestamp is ISO-8601 text. *)
Definition encoded_as (d : dict) (r : CompetitionReport.report) : Prop :=
  d !! "score"
  = Some (if decide (CompetitionReport.score r = VNone) then VNone
          else VStr (py_str (CompetitionReport.score r)))
  /\ Forall (fun k => exists x, d !! k = Some (VFloat x))
       ["gold_threshold"; "silver_threshold"; "bronze_threshold";
        "median_threshold"]
  /\ Forall (fun k => exists b, d !! k = Some (VBool b))
       ["any_medal"; "gold_medal"; "silver_medal"; "bronze_medal";
        "above_median"; "submission_exists"; "valid_submission";
        "is_lower_better"]
  /\ d !! "created_at"
     = Some (VStr (isoformat (CompetitionReport.created_at r))).

Definition valid_code_report (r : CodeCompetitionReport.report) : Prop :=
  is_bool (CodeCompetitionReport.submission_exists r)
  && is_bool (CodeCompetitionReport.valid_submission r) = true
  /\ fromisoformat (isoformat (CodeCompetitionReport.created_at r))
     = Ret (CodeCompetitionReport.created_at r).

Definition with_score (r : CompetitionReport.report) (v : pyval)
  : CompetitionReport.report :=
  CompetitionReport.mkReport
    (CompetitionReport.competition_id r) v
    (CompetitionReport.gold_threshold r) (CompetitionReport.silver_threshold r)
    (CompetitionReport.bronze_threshold r) (CompetitionReport.median_threshold r)
    (CompetitionReport.any_medal r) (CompetitionReport.gold_medal r)
    (CompetitionReport.silver_medal r) (CompetitionReport.bronze_medal r)
    (CompetitionReport.above_median r) (CompetitionReport.submission_exists r)
    (CompetitionReport.valid_submission r) (CompetitionReport.is_lower_better r)
    (CompetitionReport.created_at r) (CompetitionReport.submission_path r).

(** The keys [CompetitionReport.from_dict] reads, in the order of the
    source, and those it passes to [float]. *)
Definition report_keys : list string :=
  ["competition_id"; "score"; "gold_threshold"; "silver_threshold";
   "bronze_threshold"; "median_threshold"; "any_medal"; "gold_medal";
   "silver_medal"; "bronze_medal"; "above_median"; "submission_exists";
   "valid_submission"; "is_lower_better"; "created_at"; "submission_path"].

Definition threshold_keys : list string :=
  ["gold_threshold"; "silver_threshold"; "bronze_threshold";
   "median_threshold"].

(** The keys [CodeCompetitionReport.from_dict] reads. *)
Definition code_report_keys : list string :=
  ["competition_id"; "defined_classes"; "initialized_classes";
   "defined_class_methods"; "executed_class_methods"; "defined_functions";
   "executed_functions"; "test_metric"; "submission_exists";
   "valid_submission"; "created_at"; "submission_path"].

(** A dictionary with every key of a [CompetitionReport], whose
    thresholds and score [float] accepts and whose timestamp
    [datetime.fromisoformat] accepts. *)
Definition decodable (d : dict) : Prop :=
  Forall (fun k => is_Some (d !! k)) report_keys
  /\ Forall (fun k => forall v, d !! k = Some v -> exists x, py_float v = Ret x)
       threshold_keys
  /\ (forall v, d !! "score" = Some v -> v <> VNone ->
      exists x, py_float v = Ret x)
  /\ (forall v, d !! "created_at" = Some v ->
      exists t, py_fromisoformat v = Ret t).

(** The three ways of failing to be decodable, with the exception of
    each: a missing key, a value [float] rejects, a timestamp
    [datetime.fromisoformat] rejects. *)
Definition decode_failure (d : dict) (e : exn) : Prop :=
  (exists k, k ∈ report_keys /\ d !! k = None /\ e = mkExn KeyError k)
  \/ (exists v, d !! "score" = Some v /\ v <> VNone /\ py_float v = Raise e)
  \/ (exists k v, k ∈ threshold_keys /\ d !! k = Some v
                  /\ py_float v = Raise e)
  \/ (exists v, d !! "created_at" = Some v /\ py_fromisoformat v = Raise e).

Definition code_decodable (d : dict) : Prop :=
  Forall (fun k => is_Some (d !! k)) code_report_keys
  /\ (forall v, d !! "created_at" = Some v ->
      exists t, py_fromisoformat v = Ret t).

Definition code_decode_failure (d : dict) (e : exn) : Prop :=
  (exists k, k ∈ code_report_keys /\ d !! k = None /\ e = mkExn KeyError k)
  \/ (exists v, d !! "created_at" = Some v /\ py_fromisoformat v = Raise e).

(** A report whose thresholds are floats, whose flags are booleans and
    whose score is a float or [None]. *)
Definition typed_report (r : CompetitionReport.report) : bool :=
  (bool_decide (CompetitionReport.score r = VNone)
   || is_float (CompetitionReport.score r))
  && is_float (CompetitionReport.gold_threshold r)
  && is_float (CompetitionReport.silver_threshold r)
  && is_float (CompetitionReport.bronze_threshold r)
  && is_float (CompetitionReport.median_threshold r)
  && is_bool (CompetitionReport.any_medal r)
  && is_bool (CompetitionReport.gold_medal r)
  && is_bool (CompetitionReport.silver_medal r)
  && is_bool (CompetitionReport.bronze_medal r)
  && is_bool (CompetitionReport.above_median r)
  && is_bool (CompetitionReport.submission_exists r)
  && is_bool (CompetitionReport.valid_submission r)
  && is_bool (CompetitionReport.is_lower_better r).

(** The report with [float] applied to its thresholds and [bool] to
    its flags, and with the given score. *)
Definition converted (r : CompetitionReport.report) (score : pyval)
  : result CompetitionReport.report :=
  gold ← py_float (CompetitionReport.gold_threshold r);
  silver ← py_float (CompetitionReport.silver_threshold r);
  bronze ← py_float (CompetitionReport.bronze_threshold r);
  median ← py_float (CompetitionReport.median_threshold r);
  Ret (CompetitionReport.mkReport
         (CompetitionReport.competition_id r) score
         (VFloat gold) (VFloat silver) (VFloat bronze) (VFloat median)
         (VBool (py_bool (CompetitionReport.any_medal r)))
         (VBool (py_bool (CompetitionReport.gold_medal r)))
         (VBool (py_bool (CompetitionReport.silver_medal r)))
         (VBool (py_bool (CompetitionReport.bronze_medal r)))
         (VBool (py_bool (CompetitionReport.above_median r)))
         (VBool (py_bool (CompetitionReport.submission_exists r)))
         (VBool (py_bool (CompetitionReport.valid_submission r)))
         (VBool (py_bool (CompetitionReport.is_lower_better r)))
         (CompetitionReport.created_at r)
         (CompetitionReport.submission_path r)).

(** The score of a report after its trip as text. *)
Definition reread_score (score : pyval) : result pyval :=
  if decide (score = VNone) then Ret VNone
  else x ← float_of_string (py_str score); Ret (VFloat x).

Definition code_converted (c : CodeCompetitionReport.report)
  : CodeCompetitionReport.report :=
  CodeCompetitionReport.mkReport
    (CodeCompetitionReport.competition_id c)
    (CodeCompetitionReport.defined_classes c)
    (CodeCompetitionReport.initialized_classes c)
    (CodeCompetitionReport.defined_class_methods c)
    (CodeCompetitionReport.executed_class_methods c)
    (CodeCompetitionReport.defined_functions c)
    (CodeCompetitionReport.executed_functions c)
    (CodeCompetitionReport.test_metric c)
    (VBool (py_bool (CodeCompetitionReport.submission_exists c)))
    (VBool (py_bool (CodeCompetitionReport.valid_submission c)))
    (CodeCompetitionReport.created_at c)
    (CodeCompetitionReport.submission_path c).

End ReportVocabulary.

(** ** Example leaderboards *)

Module Examples.

(** The double of an integer literal. *)
Definition fl (z : Z) : float := binary_normalize prec emax z 0 false.

Definition table (l : list Z) : DataFrame :=
  mkDataFrame ["team"; "score"] (map (fun (z : Z) (_ : string) => fl z) l).

(** Five teams, higher is better. *)
Definition lb5 : DataFrame := table [50; 40; 30; 20; 10].
Definition scores5 : Series := map fl [50; 40; 30; 20; 10].

(** Five teams, lower is better. *)
Definition lb5_asc : DataFrame := table [10; 20; 30; 40; 50].

(** A single team. *)
Definition lb1 : DataFrame := table [7].

(** No team at all. *)
Definition lb0 : DataFrame := table [].

End Examples.

Module CallExamples.
Import Grader.

(** A grading input with every field absent. *)
Definition empty_input : GradingInput unit :=
  mkGradingInput None None None None None None None.

(** A scoring function defined at line 12 of [grade.py]. *)
Definition located (run : list (string * unit) -> result returned) : callable unit :=
  mkCallable run (Ret "grade.py") (Ret (["def grade(**kw):"], 12))
    "<function grade at 0x7f>".

(** A built-in or a callable object: [inspect.getfile] raises [TypeError]. *)
Definition builtin (run : list (string * unit) -> result returned) : callable unit :=
  mkCallable run (raise TypeError "expected a module, class, or function")
    (raise TypeError "expected a module, class, or function")
    "<built-in function grade>".

(** A function whose source file is gone: [inspect.getsourcelines]
    raises [OSError]. *)
Definition sourceless (run : list (string * unit) -> result returned) : callable unit :=
  mkCallable run (Ret "grade.py") (raise OSError "could not get source code")
    "<function grade at 0x7f>".

Definition returning (v : returned) : Grader unit :=
  mkGrader "returning" (located (fun _ => Ret v)).

Definition raising (c : exn_class) (msg : string) : Grader unit :=
  mkGrader "raising" (located (fun _ => raise c msg)).

End CallExamples.

(** ** An example runtime *)

(** A small runtime for the examples: naive timestamps to the second
    printed as [YYYY-MM-DDTHH:MM:SS], and floats printed by their exact
    decimal expansion. *)
Module ExampleRuntime.

Definition digit (n : Z) : ascii := ascii_of_N (Z.to_N (48 + n mod 10)).

(** [n] on [w] decimal digits, zero padded. *)
Fixpoint pad (w : nat) (n : Z) : string :=
  match w with
  | O => ""
  | S w' => pad w' (n / 10) +:+ String (digit n) ""
  end.

Definition digit_val (c : ascii) : option Z :=
  let k := Z.of_N (N_of_ascii c) in
  if (48 <=? k) && (k <=? 57) then Some (k - 48) else None.

Fixpoint parse_digits (s : string) (acc : Z) : option Z :=
  match s with
  | EmptyString => Some acc
  | String c s' => d ← digit_val c; parse_digits s' (10 * acc + d)
  end.

Definition parse_number (s : string) : option Z :=
  match s with
  | EmptyString => None
  | _ => parse_digits s 0
  end.

Record naive_datetime := mkDatetime {
  year : Z; month : Z; day : Z; hour : Z; minute : Z; second : Z
}.

Definition print_datetime (t : naive_datetime) : string :=
  pad 4 (year t) +:+ "-" +:+ pad 2 (month t) +:+ "-" +:+ pad 2 (day t)
  +:+ "T" +:+ pad 2 (hour t) +:+ ":" +:+ pad 2 (minute t)
  +:+ ":" +:+ pad 2 (second t).

Definition parse_datetime (s : string) : result naive_datetime :=
  let field (start len : nat) := parse_number (substring start len s) in
  let sep (at_ : nat) (c : string) := String.eqb (substring at_ 1 s) c in
  match field 0%nat 4%nat, field 5%nat 2%nat, field 8%nat 2%nat,
        field 11%nat 2%nat, field 14%nat 2%nat, field 17%nat 2%nat with
  | Some y, Some mo, Some d, Some h, Some mi, Some se =>
      if (String.length s =? 19)%nat && sep 4%nat "-" && sep 7%nat "-"
         && sep 10%nat "T" && sep 13%nat ":" && sep 16%nat ":"
      then Ret (mkDatetime y mo d h mi se)
      else raise ValueError ("Invalid isoformat string: " +:+ s)
  | _, _, _, _, _, _ => raise ValueError ("Invalid isoformat string: " +:+ s)
  end.

(** The exact decimal expansion of a double. *)
Definition print_float (x : float) : string :=
  match x with
  | S754_nan => "nan"
  | S754_infinity s => if s then "-inf" else "inf"
  | S754_zero s => if s then "-0.0" else "0.0"
  | S754_finite s m e =>
      (if s then "-" else "") +:+
      (if 0 <=? e then pretty (Z.pos m * 2 ^ e) +:+ ".0"
       else
         let nd := - e in
         let n := Z.pos m * 5 ^ nd in
         pretty (n / 10 ^ nd) +:+ "." +:+ pad (Z.to_nat nd) (n mod 10 ^ nd))
  end.

Fixpoint split_at_dot (s : string) : string * option string :=
  match s with
  | EmptyString => (EmptyString, None)
  | String c s' =>
      if Ascii.eqb c "."%char then (EmptyString, Some s')
      else let '(a, b) := split_at_dot s' in (String c a, b)
  end.

(** The double nearest to a decimal numeral. *)
Definition parse_float (s : string) : result float :=
  let bad := raise ValueError ("could not convert string to float: " +:+ s) in
  if String.eqb s "nan" then Ret S754_nan
  else if String.eqb s "inf" then Ret (S754_infinity false)
  else if String.eqb s "-inf" then Ret (S754_infinity true)
  else
    let '(neg, body) :=
      match s with
      | String "-"%char s' => (true, s')
      | _ => (false, s)
      end in
    let '(ip, fp) := split_at_dot body in
    match parse_number ip, fp with
    | Some i, None => Ret (nearest_decimal neg i 0)
    | Some i, Some f =>
        match parse_number f with
        | Some k =>
            let nd := Z.of_nat (String.length f) in
            Ret (nearest_decimal neg (i * 10 ^ nd + k) nd)
        | None => bad
        end
    | None, _ => bad
    end.

#[global] Instance runtime : Runtime := {
  datetime := naive_datetime;
  isoformat := print_datetime;
  fromisoformat := parse_datetime;
  float_repr := print_float;
  float_of_string := parse_float
}.

Definition created : naive_datetime := mkDatetime 2025 3 9 14 5 0.

(** A graded submission with a silver medal. *)
Definition report : CompetitionReport.report :=
  CompetitionReport.mkReport
    (VStr "spaceship-titanic") (VFloat (decimal 81234 5))
    (VFloat (decimal 82066 5)) (VFloat (decimal 81388 5))
    (VFloat (decimal 80967 5)) (VFloat (decimal 79565 5))
    (VBool false) (VBool false) (VBool false) (VBool false) (VBool true)
    (VBool true) (VBool true) (VBool false)
    created (VStr "runs/0/submission.csv").

(** A report whose score is an integer. *)
Definition int_report : CompetitionReport.report :=
  CompetitionReport.mkReport
    (VStr "count-the-peaks") (VInt 17)
    (VFloat (decimal 20 0)) (VFloat (decimal 18 0))
    (VFloat (decimal 15 0)) (VFloat (decimal 9 0))
    (VBool true) (VBool false) (VBool false) (VBool true) (VBool true)
    (VBool true) (VBool true) (VBool false)
    created (VStr "runs/1/submission.csv").

Definition code_report : CodeCompetitionReport.report :=
  CodeCompetitionReport.mkReport
    (VStr "refactor-pipeline") (VStr "Loader,Model") (VStr "Loader")
    (VStr "Loader.read") VNone (VStr "main") (VStr "main") VNone
    (VBool true) (VBool false)
    created (VStr "runs/2/solution.py").

(** A report built before any threshold was computed. *)
Definition unranked_report : CompetitionReport.report :=
  CompetitionReport.mkReport
    (VStr "spaceship-titanic") VNone VNone VNone VNone VNone
    VNone VNone VNone VNone VNone
    (VBool false) (VBool false) (VBool false)
    created (VStr "runs/3/submission.csv").

(** A report with thresholds whose medal flags are unset. *)
Definition unflagged_report : CompetitionReport.report :=
  CompetitionReport.mkReport
    (VStr "spaceship-titanic") VNone
    (VFloat (decimal 82066 5)) (VFloat (decimal 81388 5))
    (VFloat (decimal 80967 5)) (VFloat (decimal 79565 5))
    VNone VNone VNone VNone VNone
    (VBool false) (VBool false) (VBool false)
    created (VStr "runs/3/submission.csv").

(** A store holding one dictionary that lacks most keys. *)
Definition small_dict : dict :=
  <["competition_id" := VStr "x"]> (<["score" := VNone]> ∅).
Definition small_store : store := <[1%positive := small_dict]> ∅.

(** The dictionary of a graded submission as it is read back from
    JSON, with one key the report does not have. *)
Definition encoded : dict :=
  list_to_map
    [("competition_id", VStr "spaceship-titanic");
     ("score", VStr "0.81234");
     ("gold_threshold", VFloat (decimal 82066 5));
     ("silver_threshold", VFloat (decimal 81388 5));
     ("bronze_threshold", VInt 1);
     ("median_threshold", VFloat (decimal 79565 5));
     ("any_medal", VBool false);
     ("gold_medal", VBool false);
     ("silver_medal", VBool false);
     ("bronze_medal", VBool false);
     ("above_median", VBool true);
     ("submission_exists", VBool true);
     ("valid_submission", VInt 1);
     ("is_lower_better", VBool false);
     ("created_at", VStr "2025-03-09T14:05:00");
     ("submission_path", VStr "runs/0/submission.csv");
     ("agent", VStr "baseline")].

Definition encoded_store : store := <[1%positive := encoded]> ∅.

(** What [encoded] decodes to. *)
Definition decoded : CompetitionReport.report :=
  CompetitionReport.mkReport
    (VStr "spaceship-titanic") (VFloat (decimal 81234 5))
    (VFloat (decimal 82066 5)) (VFloat (decimal 81388 5))
    (VFloat (decimal 1 0)) (VFloat (decimal 79565 5))
    (VBool false) (VBool false) (VBool false) (VBool false) (VBool true)
    (VBool true) (VBool true) (VBool false)
    created (VStr "runs/0/submission.csv").

End ExampleRuntime.

(** ** Facts about the binary64 operations *)

Module IEEE.

Lemma digits2_pos_bounds (p : positive) :
  2 ^ (Z.pos (digits2_pos p) - 1) <= Z.pos p < 2 ^ Z.pos (digits2_pos p).
Proof.
  induction p as [p IH | p IH |]; cbn [digits2_pos].
  - rewrite Pos2Z.inj_succ, Z.pow_succ_r by lia.
    replace (Z.succ (Z.pos (digits2_pos p)) - 1)
      with (Z.succ (Z.pos (digits2_pos p) - 1)) by lia.
    rewrite Z.pow_succ_r by lia. lia.
  - rewrite Pos2Z.inj_succ, Z.pow_succ_r by lia.
    replace (Z.succ (Z.pos (digits2_pos p)) - 1)
      with (Z.succ (Z.pos (digits2_pos p) - 1)) by lia.
    rewrite Z.pow_succ_r by lia. lia.
  - cbn. lia.
Qed.

Lemma digits2_pos_unique (p : positive) (d : Z) :
  2 ^ (d - 1) <= Z.pos p < 2 ^ d -> Z.pos (digits2_pos p) = d.
Proof.
  intros [Hlo Hhi].
  pose proof (digits2_pos_bounds p) as [Hlo' Hhi'].
  assert (0 < d).
  { destruct (Z.le_gt_cases d 0) as [Hd|Hd]; [|lia].
    assert (2 ^ d <= 2 ^ 0) by (apply Z.pow_le_mono_r; lia).
    change (2 ^ 0) with 1 in *. lia. }
  destruct (Z.lt_trichotomy (Z.pos (digits2_pos p)) d) as [Hlt|[Heq|Hgt]];
    [exfalso|exact Heq|exfalso].
  - assert (2 ^ Z.pos (digits2_pos p) <= 2 ^ (d - 1))
      by (apply Z.pow_le_mono_r; lia). lia.
  - assert (2 ^ d <= 2 ^ (Z.pos (digits2_pos p) - 1))
      by (apply Z.pow_le_mono_r; lia). lia.
Qed.

Lemma iter_pos_nat {A} (f : A -> A) (p : positive) (x : A) :
  SpecFloat.iter_pos f p x = Nat.iter (Pos.to_nat p) f x.
Proof.
  revert x; induction p as [p IH | p IH |]; intros x; cbn [SpecFloat.iter_pos].
  - rewrite !IH, Pos2Nat.inj_xI.
    rewrite <- Nat.iter_succ_r.
    replace (S (2 * Pos.to_nat p))%nat
      with (Pos.to_nat p + S (Pos.to_nat p))%nat by lia.
    now rewrite Nat.iter_add.
  - rewrite !IH, Pos2Nat.inj_xO.
    replace (2 * Pos.to_nat p)%nat
      with (Pos.to_nat p + Pos.to_nat p)%nat by lia.
    now rewrite Nat.iter_add.
  - reflexivity.
Qed.

Lemma shr_1_nonneg (m : Z) (r s : bool) :
  0 <= m ->
  shr_1 (Build_shr_record m r s)
  = Build_shr_record (Z.div2 m) (Z.odd m) (r || s).
Proof. destruct m as [|[p|p|]|p]; intros Hm; try reflexivity; lia. Qed.

(** After [k+1] right shifts the mantissa is the quotient by
    [2^(k+1)] and the round bit is bit [k] of the original. *)
Lemma shr_iter (k : nat) (m : Z) (r s : bool) :
  0 <= m ->
  let R := Nat.iter (S k) shr_1 (Build_shr_record m r s) in
  shr_m R = m / 2 ^ Z.of_nat (S k) /\ shr_r R = Z.testbit m (Z.of_nat k).
Proof.
  intros Hm. induction k as [|k IH].
  - cbn [Nat.iter]. rewrite shr_1_nonneg by assumption. cbn [shr_m shr_r].
    split.
    + now rewrite Z.div2_div.
    + now rewrite Z.bit0_odd.
  - cbn zeta in IH. destruct IH as [IHm IHr].
    cbv zeta. rewrite Nat.iter_succ.
    destruct (Nat.iter (S k) shr_1 (Build_shr_record m r s)) as [m' r' s'].
    cbn [shr_m shr_r] in *. subst m'.
    assert (0 <= m / 2 ^ Z.of_nat (S k)) by (apply Z.div_pos; lia).
    rewrite shr_1_nonneg by assumption. cbn [shr_m shr_r].
    split.
    + rewrite Z.div2_div, Z.div_div by lia.
      f_equal. rewrite (Nat2Z.inj_succ (S k)), Z.pow_succ_r; lia.
    + rewrite Z.testbit_odd, Z.shiftr_div_pow2 by lia. reflexivity.
Qed.

Lemma fexp_normal (x : Z) :
  -1074 <= x - 53 -> fexp prec emax x = x - 53.
Proof. intros H. unfold fexp, emin, prec, emax. lia. Qed.

(** A mantissa of exactly 53 bits in the normal range is left alone. *)
Lemma shr_fexp_53 (m : positive) (e : Z) :
  Z.pos (digits2_pos m) = 53 -> -1074 <= e ->
  shr_fexp prec emax (Z.pos m) e loc_Exact
  = (Build_shr_record (Z.pos m) false false, e).
Proof.
  intros Hd He. unfold shr_fexp. cbn [Zdigits2 shr_record_of_loc].
  rewrite Hd, fexp_normal by lia.
  replace (53 + e - 53 - e) with 0 by lia. reflexivity.
Qed.

(** Rounding a positive mantissa [p] of [53 + k] bits, [k > 0], in
    the normal range: the result is finite, its value is a multiple
    [V] of [2^(e+k)], [V] is the quotient of [p] by [2^k] or its
    successor, and the successor is taken only when the first
    discarded bit is set. *)
Lemma round_aux_normal (s : bool) (p : positive) (e k : Z) :
  k = Z.pos (digits2_pos p) - 53 -> 0 < k ->
  -1074 <= e + k -> e + k + 1 <= 971 ->
  exists (V : Z) (m2 : positive) (e2 : Z),
    binary_round_aux prec emax s (Z.pos p) e loc_Exact = S754_finite s m2 e2
    /\ V = Z.pos m2 * 2 ^ (e2 - (e + k))
    /\ e + k <= e2 <= e + k + 1
    /\ Z.pos p / 2 ^ k <= V <= Z.pos p / 2 ^ k + 1
    /\ (V = Z.pos p / 2 ^ k + 1 -> Z.testbit (Z.pos p) (k - 1) = true).
Proof.
  intros Hk Hkpos Hlo Hhi.
  pose proof (digits2_pos_bounds p) as [Hplo Hphi].
  set (d := Z.pos (digits2_pos p)) in *.
  assert (Hd : d = 53 + k) by lia.
  (* the quotient has exactly 53 bits *)
  assert (Hfl : 2 ^ 52 <= Z.pos p / 2 ^ k < 2 ^ 53).
  { rewrite Hd in Hplo, Hphi.
    replace (53 + k - 1) with (52 + k) in Hplo by lia.
    rewrite Z.pow_add_r in Hplo, Hphi by lia.
    assert (0 < 2 ^ k) by (apply Z.pow_pos_nonneg; lia).
    split.
    - apply Z.div_le_lower_bound; lia.
    - apply Z.div_lt_upper_bound; lia. }
  set (fl := Z.pos p / 2 ^ k) in *.
  unfold binary_round_aux.
  (* first shift *)
  assert (Hs1 : exists r1 s1,
    shr_fexp prec emax (Z.pos p) e loc_Exact
    = (Build_shr_record fl r1 s1, e + k)
    /\ r1 = Z.testbit (Z.pos p) (k - 1)).
  { unfold shr_fexp. cbn [Zdigits2 shr_record_of_loc]. fold d.
    rewrite fexp_normal by lia.
    replace (d + e - 53 - e) with k by lia.
    destruct k as [|kp|kp]; try lia. cbn [shr].
    rewrite iter_pos_nat.
    destruct (Pos2Nat.is_succ kp) as [k' Hk'].
    rewrite Hk'.
    pose proof (shr_iter k' (Z.pos p) false false ltac:(lia)) as Hit.
    cbv zeta in Hit.
    destruct (Nat.iter (S k') shr_1 (Build_shr_record (Z.pos p) false false))
      as [m1 r1 s1].
    cbn [shr_m shr_r] in Hit. destruct Hit as [Hm1 Hr1].
    assert (Hkk : Z.of_nat (S k') = Z.pos kp) by lia.
    rewrite Hkk in Hm1.
    exists r1, s1. split.
    - subst m1. reflexivity.
    - rewrite Hr1. f_equal. lia. }
  destruct Hs1 as (r1 & s1 & -> & Hr1).
  cbn [shr_m].
  set (V := round_nearest_even fl (loc_of_shr_record (Build_shr_record fl r1 s1))).
  assert (HV : fl <= V <= fl + 1 /\ (V = fl + 1 -> r1 = true)).
  { subst V. destruct r1, s1; cbn [loc_of_shr_record round_nearest_even];
      try destruct (Z.even fl); split; try lia; intros; auto; lia. }
  destruct HV as [HVb HVr].
  destruct (Z.eq_dec V (2 ^ 53)) as [Htop | Hntop].
  - (* the mantissa overflowed to 2^53: one more shift *)
    exists V, (2 ^ 52)%positive, (e + k + 1).
    rewrite Htop.
    change (2 ^ 53) with (Z.pos (2 ^ 53)).
    unfold shr_fexp. cbn [Zdigits2 shr_record_of_loc].
    change (Z.pos (digits2_pos (2 ^ 53))) with 54.
    rewrite fexp_normal by lia.
    replace (54 + (e + k) - 53 - (e + k)) with 1 by lia.
    cbn [shr SpecFloat.iter_pos shr_1 shr_m].
    change (Z.pos (2 ^ 53)) with (2 ^ 53) in *.
    destruct (Z.leb_spec (e + k + 1) (emax - prec)) as [_|Hbad];
      [|unfold emax, prec in Hbad; lia].
    repeat split; try lia.
    + replace (e + k + 1 - (e + k)) with 1 by lia. reflexivity.
    + intros HV1. rewrite <- Hr1. apply HVr. lia.
  - assert (HVpos : 0 < V) by lia.
    destruct V as [|v|v] eqn:EV; try lia.
    exists (Z.pos v), v, (e + k).
    assert (Hdv : Z.pos (digits2_pos v) = 53)
      by (apply digits2_pos_unique; change (2 ^ (53 - 1)) with (2 ^ 52); lia).
    rewrite shr_fexp_53 by (assumption || lia).
    cbn [shr_m].
    destruct (Z.leb_spec (e + k) (emax - prec)) as [_|Hbad];
      [|unfold emax, prec in Hbad; lia].
    repeat split; try lia.
    + rewrite Z.sub_diag. change (2 ^ 0) with 1. lia.
    + intros HV1. rewrite <- Hr1. apply HVr. lia.
Qed.

Lemma round_aux_53 (s : bool) (m : positive) (e : Z) :
  Z.pos (digits2_pos m) = 53 -> -1074 <= e <= 971 ->
  binary_round_aux prec emax s (Z.pos m) e loc_Exact = S754_finite s m e.
Proof.
  intros Hd He. unfold binary_round_aux.
  rewrite shr_fexp_53 by (assumption || lia).
  cbn [shr_m loc_of_shr_record round_nearest_even].
  rewrite shr_fexp_53 by (assumption || lia).
  cbn [shr_m].
  destruct (Z.leb_spec e (emax - prec)) as [_|Hbad];
    [reflexivity | unfold emax, prec in Hbad; lia].
Qed.

Lemma iter_xO_pow (p dd : positive) :
  Z.pos (Pos.iter xO p dd) = Z.pos p * 2 ^ Z.pos dd.
Proof.
  induction dd as [|dd IH] using Pos.peano_ind.
  - cbn [Pos.iter]. lia.
  - rewrite Pos.iter_succ, Pos2Z.inj_xO, IH, Pos2Z.inj_succ, Z.pow_succ_r; lia.
Qed.

(** Integers below [2^53] convert exactly: the mantissa is the
    integer shifted left to 53 bits. *)
Lemma float_of_int_exact (p : positive) :
  let d := Z.pos (digits2_pos p) in
  d <= 53 ->
  exists mz : positive,
    float_of_int (Z.pos p) = Ret (S754_finite false mz (d - 53))
    /\ Z.pos mz = Z.pos p * 2 ^ (53 - d)
    /\ Z.pos (digits2_pos mz) = 53.
Proof.
  intros d Hd.
  pose proof (digits2_pos_bounds p) as [Hplo Hphi]. fold d in Hplo, Hphi.
  assert (0 < d) by (subst d; lia).
  unfold float_of_int, binary_normalize, binary_round, shl_align. fold d.
  rewrite fexp_normal by lia.
  replace (d + 0 - 53 - 0) with (d - 53) by lia.
  replace (d + 0 - 53) with (d - 53) by lia.
  destruct (d - 53) as [|dd|dd] eqn:Edd; try lia.
  - exists p. assert (d = 53) by lia.
    rewrite round_aux_53 by lia.
    repeat split; try lia.
    replace (53 - d) with 0 by lia. lia.
  - exists (Pos.iter xO p dd).
    assert (Hmz : Z.pos (Pos.iter xO p dd) = Z.pos p * 2 ^ (53 - d)).
    { rewrite iter_xO_pow. f_equal. f_equal. lia. }
    assert (Hdz : Z.pos (digits2_pos (Pos.iter xO p dd)) = 53).
    { apply digits2_pos_unique. rewrite Hmz.
      assert (E1 : 2 ^ (53 - 1) = 2 ^ (d - 1) * 2 ^ (53 - d))
        by (rewrite <- Z.pow_add_r by lia; f_equal; lia).
      assert (E2 : 2 ^ 53 = 2 ^ d * 2 ^ (53 - d))
        by (rewrite <- Z.pow_add_r by lia; f_equal; lia).
      rewrite E1, E2.
      assert (0 < 2 ^ (53 - d)) by (apply Z.pow_pos_nonneg; lia).
      nia. }
    rewrite round_aux_53 by lia.
    repeat split; assumption.
Qed.

Lemma testbit_mod_half (a k : Z) :
  0 < k -> Z.testbit a (k - 1) = true -> 2 ^ (k - 1) <= a mod 2 ^ k.
Proof.
  intros Hk Hb. apply Z.testbit_true in Hb; [|lia].
  assert (Hh : 0 < 2 ^ (k - 1)) by (apply Z.pow_pos_nonneg; lia).
  assert (E : 2 ^ k = 2 ^ (k - 1) * 2 ^ 1)
    by (rewrite <- Z.pow_add_r by lia; f_equal; lia).
  rewrite E. change (2 ^ 1) with 2.
  rewrite Z.rem_mul_r by lia. rewrite Hb.
  pose proof (Z.mod_pos_bound a (2 ^ (k - 1)) Hh). lia.
Qed.

(** The arithmetic core: a value [V] obtained from [P] by rounding to
    a multiple of [K = 2 Kh], where [D P = (q D + r) W + x] and [W]
    is [T K], has integer part [q] as soon as the excess [x] and half
    a unit stay below [W]. *)
Lemma floor_of_rounded (P V K Kh T W D q r x : Z) :
  0 < Kh -> K = 2 * Kh -> 0 < T -> W = T * K -> 0 < D ->
  0 <= q -> 0 <= r <= D - 1 -> 0 <= x ->
  D * P = (q * D + r) * W + x ->
  x + D * Kh < W ->
  P / K <= V <= P / K + 1 ->
  (V = P / K + 1 -> Kh <= P mod K) ->
  q * T <= V < (q + 1) * T.
Proof.
  intros HKh HK HT HW HD Hq Hr Hx HP Hsmall HV Hup.
  assert (HKpos : 0 < K) by lia.
  pose proof (Z.div_mod P K ltac:(lia)) as Hdm.
  pose proof (Z.mod_pos_bound P K HKpos) as Hmod.
  set (fl := P / K) in *. set (rm := P mod K) in *.
  assert (HPlo : q * W <= P) by nia.
  assert (HPhi : P + Kh < (q + 1) * W) by nia.
  split.
  - assert (q * T <= fl); [|lia].
    assert (q * T * K < (fl + 1) * K) by nia.
    assert (q * T < fl + 1) by nia. lia.
  - destruct (Z.eq_dec V (fl + 1)) as [E|NE].
    + specialize (Hup E).
      assert (V * K < (q + 1) * T * K) by nia.
      nia.
    + assert (V = fl) by lia. subst V.
      assert (fl * K < (q + 1) * T * K) by nia.
      nia.
Qed.

(** [int(n * c)] is the exact integer part of [n A / D] when the
    double [c = M / 2^E] sits just above the fraction [A / D]. *)
Lemma int_mul_exact (n : Z) (M : positive) (E A D kk : Z) :
  1 <= n < 2 ^ 50 ->
  Z.pos (digits2_pos M) = 53 ->
  54 <= E <= 61 -> 0 < A -> 0 < D -> 0 <= kk ->
  D * Z.pos M = A * 2 ^ E + kk ->
  kk * 2 ^ 53 + D * 2 ^ 52 < 2 ^ (E + 3) ->
  int_mul n (S754_finite false M (- E)) = Ret (n * A / D).
Proof.
  intros Hn HdM HE HA HD Hkk HM Hsmall.
  destruct n as [|p|p]; try lia.
  pose proof (digits2_pos_bounds p) as [Hplo Hphi].
  set (d := Z.pos (digits2_pos p)) in *.
  assert (Hd : 1 <= d <= 50).
  { split; [subst d; lia|].
    destruct (Z.le_gt_cases d 50) as [|Hgt]; [assumption|].
    assert (2 ^ 50 <= 2 ^ (d - 1)) by (apply Z.pow_le_mono_r; lia). lia. }
  destruct (float_of_int_exact p ltac:(fold d; lia)) as (mz & Hf & Hmz & Hdz).
  fold d in Hf, Hmz.
  unfold int_mul. rewrite Hf. cbn [mbind result_bind].
  unfold fmul. cbn [SFmul xorb].
  (* the product of two 53-bit mantissas has 105 or 106 bits *)
  pose proof (digits2_pos_bounds mz) as [Hzlo Hzhi]. rewrite Hdz in Hzlo, Hzhi.
  pose proof (digits2_pos_bounds M) as [HMlo HMhi]. rewrite HdM in HMlo, HMhi.
  change (2 ^ (53 - 1)) with (2 ^ 52) in *.
  pose proof (digits2_pos_bounds (mz * M)) as [HPlo HPhi].
  rewrite Pos2Z.inj_mul in HPlo, HPhi.
  set (dP := Z.pos (digits2_pos (mz * M))) in *.
  assert (HdP : 105 <= dP <= 106).
  { assert (Hlo : 2 ^ 104 <= Z.pos mz * Z.pos M)
      by (change (2 ^ 104) with (2 ^ 52 * 2 ^ 52); nia).
    assert (Hhi : Z.pos mz * Z.pos M < 2 ^ 106)
      by (change (2 ^ 106) with (2 ^ 53 * 2 ^ 53); nia).
    split.
    - destruct (Z.le_gt_cases 105 dP) as [|Hgt]; [assumption|].
      assert (2 ^ dP <= 2 ^ 104) by (apply Z.pow_le_mono_r; subst dP; lia). lia.
    - destruct (Z.le_gt_cases dP 106) as [|Hgt]; [assumption|].
      assert (2 ^ 106 <= 2 ^ (dP - 1)) by (apply Z.pow_le_mono_r; lia). lia. }
  set (k := dP - 53).
  destruct (round_aux_normal false (mz * M) (d - 53 + - E) k)
    as (V & m2 & e2 & Hr & HV & He2 & HVb & HVup);
    [subst k dP; reflexivity | lia | lia | lia |].
  rewrite Hr. cbn [int_of_float].
  destruct (Z.leb_spec 0 e2) as [Hbad|_]; [lia|].
  f_equal.
  (* the integer part of the result, in units of [2^T] *)
  set (T := - (d - 53 + - E + k)) in *.
  assert (HT : 0 < T) by lia.
  assert (Hdiv : Z.pos m2 / 2 ^ (- e2) = V / 2 ^ T).
  { rewrite HV.
    replace (2 ^ T) with (2 ^ (- e2) * 2 ^ (e2 - (d - 53 + - E + k)))
      by (rewrite <- Z.pow_add_r by lia; f_equal; lia).
    rewrite Z.div_mul_cancel_r; [reflexivity| |];
      apply Z.pow_nonzero; lia. }
  rewrite Hdiv.
  set (S := 2 ^ (53 - d)) in *.
  assert (HS : 2 ^ 3 <= S) by (apply Z.pow_le_mono_r; lia).
  assert (HW : 2 ^ E * S = 2 ^ T * 2 ^ k)
    by (unfold S; rewrite <- !Z.pow_add_r by lia; f_equal; lia).
  assert (HKh : 2 ^ k = 2 * 2 ^ (k - 1))
    by (rewrite <- Z.pow_succ_r by lia; f_equal; lia).
  assert (HKhb : 0 < 2 ^ (k - 1) <= 2 ^ 52)
    by (split; [apply Z.pow_pos_nonneg; lia | apply Z.pow_le_mono_r; lia]).
  assert (HTpos : 0 < 2 ^ T) by (apply Z.pow_pos_nonneg; lia).
  assert (HE3 : 2 ^ (E + 3) = 2 ^ E * 2 ^ 3) by (apply Z.pow_add_r; lia).
  assert (HEpos : 0 < 2 ^ E) by (apply Z.pow_pos_nonneg; lia).
  pose proof (Z.div_mod (Z.pos p * A) D ltac:(lia)) as Hqr.
  pose proof (Z.mod_pos_bound (Z.pos p * A) D HD) as Hrb.
  assert (Hq0 : 0 <= Z.pos p * A / D) by (apply Z.div_pos; lia).
  set (q := Z.pos p * A / D) in *. set (r := Z.pos p * A mod D) in *.
  symmetry. apply (Z.div_unique_pos V (2 ^ T) q (V - q * 2 ^ T)); [|lia].
  assert (Hfl : q * 2 ^ T <= V < (q + 1) * 2 ^ T); [|lia].
  apply (floor_of_rounded (Z.pos (mz * M)) V (2 ^ k) (2 ^ (k - 1)) (2 ^ T)
           (2 ^ E * S) D q r (Z.pos mz * kk)); try lia.
  - assert (Z.pos mz * kk <= 2 ^ 53 * kk) by nia.
    assert (D * 2 ^ (k - 1) <= D * 2 ^ 52) by nia.
    nia.
  - intros HVs. apply testbit_mod_half; [lia|]. apply HVup. exact HVs.
Qed.

Ltac by_int_mul_exact E A D kk :=
  intros; unfold c_0_1, c_0_2, c_0_4, c_0_05, c_0_002;
  match goal with
  | |- int_mul ?n (S754_finite false ?M _) = _ =>
      let H := fresh in
      pose proof (int_mul_exact n M E A D kk) as H;
      (let t := eval cbv in (Z.opp E) in change (Z.opp E) with t in H);
      rewrite H by (reflexivity || lia);
      rewrite ?Z.mul_1_r; reflexivity
  end.

Lemma int_mul_0_1 (n : Z) : 1 <= n < 2 ^ 50 -> int_mul n c_0_1 = Ret (n / 10).
Proof. by_int_mul_exact 56 1 10 4. Qed.

Lemma int_mul_0_2 (n : Z) : 1 <= n < 2 ^ 50 -> int_mul n c_0_2 = Ret (n / 5).
Proof. by_int_mul_exact 55 1 5 2. Qed.

Lemma int_mul_0_4 (n : Z) : 1 <= n < 2 ^ 50 -> int_mul n c_0_4 = Ret (n * 2 / 5).
Proof. by_int_mul_exact 54 2 5 2. Qed.

Lemma int_mul_0_05 (n : Z) : 1 <= n < 2 ^ 50 -> int_mul n c_0_05 = Ret (n / 20).
Proof. by_int_mul_exact 57 1 20 8. Qed.

Lemma int_mul_0_002 (n : Z) : 1 <= n < 2 ^ 50 -> int_mul n c_0_002 = Ret (n / 500).
Proof. by_int_mul_exact 61 1 500 48. Qed.

(** The literals are the doubles Python reads. *)
Example literals_are_nearest :
  c_0_1 = decimal 1 1 /\ c_0_2 = decimal 2 1 /\ c_0_4 = decimal 4 1
  /\ c_0_05 = decimal 5 2 /\ c_0_002 = decimal 2 3.
Proof. vm_compute. repeat split. Qed.

(** [3 * 0.1] is [0.30000000000000004], of integer part [0]. *)
Example int_mul_3 :
  fmul (Examples.fl 3) c_0_1 = S754_finite false 5404319552844596 (-54)
  /\ int_mul 3 c_0_1 = Ret 0.
Proof. vm_compute. split; reflexivity. Qed.

(** Beyond the certified range the product is no longer the exact
    integer part. *)
Example int_mul_huge :
  int_mul (2 ^ 60) c_0_1 = Ret 115292150460684704
  /\ 2 ^ 60 / 10 = 115292150460684697.
Proof. vm_compute. split; reflexivity. Qed.

End IEEE.

(** ** Facts on ranking *)

Section RankingFacts.
Import Grader.

Lemma iloc_lookup {A} (s : list A) (j : Z) (x : A) :
  0 <= j -> s !! Z.to_nat j = Some x -> iloc s j = Ret x.
Proof.
  intros Hj Hx. unfold iloc.
  pose proof (lookup_lt_Some _ _ _ Hx) as Hlen.
  destruct (Z.ltb_spec j 0); [lia|].
  destruct (Z.leb_spec 0 j); [|lia].
  destruct (Z.ltb_spec j (Z.of_nat (length s))); [|lia].
  cbn. now rewrite Hx.
Qed.

Lemma get_score_at_position_ok {A} (scores : list A) (p : Z) :
  1 <= p <= Z.of_nat (length scores) ->
  exists x, scores !! Z.to_nat (p - 1) = Some x
            /\ get_score_at_position scores p = Ret x.
Proof.
  intros Hp.
  destruct (lookup_lt_is_Some_2 scores (Z.to_nat (p - 1)) ltac:(lia)) as [x Hx].
  exists x. split; [exact Hx|].
  unfold get_score_at_position.
  destruct (Z.geb_spec (p - 1) (Z.of_nat (length scores))); [lia|].
  destruct (Z.ltb_spec p 1); [lia|].
  cbn. apply iloc_lookup; [lia | exact Hx].
Qed.

(** On the certified range the code's positions are the table's. *)
Lemma get_thresholds_spec {A} (look : Z -> result A) (med : A) (n : Z) :
  1 <= n < max_rows ->
  get_thresholds look med n
  = (let '(pg, ps, pb) := spec_positions n in
     g ← look pg; s ← look ps; b ← look pb; Ret (g, s, b, med)).
Proof.
  intros Hn. unfold max_rows in Hn. unfold get_thresholds, spec_positions.
  rewrite ?IEEE.int_mul_0_1, ?IEEE.int_mul_0_2, ?IEEE.int_mul_0_4,
    ?IEEE.int_mul_0_05, ?IEEE.int_mul_0_002 by exact Hn.
  destruct (Z.leb_spec 1 n); [|lia].
  destruct (Z.ltb_spec n 100); cbn [andb mbind result_bind].
  { destruct (look (Z.max 1 (n / 10))); [|reflexivity].
    destruct (look (Z.max 1 (n / 5))); [|reflexivity].
    destruct (look (Z.max 1 (n * 2 / 5))); reflexivity. }
  destruct (Z.leb_spec 100 n); [|lia].
  destruct (Z.ltb_spec n 250); cbn [andb mbind result_bind].
  { destruct (look 10); [|reflexivity].
    destruct (look (Z.max 1 (n / 5))); [|reflexivity].
    destruct (look (Z.max 1 (n * 2 / 5))); reflexivity. }
  destruct (Z.leb_spec 250 n); [|lia].
  destruct (Z.ltb_spec n 1000); cbn [andb mbind result_bind].
  { destruct (look (10 + n / 500)); [|reflexivity].
    destruct (look 50); [|reflexivity].
    destruct (look 100); reflexivity. }
  destruct (Z.geb_spec n 1000); [|lia].
  destruct (look (10 + n / 500)); [|reflexivity].
  destruct (look (Z.max 1 (n / 20))); [|reflexivity].
  destruct (look (Z.max 1 (n / 10))); reflexivity.
Qed.

Lemma spec_positions_in_range (n : Z) :
  1 <= n ->
  let '(pg, ps, pb) := spec_positions n in
  1 <= pg <= n /\ 1 <= ps <= n /\ 1 <= pb <= n.
Proof.
  intros Hn. unfold spec_positions.
  pose proof (Z.div_le_upper_bound n 10 n ltac:(lia) ltac:(lia)).
  pose proof (Z.div_le_upper_bound n 5 n ltac:(lia) ltac:(lia)).
  pose proof (Z.div_le_upper_bound (n * 2) 5 n ltac:(lia) ltac:(lia)).
  pose proof (Z.div_le_upper_bound n 20 n ltac:(lia) ltac:(lia)).
  pose proof (Z.div_pos n 500 ltac:(lia) ltac:(lia)).
  destruct (Z.ltb_spec n 100); [lia|].
  destruct (Z.ltb_spec n 250); [lia|].
  assert (n / 500 <= n - 10).
  { apply Z.div_le_upper_bound; lia. }
  destruct (Z.ltb_spec n 1000); lia.
Qed.

(** What [df[name]] gives, by the number of columns under the label. *)
Lemma getitem_cases (lb : DataFrame) (name : string) :
  match getitem lb name with
  | Ret (Column s) =>
      labelled lb name = 1%nat /\ has_column lb name = true
      /\ s = map (fun r => r name) (rows lb)
  | Ret (Frame f) =>
      (2 <= labelled lb name)%nat /\ has_column lb name = true
      /\ rows f = rows lb
  | Raise e =>
      labelled lb name = 0%nat /\ has_column lb name = false
      /\ e = mkExn KeyError name
  end.
Proof.
  unfold getitem, labelled, has_column.
  destruct (filter (fun c => c = name) (columns lb)) as [|c [|c' l]] eqn:E.
  - split; [reflexivity|]. split; [|reflexivity].
    apply bool_decide_eq_false. intros Hin.
    assert (Hf : name ∈ filter (fun c => c = name) (columns lb))
      by (apply list_elem_of_filter; auto).
    rewrite E in Hf. inversion Hf.
  - split; [reflexivity|]. split; [|reflexivity].
    apply bool_decide_eq_true.
    assert (Hf : c ∈ filter (fun c => c = name) (columns lb))
      by (rewrite E; constructor).
    apply list_elem_of_filter in Hf as [-> Hin]. exact Hin.
  - split; [cbn [length]; lia|]. split; [|reflexivity].
    apply bool_decide_eq_true.
    assert (Hf : c ∈ filter (fun c => c = name) (columns lb))
      by (rewrite E; constructor).
    apply list_elem_of_filter in Hf as [-> Hin]. exact Hin.
Qed.

Lemma getitem_score (lb : DataFrame) (scores : Series) :
  getitem lb "score" = Ret (Column scores) ->
  has_column lb "score" = true /\ Z.of_nat (length scores) = len lb.
Proof.
  intros Hs. pose proof (getitem_cases lb "score") as Hc. rewrite Hs in Hc.
  destruct Hc as (_ & Hcol & ->). split; [exact Hcol|].
  unfold len. now rewrite length_map.
Qed.

(** Reading a table under a duplicated label: [is_lower_better]
    raises, on the first positional read when there is no row and on
    [bool] otherwise. *)
Lemma is_lower_better_frame (lb f : DataFrame) :
  getitem lb "score" = Ret (Frame f) ->
  exists e, is_lower_better lb = Raise e
            /\ exn_cls e = (if len lb =? 0 then IndexError else ValueError).
Proof.
  intros Hf. pose proof (getitem_cases lb "score") as Hc. rewrite Hf in Hc.
  destruct Hc as (_ & _ & Hrows).
  unfold is_lower_better. rewrite Hf. cbn [mbind result_bind].
  unfold len. rewrite Hrows.
  destruct (rows lb) as [|r l] eqn:Er.
  - eexists. split; reflexivity.
  - assert (Hfirst : iloc (r :: l) 0 = Ret r) by reflexivity.
    assert (Hlast : exists z, iloc (r :: l) (-1) = Ret z).
    { destruct (lookup_lt_is_Some_2 (r :: l) (length l) ltac:(cbn; lia))
        as [z Hz].
      exists z. unfold iloc. cbn [Z.ltb Z.compare].
      destruct (Z.leb_spec 0 (Z.of_nat (length (r :: l)) + -1));
        [|cbn [length] in *; lia].
      destruct (Z.ltb_spec (Z.of_nat (length (r :: l)) + -1)
                  (Z.of_nat (length (r :: l)))); [|lia].
      cbn [andb].
      replace (Z.to_nat (Z.of_nat (length (r :: l)) + -1)) with (length l)
        by (cbn [length]; lia).
      now rewrite Hz. }
    destruct Hlast as [z Hz]. rewrite Hfirst, Hz. cbn [mbind result_bind].
    eexists. split; [reflexivity|].
    replace (Z.of_nat (length (r :: l)) =? 0) with false
      by (symmetry; apply Z.eqb_neq; cbn [length]; lia).
    reflexivity.
Qed.

Lemma is_lower_better_nonempty (lb : DataFrame) (scores : Series) :
  getitem lb "score" = Ret (Column scores) -> 1 <= len lb ->
  exists top bottom,
    scores !! 0%nat = Some top
    /\ scores !! (length scores - 1)%nat = Some bottom
    /\ is_lower_better lb = Ret (flt top bottom).
Proof.
  intros Hs Hn. destruct (getitem_score _ _ Hs) as [_ Hlen].
  destruct (lookup_lt_is_Some_2 scores 0%nat ltac:(lia)) as [top Ht].
  destruct (lookup_lt_is_Some_2 scores (length scores - 1)%nat ltac:(lia))
    as [bottom Hb].
  exists top, bottom. split; [exact Ht|]. split; [exact Hb|].
  unfold is_lower_better. rewrite Hs. cbn [mbind result_bind].
  rewrite (iloc_lookup scores 0 top) by (lia || exact Ht).
  cbn [mbind result_bind].
  assert (Hlast : iloc scores (-1) = Ret bottom).
  { unfold iloc. cbn [Z.ltb Z.compare].
    destruct (Z.leb_spec 0 (Z.of_nat (length scores) + -1)); [|lia].
    destruct (Z.ltb_spec (Z.of_nat (length scores) + -1)
                (Z.of_nat (length scores))); [|lia].
    cbn [andb].
    replace (Z.to_nat (Z.of_nat (length scores) + -1))
      with (length scores - 1)%nat by lia.
    now rewrite Hb. }
  rewrite Hlast. reflexivity.
Qed.

(** On a non-empty leaderboard [rank_score] finds its direction and
    its three thresholds at the table's positions, and classifies. *)
Lemma rank_score_run (lb : DataFrame) (scores : Series) :
  getitem lb "score" = Ret (Column scores) ->
  1 <= len lb < max_rows ->
  exists lower g s b,
    is_lower_better lb = Ret lower
    /\ (let '(pg, ps, pb) := spec_positions (len lb) in
        scores !! Z.to_nat (pg - 1) = Some g
        /\ scores !! Z.to_nat (ps - 1) = Some s
        /\ scores !! Z.to_nat (pb - 1) = Some b)
    /\ get_thresholds (get_score_at_position scores) (median scores) (len lb)
       = Ret (g, s, b, median scores)
    /\ forall score,
        rank_score score lb = classify lower g s b (median scores) score.
Proof.
  intros Hs Hn. destruct (getitem_score _ _ Hs) as [Hcol Hlen].
  destruct (is_lower_better_nonempty lb scores Hs ltac:(lia))
    as (top & bottom & _ & _ & Hlow).
  pose proof (spec_positions_in_range (len lb) ltac:(lia)) as Hrange.
  pose proof (get_thresholds_spec (get_score_at_position scores)
                (median scores) (len lb) Hn) as Hth.
  destruct (spec_positions (len lb)) as [[pg ps] pb].
  destruct Hrange as (Hg & Hsv & Hb).
  destruct (get_score_at_position_ok scores pg ltac:(lia)) as (g & Hgl & Hgr).
  destruct (get_score_at_position_ok scores ps ltac:(lia)) as (sv & Hsl & Hsr).
  destruct (get_score_at_position_ok scores pb ltac:(lia)) as (b & Hbl & Hbr).
  rewrite Hgr, Hsr, Hbr in Hth. cbn [mbind result_bind] in Hth.
  exists (flt top bottom), g, sv, b.
  split; [exact Hlow|]. split; [auto|]. split; [exact Hth|].
  intros score. unfold rank_score.
  rewrite Hcol, Hlow, Hs. cbn [negb mbind result_bind].
  rewrite Hth. cbn [mbind result_bind]. reflexivity.
Qed.

(** *** The median *)

Lemma SFcompare_swap (a b : float) :
  SFcompare b a = option_map CompOpp (SFcompare a b).
Proof.
  destruct a as [sa|sa| |sa ma ea], b as [sb|sb| |sb mb eb];
    try reflexivity; try (destruct sa; reflexivity);
    try (destruct sb; reflexivity);
    try (destruct sa, sb; reflexivity).
  cbn [SFcompare option_map].
  destruct sa, sb; try reflexivity; f_equal;
    rewrite (Z.compare_antisym ea eb);
    destruct (ea ?= eb); cbn [CompOpp]; try reflexivity.
  - rewrite (Pos.compare_cont_antisym ma mb Eq). reflexivity.
  - rewrite (Pos.compare_cont_antisym ma mb Eq). reflexivity.
Qed.

Lemma fle_total (a b : float) :
  is_nan a = false -> is_nan b = false -> fle a b = false -> fle b a = true.
Proof.
  intros Ha Hb. unfold fle, SFleb. rewrite (SFcompare_swap a b).
  destruct (SFcompare a b) as [[]|] eqn:E; cbn; try congruence.
  exfalso. destruct a, b; try discriminate Ha; try discriminate Hb;
    cbn in E; discriminate E.
Qed.

Lemma insert_sorted_perm (x : float) (l : Series) :
  insert_sorted x l ≡ₚ x :: l.
Proof.
  induction l as [|y l IH]; cbn [insert_sorted]; [reflexivity|].
  destruct (fle x y); [reflexivity|].
  rewrite IH. apply Permutation_swap.
Qed.

Lemma sort_perm (s : Series) : sort s ≡ₚ s.
Proof.
  induction s as [|x s IH]; [reflexivity|].
  cbn [sort foldr]. fold (sort s).
  etransitivity; [apply insert_sorted_perm|]. now constructor.
Qed.

Lemma insert_sorted_sorted (x : float) (l : Series) :
  is_nan x = false -> Forall (fun y => is_nan y = false) l ->
  Sorted (fun a b => fle a b = true) l ->
  Sorted (fun a b => fle a b = true) (insert_sorted x l).
Proof.
  intros Hx Hl Hs. induction l as [|y l IH]; cbn [insert_sorted].
  - repeat constructor.
  - apply Forall_cons in Hl as [Hy Hl].
    apply Sorted_inv in Hs as [Hs Hhd].
    destruct (fle x y) eqn:Exy.
    + constructor; [constructor; assumption|]. constructor. exact Exy.
    + constructor; [apply IH; assumption|].
      destruct l as [|z l]; cbn [insert_sorted].
      * constructor. apply fle_total; assumption.
      * destruct (fle x z).
        -- constructor. apply fle_total; assumption.
        -- constructor. inversion Hhd; assumption.
Qed.

Lemma sort_sorted (s : Series) :
  Forall (fun y => is_nan y = false) s ->
  Sorted (fun a b => fle a b = true) (sort s).
Proof.
  induction s as [|x s IH]; intros Hs; [constructor|].
  apply Forall_cons in Hs as [Hx Hs]. cbn [sort foldr]. fold (sort s).
  apply insert_sorted_sorted; [assumption| |apply IH; assumption].
  eapply Permutation_Forall; [symmetry; apply sort_perm|]. exact Hs.
Qed.

(** [median] is the statistical median: the values that are not NaN,
    put in ascending order, give their middle one, or the mean of
    their two middle ones. *)
Lemma median_spec (s : Series) :
  exists xs,
    xs ≡ₚ filter (fun x => is_nan x = false) s
    /\ Sorted (fun a b => fle a b = true) xs
    /\ median s
       = let n := length xs in
         match n with
         | O => S754_nan
         | _ =>
             if Nat.odd n then nth (n / 2) xs S754_nan
             else fdiv (fadd (nth (n / 2 - 1) xs S754_nan)
                          (nth (n / 2) xs S754_nan)) two
         end.
Proof.
  exists (sort (filter (fun x => is_nan x = false) s)).
  split; [apply sort_perm|]. split; [|reflexivity].
  apply sort_sorted. apply Forall_forall. intros x Hx.
  apply list_elem_of_filter in Hx as [Hx _]. exact Hx.
Qed.

End RankingFacts.

(** ** Theorems on ranking *)

Section RankingTheorems.
Import Grader.

(** The positions read on leaderboards of 50 and of 150 rows. *)
Example positions_50_150 :
  get_thresholds (fun p => Ret p) 0 50 = Ret (5, 10, 20, 0)
  /\ get_thresholds (fun p => Ret p) 0 150 = Ret (10, 30, 60, 0)
  /\ get_thresholds (fun p => Ret p) 0 500 = Ret (11, 50, 100, 0)
  /\ get_thresholds (fun p => Ret p) 0 2000 = Ret (14, 100, 200, 0).
Proof. vm_compute. repeat split. Qed.

Example median_examples :
  median (map Examples.fl [5; 1; 4]) = Examples.fl 4
  /\ median (map Examples.fl [5; 1; 4; 2]) = Examples.fl 3
  /\ median [Examples.fl 5; S754_nan; Examples.fl 1] = Examples.fl 3
  /\ median [] = S754_nan.
Proof. vm_compute. repeat split. Qed.

(** C1. On a leaderboard with a [score] column and [n >= 1] rows,
    [rank_score] returns, and its gold, silver and bronze thresholds
    are the leaderboard scores at the 1-based positions of the
    specification's size bands; the median threshold is the median of
    all the scores, whatever the band: the middle one of the scores in
    ascending order, or the mean of the two middle ones. *)
Theorem rank_score_thresholds (lb : DataFrame) (scores : Series) (score : pyval) :
  getitem lb "score" = Ret (Column scores) ->
  1 <= len lb < max_rows ->
  score = VNone \/ is_Some (as_number score) ->
  exists r,
    rank_score score lb = Ret r
    /\ (let '(pg, ps, pb) := spec_positions (len lb) in
        scores !! Z.to_nat (pg - 1) = Some (gold_threshold r)
        /\ scores !! Z.to_nat (ps - 1) = Some (silver_threshold r)
        /\ scores !! Z.to_nat (pb - 1) = Some (bronze_threshold r))
    /\ median_threshold r = median scores
    /\ exists xs,
        xs ≡ₚ filter (fun x => is_nan x = false) scores
        /\ Sorted (fun a b => fle a b = true) xs
        /\ median_threshold r
           = let n := length xs in
             match n with
             | O => S754_nan
             | _ =>
                 if Nat.odd n then nth (n / 2) xs S754_nan
                 else fdiv (fadd (nth (n / 2 - 1) xs S754_nan)
                              (nth (n / 2) xs S754_nan)) two
             end.
Proof.
  intros Hs Hn Hscore.
  pose proof (median_spec scores) as Hmed.
  destruct (rank_score_run lb scores Hs Hn) as (lower & g & s & b & _ & Hpos & _ & Hrun).
  rewrite Hrun.
  destruct (spec_positions (len lb)) as [[pg ps] pb].
  destruct Hscore as [-> | [sc Hsc]].
  - eexists. split; [reflexivity|].
    cbn [gold_threshold silver_threshold bronze_threshold median_threshold].
    auto.
  - unfold classify. rewrite Hsc.
    destruct score; try discriminate; eexists; (split; [reflexivity|]);
      cbn [gold_threshold silver_threshold bronze_threshold median_threshold];
      auto.
Qed.

Lemma rank_score_thresholds_witness :
  exists r,
    rank_score (VInt 35) Examples.lb5 = Ret r
    /\ (let '(pg, ps, pb) := spec_positions (len Examples.lb5) in
        Examples.scores5 !! Z.to_nat (pg - 1) = Some (gold_threshold r)
        /\ Examples.scores5 !! Z.to_nat (ps - 1) = Some (silver_threshold r)
        /\ Examples.scores5 !! Z.to_nat (pb - 1) = Some (bronze_threshold r))
    /\ median_threshold r = median Examples.scores5
    /\ exists xs,
        xs ≡ₚ filter (fun x => is_nan x = false) Examples.scores5
        /\ Sorted (fun a b => fle a b = true) xs
        /\ median_threshold r
           = let n := length xs in
             match n with
             | O => S754_nan
             | _ =>
                 if Nat.odd n then nth (n / 2) xs S754_nan
                 else fdiv (fadd (nth (n / 2 - 1) xs S754_nan)
                              (nth (n / 2) xs S754_nan)) two
             end.
Proof.
  apply (rank_score_thresholds Examples.lb5 Examples.scores5 (VInt 35)).
  - reflexivity.
  - vm_compute. split; [discriminate | reflexivity].
  - right. exists (NInt 35). reflexivity.
Defined.

(** C10. On a non-empty leaderboard every position that
    [get_thresholds] asks of [get_score_at_position] lies in
    [1 .. n]: read through the identity, it returns the three
    positions it asks for; the lookups succeed, [rank_score] never
    raises [IndexError], and [get_thresholds] depends on its lookup
    function at the positions [1 .. n] only. *)
Theorem positions_within_bounds (lb : DataFrame) (scores : Series) :
  getitem lb "score" = Ret (Column scores) ->
  1 <= len lb < max_rows ->
  exists pg ps pb,
    get_thresholds (fun p => Ret p) 0 (len lb) = Ret (pg, ps, pb, 0)
    /\ 1 <= pg <= len lb /\ 1 <= ps <= len lb /\ 1 <= pb <= len lb
    /\ (exists g s b,
          get_score_at_position scores pg = Ret g
          /\ get_score_at_position scores ps = Ret s
          /\ get_score_at_position scores pb = Ret b)
    /\ (forall score e, rank_score score lb = Raise e -> exn_cls e <> IndexError)
    /\ forall (A : Type) (look look' : Z -> result A) (m : A),
        (forall p, 1 <= p <= len lb -> look p = look' p) ->
        get_thresholds look m (len lb) = get_thresholds look' m (len lb).
Proof.
  intros Hs Hn. destruct (getitem_score _ _ Hs) as [_ Hlen].
  assert (Hframe : forall (A : Type) (look look' : Z -> result A) (m : A),
             (forall p, 1 <= p <= len lb -> look p = look' p) ->
             get_thresholds look m (len lb) = get_thresholds look' m (len lb)).
  { intros A look look' m Hsame.
    rewrite !get_thresholds_spec by exact Hn.
    pose proof (spec_positions_in_range (len lb) ltac:(lia)) as Hr.
    destruct (spec_positions (len lb)) as [[pg ps] pb].
    destruct Hr as (Hg & Hsv & Hb).
    now rewrite !Hsame by assumption. }
  pose proof (get_thresholds_spec (fun p => Ret p) 0 (len lb) Hn) as Hid.
  pose proof (spec_positions_in_range (len lb) ltac:(lia)) as Hrange.
  destruct (rank_score_run lb scores Hs Hn) as (lower & g & s & b & _ & _ & _ & Hrun).
  destruct (spec_positions (len lb)) as [[pg ps] pb].
  destruct Hrange as (Hg & Hsv & Hb).
  exists pg, ps, pb. split; [exact Hid|]. do 3 (split; [assumption|]).
  split.
  - destruct (get_score_at_position_ok scores pg ltac:(lia)) as (x & _ & Hx).
    destruct (get_score_at_position_ok scores ps ltac:(lia)) as (y & _ & Hy).
    destruct (get_score_at_position_ok scores pb ltac:(lia)) as (z & _ & Hz).
    exists x, y, z. auto.
  - split; [|exact Hframe].
    intros score e He. rewrite Hrun in He. unfold classify in He.
    destruct score; cbn in He; inversion He; subst; cbn; discriminate.
Qed.

Lemma positions_within_bounds_witness :
  exists pg ps pb,
    get_thresholds (fun p => Ret p) 0 (len Examples.lb5) = Ret (pg, ps, pb, 0)
    /\ 1 <= pg <= len Examples.lb5 /\ 1 <= ps <= len Examples.lb5
    /\ 1 <= pb <= len Examples.lb5
    /\ (exists g s b,
          get_score_at_position Examples.scores5 pg = Ret g
          /\ get_score_at_position Examples.scores5 ps = Ret s
          /\ get_score_at_position Examples.scores5 pb = Ret b)
    /\ (forall score e,
          rank_score score Examples.lb5 = Raise e -> exn_cls e <> IndexError)
    /\ forall (A : Type) (look look' : Z -> result A) (m : A),
        (forall p, 1 <= p <= len Examples.lb5 -> look p = look' p) ->
        get_thresholds look m (len Examples.lb5)
        = get_thresholds look' m (len Examples.lb5).
Proof.
  apply (positions_within_bounds Examples.lb5 Examples.scores5).
  - reflexivity.
  - vm_compute. split; [discriminate | reflexivity].
Defined.

(** C2. For a numeric score on a non-empty leaderboard the medals are
    decided in priority order and exclude one another: gold iff the
    score meets or beats the gold threshold; silver iff not gold and
    it meets or beats the silver threshold; bronze iff neither gold
    nor silver and it meets or beats the bronze threshold; and
    [above_median] is the strict comparison with the median,
    whatever the medals. The thresholds compared with are those of
    the table, the scores at the positions of its size band and the
    median of its scores, and the direction is the strict comparison
    of its first score with its last. *)
Theorem rank_score_medals (lb : DataFrame) (scores : Series)
    (score : pyval) (sc : number) :
  getitem lb "score" = Ret (Column scores) ->
  1 <= len lb < max_rows ->
  as_number score = Some sc ->
  exists r lower,
    rank_score score lb = Ret r
    /\ is_lower_better lb = Ret lower
    /\ (exists top bottom,
          scores !! 0%nat = Some top
          /\ scores !! (length scores - 1)%nat = Some bottom
          /\ lower = flt top bottom)
    /\ (let '(pg, ps, pb) := spec_positions (len lb) in
        scores !! Z.to_nat (pg - 1) = Some (gold_threshold r)
        /\ scores !! Z.to_nat (ps - 1) = Some (silver_threshold r)
        /\ scores !! Z.to_nat (pb - 1) = Some (bronze_threshold r))
    /\ median_threshold r = median scores
    /\ (gold_medal r = true <-> meets_or_beats lower sc (gold_threshold r) = true)
    /\ (silver_medal r = true <->
          gold_medal r = false
          /\ meets_or_beats lower sc (silver_threshold r) = true)
    /\ (bronze_medal r = true <->
          gold_medal r = false /\ silver_medal r = false
          /\ meets_or_beats lower sc (bronze_threshold r) = true)
    /\ above_median r
       = (if lower then num_lt sc (median_threshold r)
          else num_gt sc (median_threshold r))
    /\ (gold_medal r && silver_medal r = false)
    /\ (gold_medal r && bronze_medal r = false)
    /\ (silver_medal r && bronze_medal r = false).
Proof.
  intros Hs Hn Hsc.
  destruct (rank_score_run lb scores Hs Hn)
    as (lower & g & s & b & Hlow & Hpos & _ & Hrun).
  destruct (is_lower_better_nonempty lb scores Hs ltac:(lia))
    as (top & bottom & Ht & Hb & Hlow').
  assert (Hc : classify lower g s b (median scores) score
               = Ret (let gold := meets_or_beats lower sc g in
                      let silver := negb gold && meets_or_beats lower sc s in
                      let bronze :=
                        negb gold && negb silver && meets_or_beats lower sc b in
                      mkRanking gold silver bronze
                        (if lower then num_lt sc (median scores)
                         else num_gt sc (median scores))
                        g s b (median scores))).
  { unfold classify. rewrite Hsc. destruct score; try discriminate; reflexivity. }
  eexists. exists lower. rewrite Hrun, Hc.
  split; [reflexivity|]. split; [exact Hlow|].
  split; [exists top, bottom; do 2 (split; [assumption|]); congruence|].
  cbn [gold_medal silver_medal bronze_medal above_median
       gold_threshold silver_threshold bronze_threshold median_threshold].
  split; [exact Hpos|]. split; [reflexivity|].
  destruct (meets_or_beats lower sc g), (meets_or_beats lower sc s),
    (meets_or_beats lower sc b); cbn; intuition congruence.
Qed.

Lemma rank_score_medals_witness :
  exists r lower,
    rank_score (VInt 45) Examples.lb5 = Ret r
    /\ is_lower_better Examples.lb5 = Ret lower
    /\ (exists top bottom,
          Examples.scores5 !! 0%nat = Some top
          /\ Examples.scores5 !! (length Examples.scores5 - 1)%nat = Some bottom
          /\ lower = flt top bottom)
    /\ (let '(pg, ps, pb) := spec_positions (len Examples.lb5) in
        Examples.scores5 !! Z.to_nat (pg - 1) = Some (gold_threshold r)
        /\ Examples.scores5 !! Z.to_nat (ps - 1) = Some (silver_threshold r)
        /\ Examples.scores5 !! Z.to_nat (pb - 1) = Some (bronze_threshold r))
    /\ median_threshold r = median Examples.scores5
    /\ (gold_medal r = true <->
          meets_or_beats lower (NInt 45) (gold_threshold r) = true)
    /\ (silver_medal r = true <->
          gold_medal r = false
          /\ meets_or_beats lower (NInt 45) (silver_threshold r) = true)
    /\ (bronze_medal r = true <->
          gold_medal r = false /\ silver_medal r = false
          /\ meets_or_beats lower (NInt 45) (bronze_threshold r) = true)
    /\ above_median r
       = (if lower then num_lt (NInt 45) (median_threshold r)
          else num_gt (NInt 45) (median_threshold r))
    /\ (gold_medal r && silver_medal r = false)
    /\ (gold_medal r && bronze_medal r = false)
    /\ (silver_medal r && bronze_medal r = false).
Proof.
  apply (rank_score_medals Examples.lb5 Examples.scores5 (VInt 45) (NInt 45)).
  - reflexivity.
  - vm_compute. split; [discriminate | reflexivity].
  - reflexivity.
Defined.

(** The score [45] on the five teams [50, 40, 30, 20, 10]: the
    thresholds are [50], [50] and [40], the median is [30], and the
    score has the bronze medal and is above the median. *)
Example rank_score_45 :
  rank_score (VInt 45) Examples.lb5
  = Ret (mkRanking false false true true
           (Examples.fl 50) (Examples.fl 50) (Examples.fl 40) (Examples.fl 30)).
Proof. vm_compute. reflexivity. Qed.

(** C7. With no score, [rank_score] on a non-empty leaderboard
    returns the four flags false, and its four thresholds are those
    it returns for every numeric score on the same leaderboard. *)
Theorem rank_score_none (lb : DataFrame) (scores : Series) :
  getitem lb "score" = Ret (Column scores) ->
  1 <= len lb < max_rows ->
  exists r,
    rank_score VNone lb = Ret r
    /\ gold_medal r = false /\ silver_medal r = false
    /\ bronze_medal r = false /\ above_median r = false
    /\ forall score sc,
        as_number score = Some sc ->
        exists r',
          rank_score score lb = Ret r'
          /\ gold_threshold r' = gold_threshold r
          /\ silver_threshold r' = silver_threshold r
          /\ bronze_threshold r' = bronze_threshold r
          /\ median_threshold r' = median_threshold r.
Proof.
  intros Hs Hn.
  destruct (rank_score_run lb scores Hs Hn)
    as (lower & g & s & b & _ & _ & _ & Hrun).
  eexists. rewrite Hrun. split; [reflexivity|].
  cbn [gold_medal silver_medal bronze_medal above_median].
  do 4 (split; [reflexivity|]).
  intros score sc Hsc. rewrite Hrun. unfold classify. rewrite Hsc.
  destruct score; try discriminate; eexists; (split; [reflexivity|]);
    cbn; auto.
Qed.

Lemma rank_score_none_witness :
  exists r,
    rank_score VNone Examples.lb5 = Ret r
    /\ gold_medal r = false /\ silver_medal r = false
    /\ bronze_medal r = false /\ above_median r = false
    /\ forall score sc,
        as_number score = Some sc ->
        exists r',
          rank_score score Examples.lb5 = Ret r'
          /\ gold_threshold r' = gold_threshold r
          /\ silver_threshold r' = silver_threshold r
          /\ bronze_threshold r' = bronze_threshold r
          /\ median_threshold r' = median_threshold r.
Proof.
  apply (rank_score_none Examples.lb5 Examples.scores5).
  - reflexivity.
  - vm_compute. split; [discriminate | reflexivity].
Defined.

(** C8. On an empty leaderboard [rank_score] raises, whatever the
    score: an [AssertionError] without a [score] column, else the
    [IndexError] of the first positional read; it returns nothing.
    [get_thresholds] itself refuses [n < 1] with a [ValueError]. *)
Theorem rank_score_empty_raises (score : pyval) (lb : DataFrame) :
  len lb = 0 ->
  (exists e, rank_score score lb = Raise e
             /\ (exn_cls e = AssertionError \/ exn_cls e = IndexError))
  /\ (forall r, rank_score score lb <> Ret r)
  /\ (forall (look : Z -> result float) (med : float) (n : Z),
        n < 1 -> exists e, get_thresholds look med n = Raise e
                           /\ exn_cls e = ValueError).
Proof.
  intros Hn.
  assert (Hrows : rows lb = []).
  { unfold len in Hn. destruct (rows lb); [reflexivity | cbn in Hn; lia]. }
  assert (H : exists e, rank_score score lb = Raise e
               /\ (exn_cls e = AssertionError \/ exn_cls e = IndexError)).
  { unfold rank_score, is_lower_better.
    pose proof (getitem_cases lb "score") as Hc.
    destruct (getitem lb "score") as [[s|f]|e0].
    - destruct Hc as (_ & -> & ->). rewrite Hrows.
      cbn. eexists. split; [reflexivity|]. cbn. auto.
    - destruct Hc as (_ & -> & Hf). cbn [negb mbind result_bind].
      rewrite Hf, Hrows.
      cbn. eexists. split; [reflexivity|]. cbn. auto.
    - destruct Hc as (_ & -> & _).
      eexists. split; [reflexivity|]. cbn. auto. }
  split; [exact H|]. split.
  - destruct H as (e & He & _). intros r. rewrite He. discriminate.
  - intros look med n Hlt. unfold get_thresholds.
    destruct (Z.leb_spec 1 n); [lia|].
    destruct (Z.leb_spec 100 n); [lia|].
    destruct (Z.leb_spec 250 n); [lia|].
    destruct (Z.geb_spec n 1000); [lia|].
    cbn. eexists. split; reflexivity.
Qed.

Lemma rank_score_empty_raises_witness :
  (exists e, rank_score (VFloat (Examples.fl 1)) Examples.lb0 = Raise e
             /\ (exn_cls e = AssertionError \/ exn_cls e = IndexError))
  /\ (forall r, rank_score (VFloat (Examples.fl 1)) Examples.lb0 <> Ret r)
  /\ (forall (look : Z -> result float) (med : float) (n : Z),
        n < 1 -> exists e, get_thresholds look med n = Raise e
                           /\ exn_cls e = ValueError).
Proof.
  apply (rank_score_empty_raises (VFloat (Examples.fl 1)) Examples.lb0).
  reflexivity.
Defined.

(** *** Ranking direction *)

Lemma fle_not_flt (a b : float) : fle b a = true -> flt a b = false.
Proof.
  unfold fle, flt, SFleb, SFltb. rewrite (SFcompare_swap a b).
  destruct (SFcompare a b) as [[]|]; cbn; congruence.
Qed.

Lemma flt_irrefl (a : float) : flt a a = false.
Proof.
  unfold flt, SFltb. pose proof (SFcompare_swap a a) as H.
  destruct (SFcompare a a) as [[]|]; cbn in *; congruence.
Qed.

Lemma fle_neq_flt (a b : float) :
  fle a b = true -> feq a b = false -> flt a b = true.
Proof.
  unfold fle, feq, flt, SFleb, SFeqb, SFltb.
  destruct (SFcompare a b) as [[]|]; congruence.
Qed.

Lemma strongly_sorted_first_last {R : float -> float -> Prop}
    (s : Series) (top bottom : float) :
  StronglySorted R s ->
  s !! 0%nat = Some top -> s !! (length s - 1)%nat = Some bottom ->
  (2 <= length s)%nat -> R top bottom.
Proof.
  intros Hsorted Ht Hb Hlen.
  destruct s as [|x s']; [discriminate|].
  cbn in Ht. injection Ht as ->.
  apply StronglySorted_inv in Hsorted as [_ Hall].
  cbn [length] in Hb, Hlen.
  replace (S (length s') - 1)%nat with (S (length s' - 1)) in Hb by lia.
  cbn in Hb. rewrite Forall_forall in Hall. apply Hall.
  eapply list_elem_of_lookup_2. exact Hb.
Qed.

(** C6, as the code has it. On a non-empty leaderboard
    [is_lower_better] returns the strict comparison of the first
    score with the last. It is false on every leaderboard sorted
    descending; on a leaderboard of two rows or more sorted ascending
    it is true when the first and last scores differ, so on every
    strictly ascending one. *)
Theorem is_lower_better_first_last (lb : DataFrame) (scores : Series) :
  getitem lb "score" = Ret (Column scores) ->
  1 <= len lb ->
  exists top bottom,
    scores !! 0%nat = Some top
    /\ scores !! (length scores - 1)%nat = Some bottom
    /\ is_lower_better lb = Ret (flt top bottom)
    /\ (is_lower_better lb = Ret true <-> flt top bottom = true)
    /\ (sorted_descending scores -> is_lower_better lb = Ret false)
    /\ (sorted_ascending scores -> 2 <= len lb -> feq top bottom = false ->
        is_lower_better lb = Ret true)
    /\ (strictly_ascending scores -> 2 <= len lb ->
        is_lower_better lb = Ret true).
Proof.
  intros Hs Hn. destruct (getitem_score _ _ Hs) as [_ Hlen].
  destruct (is_lower_better_nonempty lb scores Hs Hn)
    as (top & bottom & Ht & Hb & Hlow).
  exists top, bottom. do 3 (split; [assumption|]).
  rewrite Hlow.
  assert (Hone : length scores = 1%nat -> top = bottom).
  { intros H1. rewrite H1 in Hb. cbn in Hb. congruence. }
  split; [split; congruence|]. split; [|split].
  - intros Hd. f_equal.
    destruct (Nat.eq_dec (length scores) 1%nat) as [H1|H1].
    + rewrite <- (Hone H1). apply flt_irrefl.
    + apply fle_not_flt.
      apply (strongly_sorted_first_last scores top bottom Hd Ht Hb). lia.
  - intros Ha H2 Hne. f_equal.
    apply fle_neq_flt; [|exact Hne].
    apply (strongly_sorted_first_last scores top bottom Ha Ht Hb). lia.
  - intros Ha H2. f_equal.
    apply (strongly_sorted_first_last scores top bottom Ha Ht Hb). lia.
Qed.

Lemma is_lower_better_first_last_witness :
  is_lower_better Examples.lb5_asc = Ret true
  /\ is_lower_better Examples.lb5 = Ret false.
Proof.
  split.
  - destruct (is_lower_better_first_last Examples.lb5_asc
                (map Examples.fl [10; 20; 30; 40; 50]) eq_refl)
      as (top & bottom & Ht & Hb & _ & _ & _ & Hasc & _).
    { vm_compute. discriminate. }
    apply Hasc.
    + repeat constructor.
    + vm_compute. discriminate.
    + injection Ht as <-. injection Hb as <-. reflexivity.
  - destruct (is_lower_better_first_last Examples.lb5 Examples.scores5 eq_refl)
      as (top & bottom & _ & _ & _ & _ & Hdesc & _).
    { vm_compute. discriminate. }
    apply Hdesc. repeat constructor.
Defined.

(** C6, the counterexample. An ascending leaderboard does not always
    give [true]: not when its first and last scores are equal, as on a
    single row, which is sorted both ways, and on a tie. *)
Lemma is_lower_better_ascending_counterexample :
  (getitem Examples.lb1 "score" = Ret (Column [Examples.fl 7])
   /\ len Examples.lb1 = 1
   /\ sorted_ascending [Examples.fl 7]
   /\ strictly_ascending [Examples.fl 7]
   /\ is_lower_better Examples.lb1 = Ret false)
  /\ (getitem (Examples.table [5; 5]) "score"
      = Ret (Column [Examples.fl 5; Examples.fl 5])
      /\ sorted_ascending [Examples.fl 5; Examples.fl 5]
      /\ is_lower_better (Examples.table [5; 5]) = Ret false).
Proof.
  split.
  - split; [reflexivity|]. split; [reflexivity|].
    split; [repeat constructor|]. split; [repeat constructor|]. reflexivity.
  - split; [reflexivity|]. split; [repeat constructor|]. reflexivity.
Qed.

End RankingTheorems.

(** ** Theorems on the call *)

Section CallTheorems.
Import Grader.
Context {arg : Type}.

Lemma round_half_even_spec (p q : Z) :
  0 <= p -> 0 < q ->
  let k := round_half_even p q in
  0 <= k
  /\ 2 * Z.abs (p - k * q) <= q
  /\ (2 * Z.abs (p - k * q) = q -> Z.even k = true).
Proof.
  intros Hp Hq. unfold round_half_even.
  pose proof (Z.div_mod p q ltac:(lia)) as Hdm.
  pose proof (Z.mod_pos_bound p q Hq) as Hm.
  assert (0 <= p / q) by (apply Z.div_pos; lia).
  set (fl := p / q) in *. set (r := p mod q) in *.
  destruct (Z.compare_spec (2 * r) q) as [E|L|G].
  - destruct (Z.even fl) eqn:Ev.
    + repeat split; try lia. intros _. exact Ev.
    + repeat split; try lia. intros _.
      rewrite Z.even_add, Ev. reflexivity.
  - repeat split; try lia.
  - repeat split; try lia.
Qed.

(** What [round(x, ndigits)] is on a finite double: the double
    nearest to [k / 10^ndigits], where [k] is within one half of the
    scaled exact value and is even when exactly one half away. *)
Lemma round_finite (s : bool) (m : positive) (e ndigits : Z) :
  0 <= ndigits ->
  exists k,
    PyFloat.round (S754_finite s m e) ndigits = nearest_decimal s k ndigits
    /\ 0 <= k
    /\ 2 * Z.abs (scaled_num m e ndigits - k * scaled_den e) <= scaled_den e
    /\ (2 * Z.abs (scaled_num m e ndigits - k * scaled_den e) = scaled_den e ->
        Z.even k = true).
Proof.
  intros Hnd.
  assert (Hnum : 0 <= scaled_num m e ndigits).
  { unfold scaled_num.
    assert (0 < 10 ^ ndigits) by (apply Z.pow_pos_nonneg; lia).
    assert (0 < 2 ^ Z.max e 0) by (apply Z.pow_pos_nonneg; lia).
    nia. }
  assert (Hden : 0 < scaled_den e)
    by (unfold scaled_den; apply Z.pow_pos_nonneg; lia).
  destruct (round_half_even_spec _ _ Hnum Hden) as (H0 & Hnear & Htie).
  eexists. split; [reflexivity|]. auto.
Qed.

(** What [numpy.rint] is on a finite double: itself when it is an
    integer, else the integer within one half of it, the even one when
    it is exactly one half away. *)
Lemma rint_finite (s : bool) (m : positive) (e : Z) :
  (0 <= e -> Numpy.rint (S754_finite s m e) = S754_finite s m e)
  /\ (e < 0 ->
      exists k,
        Numpy.rint (S754_finite s m e)
        = binary_normalize prec emax (if s then - k else k) 0 s
        /\ 0 <= k
        /\ 2 * Z.abs (Z.pos m - k * 2 ^ (- e)) <= 2 ^ (- e)
        /\ (2 * Z.abs (Z.pos m - k * 2 ^ (- e)) = 2 ^ (- e) ->
            Z.even k = true)).
Proof.
  split; intros He; unfold Numpy.rint.
  - destruct (Z.leb_spec 0 e); [reflexivity | lia].
  - destruct (Z.leb_spec 0 e); [lia|].
    assert (Hden : 0 < 2 ^ (- e)) by (apply Z.pow_pos_nonneg; lia).
    destruct (round_half_even_spec (Z.pos m) (2 ^ (- e)) ltac:(lia) Hden)
      as (H0 & Hnear & Htie).
    eexists. split; [reflexivity|]. auto.
Qed.

(** C5, as the code has it. A score of the built-in [float] comes
    back rounded to 5 decimals by [round]: to the nearest, and to the
    even neighbour when the exact binary value is half-way. A
    [numpy.float64] score comes back rounded by numpy: the product of
    the score with [100000.0] is rounded to the nearest integer, to
    the even one on a tie, and divided by [100000.0]. Both give
    [0.12346] on [0.123456] and [0.01562] on the tie [0.015625]; on
    [0.123455], a double just below the tie, the first gives
    [0.12345] and the second [0.12346]. Any other value comes back
    unchanged. *)
Theorem call_rounds_float (self : Grader arg) (gi : GradingInput arg)
    (score : returned) :
  fn_call (grade_fn self) (kwargs gi) = Ret score ->
  (forall x, score = Builtin (VFloat x) ->
     __call__ self gi = ([], Ret (Builtin (VFloat (PyFloat.round x 5))))
     /\ match x with
        | S754_finite s m e =>
            exists k,
              PyFloat.round x 5 = nearest_decimal s k 5
              /\ 0 <= k
              /\ 2 * Z.abs (scaled_num m e 5 - k * scaled_den e) <= scaled_den e
              /\ (2 * Z.abs (scaled_num m e 5 - k * scaled_den e) = scaled_den e ->
                  Z.even k = true)
        | _ => PyFloat.round x 5 = x
        end)
  /\ (forall x, score = Float64 x ->
        __call__ self gi = ([], Ret (Float64 (Numpy.round x 5)))
        /\ Numpy.power_of_ten 5 = decimal 100000 0
        /\ exists y,
             y = fmul x (decimal 100000 0)
             /\ Numpy.round x 5 = fdiv (Numpy.rint y) (decimal 100000 0)
             /\ match y with
                | S754_finite s m e =>
                    (0 <= e -> Numpy.rint y = y)
                    /\ (e < 0 ->
                        exists k,
                          Numpy.rint y
                          = binary_normalize prec emax (if s then - k else k) 0 s
                          /\ 0 <= k
                          /\ 2 * Z.abs (Z.pos m - k * 2 ^ (- e)) <= 2 ^ (- e)
                          /\ (2 * Z.abs (Z.pos m - k * 2 ^ (- e)) = 2 ^ (- e) ->
                              Z.even k = true))
                | _ => Numpy.rint y = y
                end)
  /\ ((forall x, score <> Builtin (VFloat x)) -> (forall x, score <> Float64 x) ->
      __call__ self gi = ([], Ret score))
  /\ PyFloat.round (decimal 123456 6) 5 = decimal 12346 5
  /\ Numpy.round (decimal 123456 6) 5 = decimal 12346 5
  /\ PyFloat.round (decimal 15625 6) 5 = decimal 1562 5
  /\ Numpy.round (decimal 15625 6) 5 = decimal 1562 5
  /\ PyFloat.round (decimal 123455 6) 5 = decimal 12345 5
  /\ Numpy.round (decimal 123455 6) 5 = decimal 12346 5.
Proof.
  intros Hrun. split; [|split; [|split]].
  - intros x ->. split.
    + unfold __call__. rewrite Hrun. reflexivity.
    + destruct x; try reflexivity. apply round_finite. lia.
  - intros x ->. split; [unfold __call__; rewrite Hrun; reflexivity|].
    assert (Hten : Numpy.power_of_ten 5 = decimal 100000 0)
      by (vm_compute; reflexivity).
    split; [exact Hten|].
    exists (fmul x (decimal 100000 0)). split; [reflexivity|].
    split; [unfold Numpy.round; rewrite Hten; reflexivity|].
    destruct (fmul x (decimal 100000 0)); try reflexivity.
    apply rint_finite.
  - intros Hnf Hn64. unfold __call__. rewrite Hrun.
    destruct score as [[]|]; try reflexivity; exfalso;
      [eapply Hnf | eapply Hn64]; reflexivity.
  - repeat split; vm_compute; reflexivity.
Qed.

(** C3, as the code has it. When the scoring function raises the
    invalid-submission signal the call logs a warning and returns
    [None]. When it raises any other exception derived from
    [Exception], the call logs an error and returns [None]: the error
    names the file and first line of the function when [inspect]
    finds them, and the function's [str] when the lookup raises
    [TypeError]. An exception that does not derive from [Exception]
    propagates. *)
Theorem call_absorbs_exceptions (self : Grader arg) (gi : GradingInput arg)
    (e : exn) :
  fn_call (grade_fn self) (kwargs gi) = Raise e ->
  (exn_cls e = InvalidSubmissionError ->
     __call__ self gi
     = ([LogWarning ("Invalid submission: " +:+ exn_msg e)], Ret (Builtin VNone)))
  /\ (exn_cls e <> InvalidSubmissionError -> is_Exception (exn_cls e) = true ->
      (forall fpath lines line_number,
         inspect_getfile (grade_fn self) = Ret fpath ->
         inspect_getsourcelines (grade_fn self) = Ret (lines, line_number) ->
         __call__ self gi
         = ([LogError ("Unexpected error during grading: " +:+ exn_msg e
                       +:+ ". Check " +:+ (fpath +:+ ":" +:+ pretty line_number))],
            Ret (Builtin VNone)))
      /\ (forall e',
            inspect_getfile (grade_fn self) = Raise e'
            \/ (exists fpath, inspect_getfile (grade_fn self) = Ret fpath
                             /\ inspect_getsourcelines (grade_fn self) = Raise e') ->
            exn_cls e' = TypeError ->
            __call__ self gi
            = ([LogError ("Unexpected error during grading: " +:+ exn_msg e
                          +:+ ". Check " +:+ fn_str (grade_fn self))],
               Ret (Builtin VNone))))
  /\ (is_Exception (exn_cls e) = false -> __call__ self gi = ([], Raise e)).
Proof.
  intros Hrun. unfold __call__. rewrite Hrun. split; [|split].
  - intros Hc. destruct (decide (exn_cls e = InvalidSubmissionError)); [reflexivity|contradiction].
  - intros Hc He.
    destruct (decide (exn_cls e = InvalidSubmissionError)); [contradiction|].
    rewrite He. split.
    + intros fpath lines ln Hf Hl. rewrite Hf, Hl. reflexivity.
    + intros e' [Hf | (fpath & Hf & Hl)] Hty.
      * rewrite Hf. cbn [mbind result_bind].
        destruct (decide (exn_cls e' = TypeError)); [reflexivity|contradiction].
      * rewrite Hf, Hl. cbn [mbind result_bind].
        destruct (decide (exn_cls e' = TypeError)); [reflexivity|contradiction].
  - intros He.
    destruct (decide (exn_cls e = InvalidSubmissionError)) as [Hc|_].
    + rewrite Hc in He. discriminate.
    + rewrite He. reflexivity.
Qed.

End CallTheorems.

Lemma call_rounds_float_witness :
  Grader.__call__ (CallExamples.returning (Builtin (VFloat (decimal 123456 6))))
    CallExamples.empty_input
  = ([], Ret (Builtin (VFloat (decimal 12346 5))))
  /\ Grader.__call__ (CallExamples.returning (Float64 (decimal 123456 6)))
       CallExamples.empty_input
     = ([], Ret (Float64 (decimal 12346 5))).
Proof.
  split.
  - destruct (call_rounds_float
                (CallExamples.returning (Builtin (VFloat (decimal 123456 6))))
                CallExamples.empty_input (Builtin (VFloat (decimal 123456 6)))
                eq_refl)
      as (Hfloat & _ & _ & Hex & _).
    destruct (Hfloat _ eq_refl) as [Hcall _].
    rewrite Hcall, Hex. reflexivity.
  - destruct (call_rounds_float
                (CallExamples.returning (Float64 (decimal 123456 6)))
                CallExamples.empty_input (Float64 (decimal 123456 6)) eq_refl)
      as (_ & Hfloat & _ & _ & Hex & _).
    destruct (Hfloat _ eq_refl) as [Hcall _].
    rewrite Hcall, Hex. reflexivity.
Defined.

(** C5, the counterexample. Rounding is not half up on an exact tie:
    [0.015625] is [2^-6], and the call returns [0.01562] where half up
    gives [0.01563], for a [float] and for a [numpy.float64]. *)
Lemma call_rounds_half_up_counterexample :
  decimal 15625 6 = S754_finite false 4503599627370496 (-58)
  /\ Grader.__call__ (CallExamples.returning (Builtin (VFloat (decimal 15625 6))))
       CallExamples.empty_input
     = ([], Ret (Builtin (VFloat (decimal 1562 5))))
  /\ Grader.__call__ (CallExamples.returning (Float64 (decimal 15625 6)))
       CallExamples.empty_input
     = ([], Ret (Float64 (decimal 1562 5)))
  /\ spec_round_half_up (decimal 15625 6) 5 = decimal 1563 5
  /\ decimal 1562 5 <> decimal 1563 5.
Proof.
  split; [vm_compute; reflexivity|].
  split; [vm_compute; reflexivity|].
  split; [vm_compute; reflexivity|].
  split; [vm_compute; reflexivity|].
  vm_compute. discriminate.
Qed.

(** The two roundings differ: [2.5e-05] and [0.123455] are read as
    doubles just off the tie, which [round] sees and the binary64
    product with [100000.0] does not. *)
Example float64_rounds_differently :
  PyFloat.round (decimal 25 6) 5 = decimal 3 5
  /\ Numpy.round (decimal 25 6) 5 = decimal 2 5
  /\ PyFloat.round (decimal 123455 6) 5 = decimal 12345 5
  /\ Numpy.round (decimal 123455 6) 5 = decimal 12346 5
  /\ fmul (decimal 123455 6) (decimal 100000 0) = decimal 123455 1.
Proof. vm_compute. repeat split. Qed.

Lemma call_absorbs_exceptions_witness :
  Grader.__call__ (CallExamples.raising ValueError "bad shape") CallExamples.empty_input
  = ([Grader.LogError "Unexpected error during grading: bad shape. Check grade.py:12"],
     Ret (Builtin VNone)).
Proof.
  destruct (call_absorbs_exceptions
              (CallExamples.raising ValueError "bad shape")
              CallExamples.empty_input (mkExn ValueError "bad shape") eq_refl)
    as (_ & Hother & _).
  destruct (Hother ltac:(discriminate) eq_refl) as [Hloc _].
  exact (Hloc "grade.py" ["def grade(**kw):"] 12 eq_refl eq_refl).
Defined.

(** C3, the counterexample. An exception does leave the call when the
    scoring function exits the interpreter: [SystemExit] is not an
    [Exception]. *)
Lemma call_propagates_counterexample :
  Grader.__call__ (CallExamples.raising SystemExit "1") CallExamples.empty_input
  = ([], Raise (mkExn SystemExit "1"))
  /\ snd (Grader.__call__ (CallExamples.raising SystemExit "1") CallExamples.empty_input)
     <> Ret (Builtin VNone).
Proof. split; [reflexivity | discriminate]. Qed.

Example call_invalid_submission :
  Grader.__call__ (CallExamples.raising InvalidSubmissionError "no id column")
    CallExamples.empty_input
  = ([Grader.LogWarning "Invalid submission: no id column"], Ret (Builtin VNone)).
Proof. reflexivity. Qed.

Example call_builtin_logs_str :
  Grader.__call__ (Grader.mkGrader "g" (CallExamples.builtin (fun _ => raise KeyError "id")))
    CallExamples.empty_input
  = ([Grader.LogError
        "Unexpected error during grading: id. Check <built-in function grade>"],
     Ret (Builtin VNone)).
Proof. reflexivity. Qed.

Example call_returns_int_unchanged :
  Grader.__call__ (CallExamples.returning (Builtin (VInt 3))) CallExamples.empty_input
  = ([], Ret (Builtin (VInt 3))).
Proof. reflexivity. Qed.

(** [round(x, 5)] on reference values, as CPython computes them:
    [123456789.12345679], [-2.675], [1e-07], [1e+300], [5e-06],
    [1.5e-05], [2.5e-05] and [90000000000.00002]. *)
Example round_reference_values :
  PyFloat.round (S754_finite false 8285044871162741 (-26)) 5
  = S754_finite false 8285044871162956 (-26)
  /\ PyFloat.round (S754_finite true 6023564501608038 (-51)) 5
     = S754_finite true 6023564501608038 (-51)
  /\ PyFloat.round (S754_finite false 7555786372591432 (-76)) 5
     = S754_zero false
  /\ PyFloat.round (S754_finite false 6724873095247260 944) 5
     = S754_finite false 6724873095247260 944
  /\ PyFloat.round (S754_finite false 5902958103587057 (-70)) 5
     = decimal 1 5
  /\ PyFloat.round (S754_finite false 8854437155380585 (-69)) 5
     = decimal 2 5
  /\ PyFloat.round (S754_finite false 7378697629483821 (-68)) 5
     = decimal 3 5
  /\ PyFloat.round (S754_finite false 5898240000000001 (-16)) 5
     = S754_finite false 5898240000000001 (-16).
Proof. vm_compute. repeat split. Qed.

(** [0.123455] reads as a double just below it and rounds down. *)
Example round_boundary :
  decimal 123455 6 = S754_finite false 8895870271952393 (-56)
  /\ PyFloat.round (decimal 123455 6) 5 = decimal 12345 5.
Proof. vm_compute. split; reflexivity. Qed.

(** The location lookup itself can fail with [OSError], which the
    handler does not catch. *)
Example call_sourceless_raises :
  Grader.__call__ (Grader.mkGrader "g" (CallExamples.sourceless (fun _ => raise ValueError "bad")))
    CallExamples.empty_input
  = ([], Raise (mkExn OSError "could not get source code")).
Proof. reflexivity. Qed.

(** ** Facts on the store *)

Section StoreFacts.
Context `{Runtime}.

Lemma bind_run {A B} (m : M A) (k : A -> M B) (r : result A)
    (k' : A -> result B) (σ : store) :
  m σ = (r, σ) ->
  (forall a, k a σ = (k' a, σ)) ->
  (m ≫= k) σ = (r ≫= k', σ).
Proof.
  intros Hm Hk. unfold mbind, M_bind, result_bind. rewrite Hm.
  destruct r; [apply Hk | reflexivity].
Qed.

Lemma lift_run {A} (r : result A) (σ : store) : lift r σ = (r, σ).
Proof. reflexivity. Qed.

Lemma mret_run {A} (a : A) (σ : store) : (mret a : M A) σ = (Ret a, σ).
Proof. reflexivity. Qed.

Lemma getitem_run (σ : store) (l : loc) (d : dict) (key : string) :
  σ !! l = Some d -> dict_getitem l key σ = (lookup_key d key, σ).
Proof.
  intros Hl. unfold dict_getitem, lookup_key. rewrite Hl.
  destruct (d !! key); reflexivity.
Qed.

Lemma new_dict_run (σ : store) (d : dict) :
  new_dict d σ = (Ret (fresh (dom σ)), <[fresh (dom σ) := d]> σ).
Proof. reflexivity. Qed.

(** Allocation leaves every object of the store as it was. *)
Lemma alloc_frame (σ : store) (d : dict) (l : loc) :
  is_Some (σ !! l) -> (<[fresh (dom σ) := d]> σ) !! l = σ !! l.
Proof.
  intros Hl. apply lookup_insert_ne. intros <-.
  apply elem_of_dom in Hl. exact (is_fresh (dom σ) Hl).
Qed.

End StoreFacts.

(** ** Facts on the report codecs *)

Section ReportFacts.
Context `{Runtime}.

Lemma get_float_run (σ : store) (l : loc) (d : dict) (key : string) :
  σ !! l = Some d ->
  CompetitionReport.get_float l key σ = (dec_float d key, σ).
Proof.
  intros Hl. unfold CompetitionReport.get_float, dec_float.
  apply bind_run; [now apply getitem_run|]. intros v.
  apply bind_run; [apply lift_run|]. intros x. apply mret_run.
Qed.

Lemma get_bool_run (σ : store) (l : loc) (d : dict) (key : string) :
  σ !! l = Some d ->
  CompetitionReport.get_bool l key σ = (dec_bool d key, σ).
Proof.
  intros Hl. unfold CompetitionReport.get_bool, dec_bool.
  apply bind_run; [now apply getitem_run|]. intros v. apply mret_run.
Qed.

Lemma code_get_bool_run (σ : store) (l : loc) (d : dict) (key : string) :
  σ !! l = Some d ->
  CodeCompetitionReport.get_bool l key σ = (dec_bool d key, σ).
Proof.
  intros Hl. unfold CodeCompetitionReport.get_bool, dec_bool.
  apply bind_run; [now apply getitem_run|]. intros v. apply mret_run.
Qed.

Ltac step_run Hl :=
  first
    [ apply mret_run
    | apply lift_run
    | apply (getitem_run _ _ _ _ Hl)
    | apply (get_float_run _ _ _ _ Hl)
    | apply (get_bool_run _ _ _ _ Hl)
    | apply (code_get_bool_run _ _ _ _ Hl)
    | apply bind_run; [|intros ?] ].

(** [from_dict] allocates one copy of its argument and reads it. *)
Lemma from_dict_run (σ : store) (l : loc) (d : dict) :
  σ !! l = Some d ->
  CompetitionReport.from_dict l σ
  = (decode_report d, <[fresh (dom σ) := d]> σ).
Proof.
  intros Hl. unfold CompetitionReport.from_dict.
  unfold mbind at 1. unfold M_bind at 1. unfold dict_copy. rewrite Hl.
  rewrite new_dict_run.
  set (l' := fresh (dom σ)). set (σ' := <[l' := d]> σ).
  assert (Hl' : σ' !! l' = Some d) by apply lookup_insert_eq.
  unfold decode_report.
  repeat step_run Hl'.
  destruct (decide (_ = VNone)); repeat step_run Hl'.
Qed.

Lemma code_from_dict_run (σ : store) (l : loc) (d : dict) :
  σ !! l = Some d ->
  CodeCompetitionReport.from_dict l σ
  = (decode_code_report d, <[fresh (dom σ) := d]> σ).
Proof.
  intros Hl. unfold CodeCompetitionReport.from_dict.
  unfold mbind at 1. unfold M_bind at 1. unfold dict_copy. rewrite Hl.
  rewrite new_dict_run.
  set (l' := fresh (dom σ)). set (σ' := <[l' := d]> σ).
  assert (Hl' : σ' !! l' = Some d) by apply lookup_insert_eq.
  unfold decode_code_report.
  repeat step_run Hl'.
Qed.

End ReportFacts.

(** ** Theorems on the report codecs *)

Section ReportTheorems.
Context `{Runtime}.

Ltac eval_lookups :=
  repeat match goal with
    | |- context [ @lookup _ _ _ _ ?k (list_to_map ?items) ] =>
        let t := constr:(@lookup string pyval (gmap string pyval) _ k (list_to_map items)) in
        let v := eval vm_compute in t in
        change t with v
    end.

Ltac shape_ok :=
  unfold encoded_as;
  cbn [CompetitionReport.score CompetitionReport.created_at];
  repeat match goal with
    | |- context [decide (?a = VNone)] => destruct (decide (a = VNone));
                                         try contradiction; try discriminate
    end;
  subst; eval_lookups;
  repeat first [ split | reflexivity | constructor | eexists ].

(** C9. [from_dict], of either report type, leaves the dictionary it
    is given as it was, and every other object of the store with it:
    it reads a copy. *)
Theorem from_dict_leaves_input (σ : store) (data : loc) (d : dict) :
  σ !! data = Some d ->
  snd (CompetitionReport.from_dict data σ) !! data = Some d
  /\ snd (CodeCompetitionReport.from_dict data σ) !! data = Some d
  /\ forall l, is_Some (σ !! l) ->
       snd (CompetitionReport.from_dict data σ) !! l = σ !! l
       /\ snd (CodeCompetitionReport.from_dict data σ) !! l = σ !! l.
Proof.
  intros Hd.
  rewrite (from_dict_run σ data d Hd), (code_from_dict_run σ data d Hd).
  cbn [snd].
  split; [|split].
  - rewrite alloc_frame by (rewrite Hd; eauto). exact Hd.
  - rewrite alloc_frame by (rewrite Hd; eauto). exact Hd.
  - intros l Hl. rewrite alloc_frame by exact Hl. auto.
Qed.

Lemma decode_encoded_report (r : CompetitionReport.report) :
  valid_report r ->
  exists items r',
    CompetitionReport.to_dict_items r = Ret items
    /\ encoded_as (list_to_map items) r
    /\ decode_report (list_to_map items) = Ret r'
    /\ r' = with_score r (CompetitionReport.score r')
    /\ score_equal (CompetitionReport.score r) (CompetitionReport.score r').
Proof.
  intros (Htyped & Hiso & Hscore).
  destruct r as [cid sc g s b m am gm sm bm ab se vs lb ca sp].
  cbn [CompetitionReport.gold_threshold CompetitionReport.silver_threshold
       CompetitionReport.bronze_threshold CompetitionReport.median_threshold
       CompetitionReport.any_medal CompetitionReport.gold_medal
       CompetitionReport.silver_medal CompetitionReport.bronze_medal
       CompetitionReport.above_median CompetitionReport.submission_exists
       CompetitionReport.valid_submission CompetitionReport.is_lower_better
       CompetitionReport.created_at CompetitionReport.score] in *.
  destruct g as [| | |g|]; try discriminate.
  destruct s as [| | |s|]; try discriminate.
  destruct b as [| | |b|]; try discriminate.
  destruct m as [| | |m|]; try discriminate.
  destruct am as [|am| | |]; try discriminate.
  destruct gm as [|gm| | |]; try discriminate.
  destruct sm as [|sm| | |]; try discriminate.
  destruct bm as [|bm| | |]; try discriminate.
  destruct ab as [|ab| | |]; try discriminate.
  destruct se as [|se| | |]; try discriminate.
  destruct vs as [|vs| | |]; try discriminate.
  destruct lb as [|lb| | |]; try discriminate.
  clear Htyped.
  remember (isoformat ca) as iso eqn:Eiso.
  unfold CompetitionReport.to_dict_items.
  cbn [CompetitionReport.gold_threshold CompetitionReport.silver_threshold
       CompetitionReport.bronze_threshold CompetitionReport.median_threshold
       CompetitionReport.any_medal CompetitionReport.gold_medal
       CompetitionReport.silver_medal CompetitionReport.bronze_medal
       CompetitionReport.above_median CompetitionReport.submission_exists
       CompetitionReport.valid_submission CompetitionReport.is_lower_better
       CompetitionReport.created_at CompetitionReport.score
       CompetitionReport.competition_id CompetitionReport.submission_path
       py_float py_bool mbind result_bind].
  rewrite <- Eiso.
  destruct (decide (sc = VNone)) as [-> | Hsc].
  - do 2 eexists. split; [reflexivity|].
    split; [shape_ok|].
    unfold decode_report, dec_float, dec_bool, lookup_key.
    eval_lookups. cbn [mbind result_bind py_float py_bool py_fromisoformat].
    destruct (decide (VNone = VNone)) as [_|]; [|contradiction].
    rewrite Hiso. cbn [mbind result_bind].
    split; [reflexivity|]. split; reflexivity.
  - assert (Hx : exists x, float_of_string (py_str sc) = Ret x
                           /\ score_equal sc (VFloat x))
      by (destruct sc; try contradiction; exact Hscore).
    destruct Hx as (x & Hparse & Heq).
    remember (py_str sc) as txt eqn:Etxt.
    eexists.
    exists (CompetitionReport.mkReport cid (VFloat x) (VFloat g) (VFloat s)
              (VFloat b) (VFloat m) (VBool am) (VBool gm) (VBool sm) (VBool bm)
              (VBool ab) (VBool se) (VBool vs) (VBool lb) ca sp).
    split; [reflexivity|].
    split; [shape_ok|].
    unfold decode_report, dec_float, dec_bool, lookup_key.
    eval_lookups. cbn [mbind result_bind py_float py_bool py_fromisoformat].
    destruct (decide (VStr txt = VNone)) as [|_]; [discriminate|].
    rewrite Hparse, Hiso. cbn [mbind result_bind].
    split; [reflexivity|]. split; [reflexivity|]. exact Heq.
Qed.

Lemma decode_encoded_code_report (r : CodeCompetitionReport.report) :
  valid_code_report r ->
  decode_code_report (list_to_map (CodeCompetitionReport.to_dict_items r)) = Ret r.
Proof.
  intros (Htyped & Hiso).
  destruct r as [cid dc ic dm em df ef tm se vs ca sp].
  cbn [CodeCompetitionReport.submission_exists
       CodeCompetitionReport.valid_submission
       CodeCompetitionReport.created_at] in *.
  destruct se as [|se| | |]; try discriminate.
  destruct vs as [|vs| | |]; try discriminate.
  remember (isoformat ca) as iso eqn:Eiso.
  unfold decode_code_report, dec_bool, lookup_key,
    CodeCompetitionReport.to_dict_items.
  cbn [CodeCompetitionReport.competition_id CodeCompetitionReport.defined_classes
       CodeCompetitionReport.initialized_classes
       CodeCompetitionReport.defined_class_methods
       CodeCompetitionReport.executed_class_methods
       CodeCompetitionReport.defined_functions
       CodeCompetitionReport.executed_functions CodeCompetitionReport.test_metric
       CodeCompetitionReport.submission_exists
       CodeCompetitionReport.valid_submission
       CodeCompetitionReport.created_at CodeCompetitionReport.submission_path
       py_bool].
  rewrite <- Eiso.
  eval_lookups. cbn [mbind result_bind py_bool py_fromisoformat].
  rewrite Hiso. reflexivity.
Qed.

(** C4. Decoding the encoding of a valid report gives the report
    back, for both report types: every field is equal, and the score
    of a [CompetitionReport], which travels as text, comes back as a
    float equal to it in value ([None] stays [None]). *)
Theorem report_round_trip (r : CompetitionReport.report)
    (c : CodeCompetitionReport.report) (σ : store) :
  valid_report r -> valid_code_report c ->
  (exists data σ1 d r' σ2,
     CompetitionReport.to_dict r σ = (Ret data, σ1)
     /\ σ1 !! data = Some d /\ encoded_as d r
     /\ CompetitionReport.from_dict data σ1 = (Ret r', σ2)
     /\ r' = with_score r (CompetitionReport.score r')
     /\ score_equal (CompetitionReport.score r) (CompetitionReport.score r'))
  /\ (exists data σ1 σ2,
        CodeCompetitionReport.to_dict c σ = (Ret data, σ1)
        /\ CodeCompetitionReport.from_dict data σ1 = (Ret c, σ2)).
Proof.
  intros Hr Hc. split.
  - destruct (decode_encoded_report r Hr)
      as (items & r' & Hitems & Hshape & Hdec & Heq & Hsc).
    exists (fresh (dom σ)), (<[fresh (dom σ) := list_to_map items]> σ),
      (list_to_map items), r'.
    eexists. split; [|split; [apply lookup_insert_eq|split; [exact Hshape|]]].
    2: split; [|split; assumption].
    + unfold CompetitionReport.to_dict, mbind, M_bind, lift.
      rewrite Hitems. reflexivity.
    + rewrite (from_dict_run _ _ (list_to_map items))
        by apply lookup_insert_eq.
      rewrite Hdec. reflexivity.
  - exists (fresh (dom σ)),
      (<[fresh (dom σ) := list_to_map (CodeCompetitionReport.to_dict_items c)]> σ).
    eexists. split; [reflexivity|].
    rewrite (code_from_dict_run _ _
               (list_to_map (CodeCompetitionReport.to_dict_items c)))
      by apply lookup_insert_eq.
    rewrite (decode_encoded_code_report c Hc). reflexivity.
Qed.

End ReportTheorems.

Lemma example_report_valid : valid_report ExampleRuntime.report.
Proof.
  split; [reflexivity|]. split; [vm_compute; reflexivity|].
  exists (decimal 81234 5). split; [vm_compute; reflexivity|].
  exists (NFloat (decimal 81234 5)), (decimal 81234 5).
  split; [reflexivity|]. split; [reflexivity|]. vm_compute. reflexivity.
Defined.

Lemma example_code_report_valid : valid_code_report ExampleRuntime.code_report.
Proof. split; [reflexivity | vm_compute; reflexivity]. Defined.

Lemma report_round_trip_witness :
  (exists data σ1 d r' σ2,
     CompetitionReport.to_dict ExampleRuntime.report ∅ = (Ret data, σ1)
     /\ σ1 !! data = Some d /\ encoded_as d ExampleRuntime.report
     /\ CompetitionReport.from_dict data σ1 = (Ret r', σ2)
     /\ r' = with_score ExampleRuntime.report (CompetitionReport.score r')
     /\ score_equal (CompetitionReport.score ExampleRuntime.report)
          (CompetitionReport.score r'))
  /\ (exists data σ1 σ2,
        CodeCompetitionReport.to_dict ExampleRuntime.code_report ∅ = (Ret data, σ1)
        /\ CodeCompetitionReport.from_dict data σ1
           = (Ret ExampleRuntime.code_report, σ2)).
Proof.
  exact (report_round_trip ExampleRuntime.report ExampleRuntime.code_report ∅
           example_report_valid example_code_report_valid).
Defined.

(** An integer score comes back as the float of the same value. *)
Example int_report_round_trip :
  exists items r',
    CompetitionReport.to_dict_items ExampleRuntime.int_report = Ret items
    /\ encoded_as (list_to_map items) ExampleRuntime.int_report
    /\ decode_report (list_to_map items) = Ret r'
    /\ r' = with_score ExampleRuntime.int_report (CompetitionReport.score r')
    /\ score_equal (VInt 17) (CompetitionReport.score r').
Proof.
  apply decode_encoded_report.
  split; [reflexivity|]. split; [vm_compute; reflexivity|].
  exists (decimal 17 0). split; [vm_compute; reflexivity|].
  exists (NInt 17), (decimal 17 0).
  split; [reflexivity|]. split; [reflexivity|]. vm_compute. reflexivity.
Qed.

(** Outside the valid reports: [float(None)] stops the encoding, and
    an unset flag is encoded, and decoded, as [False]. *)
Example to_dict_unranked_raises :
  CompetitionReport.to_dict_items ExampleRuntime.unranked_report
  = raise TypeError
      "float() argument must be a string or a real number, not 'NoneType'".
Proof. reflexivity. Qed.

Example unflagged_encoded_false :
  CompetitionReport.any_medal ExampleRuntime.unflagged_report = VNone
  /\ exists items,
      CompetitionReport.to_dict_items ExampleRuntime.unflagged_report = Ret items
      /\ (list_to_map items : dict) !! "any_medal" = Some (VBool false)
      /\ dec_bool (list_to_map items) "any_medal" = Ret (VBool false).
Proof.
  split; [reflexivity|]. eexists. split; [reflexivity|].
  split; [vm_compute; reflexivity|]. unfold dec_bool, lookup_key.
  vm_compute. reflexivity.
Qed.

Lemma from_dict_leaves_input_witness :
  snd (CompetitionReport.from_dict 1%positive ExampleRuntime.small_store)
    !! 1%positive = Some ExampleRuntime.small_dict
  /\ snd (CodeCompetitionReport.from_dict 1%positive ExampleRuntime.small_store)
       !! 1%positive = Some ExampleRuntime.small_dict
  /\ forall l, is_Some (ExampleRuntime.small_store !! l) ->
       snd (CompetitionReport.from_dict 1%positive ExampleRuntime.small_store) !! l
       = ExampleRuntime.small_store !! l
       /\ snd (CodeCompetitionReport.from_dict 1%positive ExampleRuntime.small_store) !! l
          = ExampleRuntime.small_store !! l.
Proof.
  apply (from_dict_leaves_input ExampleRuntime.small_store 1%positive
           ExampleRuntime.small_dict).
  reflexivity.
Defined.

(** ** Further properties: building and calling a grader *)

Section GraderConstruction.
Import Grader.
Context {arg : Type}.

Lemma kwargs_elem (gi : GradingInput arg) (k : string) (v : arg) :
  (k, v) ∈ kwargs gi
  <-> (k, Some v) ∈
        [("submission", submission gi);
         ("answers", answers gi);
         ("submission_folder_path", submission_folder_path gi);
         ("hyperparameter_search_config", hyperparameter_search_config gi);
         ("solution_file_path", solution_file_path gi);
         ("submission_file_path", submission_file_path gi);
         ("coding_config", coding_config gi)].
Proof.
  unfold kwargs. rewrite list_elem_of_omap. split.
  - intros ([k' o] & Hin & Hf). destruct o as [a|]; [|discriminate].
    cbn in Hf. injection Hf as -> ->. exact Hin.
  - intros Hin. exists (k, Some v). split; [exact Hin | reflexivity].
Qed.

Lemma kwargs_keys_sublist (gi : GradingInput arg) :
  (kwargs gi).*1
  `sublist_of` ["submission"; "answers"; "submission_folder_path";
                "hyperparameter_search_config"; "solution_file_path";
                "submission_file_path"; "coding_config"].
Proof.
  assert (Hgen : forall l : list (string * option arg),
             (omap (fun '(k, v) => (fun a => (k, a)) <$> v) l).*1
             `sublist_of` l.*1).
  { induction l as [|[k [a|]] l IH]; cbn.
    - constructor.
    - apply sublist_skip. exact IH.
    - apply sublist_cons. exact IH. }
  apply (Hgen [("submission", submission gi);
               ("answers", answers gi);
               ("submission_folder_path", submission_folder_path gi);
               ("hyperparameter_search_config", hyperparameter_search_config gi);
               ("solution_file_path", solution_file_path gi);
               ("submission_file_path", submission_file_path gi);
               ("coding_config", coding_config gi)]).
Qed.

(** The keyword arguments built from a grading input. *)
Lemma kwargs_spec (gi : GradingInput arg) :
  (forall v,
     (("submission", v) ∈ kwargs gi <-> submission gi = Some v)
     /\ (("answers", v) ∈ kwargs gi <-> answers gi = Some v)
     /\ (("submission_folder_path", v) ∈ kwargs gi
         <-> submission_folder_path gi = Some v)
     /\ (("hyperparameter_search_config", v) ∈ kwargs gi
         <-> hyperparameter_search_config gi = Some v)
     /\ (("solution_file_path", v) ∈ kwargs gi <-> solution_file_path gi = Some v)
     /\ (("submission_file_path", v) ∈ kwargs gi
         <-> submission_file_path gi = Some v)
     /\ (("coding_config", v) ∈ kwargs gi <-> coding_config gi = Some v))
  /\ (forall k v, (k, v) ∈ kwargs gi ->
        k ∈ ["submission"; "answers"; "submission_folder_path";
             "hyperparameter_search_config"; "solution_file_path";
             "submission_file_path"; "coding_config"])
  /\ NoDup (kwargs gi).*1
  /\ (forall gi' : GradingInput arg, kwargs gi' = kwargs gi -> gi' = gi).
Proof.
  assert (Hfields : forall (g : GradingInput arg) v,
     (("submission", v) ∈ kwargs g <-> submission g = Some v)
     /\ (("answers", v) ∈ kwargs g <-> answers g = Some v)
     /\ (("submission_folder_path", v) ∈ kwargs g
         <-> submission_folder_path g = Some v)
     /\ (("hyperparameter_search_config", v) ∈ kwargs g
         <-> hyperparameter_search_config g = Some v)
     /\ (("solution_file_path", v) ∈ kwargs g <-> solution_file_path g = Some v)
     /\ (("submission_file_path", v) ∈ kwargs g
         <-> submission_file_path g = Some v)
     /\ (("coding_config", v) ∈ kwargs g <-> coding_config g = Some v)).
  { intros g v. repeat split; rewrite kwargs_elem; intros H.
    all: try (repeat (apply elem_of_cons in H as [H|H]);
              [congruence..|apply elem_of_nil in H; contradiction]).
    all: rewrite <- H; repeat first [apply list_elem_of_here | apply list_elem_of_further]. }
  split; [apply Hfields|]. split; [|split].
  - intros k v. rewrite kwargs_elem. intros H.
    repeat (apply elem_of_cons in H as [H|H]);
      [injection H as -> _;
       repeat first [apply list_elem_of_here | apply list_elem_of_further]..|].
    apply elem_of_nil in H. contradiction.
  - eapply sublist_NoDup; [|apply kwargs_keys_sublist].
    repeat (apply NoDup_cons; split;
            [rewrite ?elem_of_cons, ?elem_of_nil; intuition discriminate|]).
    apply NoDup_nil_2.
  - intros gi' Heq.
    assert (Hopt : forall (o o' : option arg),
               (forall v, o' = Some v <-> o = Some v) -> o' = o).
    { intros [x|] [y|] Hv; try reflexivity.
      - symmetry. apply Hv. reflexivity.
      - specialize (Hv x) as [_ Hv]. discriminate (Hv eq_refl).
      - specialize (Hv y) as [Hv _]. discriminate (Hv eq_refl). }
    destruct gi as [a b c d e f g], gi' as [a' b' c' d' e' f' g'].
    f_equal; apply Hopt; intros v;
      destruct (Hfields (mkGradingInput a b c d e f g) v)
        as (A1 & A2 & A3 & A4 & A5 & A6 & A7);
      destruct (Hfields (mkGradingInput a' b' c' d' e' f' g') v)
        as (B1 & B2 & B3 & B4 & B5 & B6 & B7);
      rewrite Heq in B1, B2, B3, B4, B5, B6, B7;
      first [ exact (iff_trans (iff_sym B1) A1)
            | exact (iff_trans (iff_sym B2) A2)
            | exact (iff_trans (iff_sym B3) A3)
            | exact (iff_trans (iff_sym B4) A4)
            | exact (iff_trans (iff_sym B5) A5)
            | exact (iff_trans (iff_sym B6) A6)
            | exact (iff_trans (iff_sym B7) A7) ].
Qed.

(** X1. [Grader.__call__] calls the scoring function once, with the
    populated fields of the grading input and with nothing else. The
    outcome of the call depends on the scoring function through its
    result on these keyword arguments only, and a result that is not
    a float is what the call returns. Among the arguments each field
    arrives under its own name exactly when it is not [None], no
    name arrives twice and no other name arrives; the arguments
    determine the grading input. *)
Theorem call_passes_populated_fields (self : Grader arg) (gi : GradingInput arg) :
  (forall self' : Grader arg,
     inspect_getfile (grade_fn self') = inspect_getfile (grade_fn self) ->
     inspect_getsourcelines (grade_fn self')
     = inspect_getsourcelines (grade_fn self) ->
     fn_str (grade_fn self') = fn_str (grade_fn self) ->
     fn_call (grade_fn self') (kwargs gi) = fn_call (grade_fn self) (kwargs gi) ->
     __call__ self' gi = __call__ self gi)
  /\ (forall v, (forall x, v <> VFloat x) ->
        fn_call (grade_fn self) (kwargs gi) = Ret (Builtin v) ->
        __call__ self gi = ([], Ret (Builtin v)))
  /\ (forall v,
        (("submission", v) ∈ kwargs gi <-> submission gi = Some v)
        /\ (("answers", v) ∈ kwargs gi <-> answers gi = Some v)
        /\ (("submission_folder_path", v) ∈ kwargs gi
            <-> submission_folder_path gi = Some v)
        /\ (("hyperparameter_search_config", v) ∈ kwargs gi
            <-> hyperparameter_search_config gi = Some v)
        /\ (("solution_file_path", v) ∈ kwargs gi
            <-> solution_file_path gi = Some v)
        /\ (("submission_file_path", v) ∈ kwargs gi
            <-> submission_file_path gi = Some v)
        /\ (("coding_config", v) ∈ kwargs gi <-> coding_config gi = Some v))
  /\ (forall k v, (k, v) ∈ kwargs gi ->
        k ∈ ["submission"; "answers"; "submission_folder_path";
             "hyperparameter_search_config"; "solution_file_path";
             "submission_file_path"; "coding_config"])
  /\ NoDup (kwargs gi).*1
  /\ (forall gi' : GradingInput arg, kwargs gi' = kwargs gi -> gi' = gi).
Proof.
  split; [|split; [|apply kwargs_spec]].
  - intros self' Hfile Hlines Hstr Hrun. unfold __call__.
    rewrite Hfile, Hlines, Hstr, Hrun. reflexivity.
  - intros v Hv Hrun. unfold __call__. rewrite Hrun.
    destruct v; try reflexivity. exfalso. eapply Hv. reflexivity.
Qed.

(** A scoring function that tells the arguments of an empty grading
    input from every other list of arguments: the call hands it the
    empty list. *)
Example call_with_no_field :
  Grader.__call__
    (mkGrader "probe"
       (mkCallable (arg := unit)
          (fun kw => match kw with
                     | [] => Ret (Builtin (VInt 0))
                     | _ => Ret (Builtin (VInt 1))
                     end)
          (Ret "grade.py") (Ret ([], 1)) "grade"))
    (mkGradingInput None None None None None None None)
  = ([], Ret (Builtin (VInt 0)))
  /\ Grader.__call__
       (mkGrader "probe"
          (mkCallable (arg := unit)
             (fun kw => match kw with
                        | [("answers", tt)] => Ret (Builtin (VInt 0))
                        | _ => Ret (Builtin (VInt 1))
                        end)
             (Ret "grade.py") (Ret ([], 1)) "grade"))
       (mkGradingInput None (Some tt) None None None None None)
     = ([], Ret (Builtin (VInt 0))).
Proof. split; reflexivity. Qed.

(** X2. [Grader.__init__] returns a grader exactly when the reference
    resolves and the name is a non-empty string; the grader then
    carries that name and the resolved function, so every grader built
    has a non-empty name. The reference is resolved before the name is
    checked: a failure of [import_fn] comes out as it is, whatever the
    name, and a bad name gives an [AssertionError] only once the
    reference has resolved. *)
Theorem init_checks_name (import_fn : pyval -> result (callable arg))
    (name grade_fn : pyval) :
  (forall g,
     __init__ import_fn name grade_fn = Ret g
     <-> exists s fn,
           name = VStr s /\ s <> "" /\ import_fn grade_fn = Ret fn
           /\ g = mkGrader s fn)
  /\ (forall g, __init__ import_fn name grade_fn = Ret g -> Grader.name g <> "")
  /\ (forall e, import_fn grade_fn = Raise e ->
        __init__ import_fn name grade_fn = Raise e)
  /\ (forall fn, import_fn grade_fn = Ret fn ->
        (forall s, name = VStr s -> s = "") ->
        exists e, __init__ import_fn name grade_fn = Raise e
                  /\ exn_cls e = AssertionError).
Proof.
  assert (Hiff : forall g,
     __init__ import_fn name grade_fn = Ret g
     <-> exists s fn,
           name = VStr s /\ s <> "" /\ import_fn grade_fn = Ret fn
           /\ g = mkGrader s fn).
  { intros g. unfold __init__. split.
    - destruct (import_fn grade_fn) as [fn|e]; cbn [mbind result_bind];
        [|discriminate].
      destruct name as [| | | |s]; try discriminate.
      destruct s as [|c s]; cbn; [discriminate|].
      intros [= <-]. exists (String c s), fn. repeat split. discriminate.
    - intros (s & fn & -> & Hs & -> & ->). cbn [mbind result_bind].
      destruct s as [|c s]; [contradiction|]. reflexivity. }
  split; [exact Hiff|]. split; [|split].
  - intros g Hg. apply Hiff in Hg as (s & fn & _ & Hs & _ & ->). exact Hs.
  - intros e He. unfold __init__. rewrite He. reflexivity.
  - intros fn Hfn Hname. unfold __init__. rewrite Hfn. cbn [mbind result_bind].
    destruct name as [| | | |s]; try (eexists; split; reflexivity).
    rewrite (Hname s eq_refl). eexists; split; reflexivity.
Qed.

(** X3. [Grader.from_dict] builds the grader from the items [name] and
    [grade_fn] of its dictionary and accepts no other shape: it
    returns a grader only from a dictionary with exactly these two
    keys, it is then [__init__] on their values, and a surplus or a
    missing key is a [TypeError]. *)
Theorem from_dict_takes_two_keys (import_fn : pyval -> result (callable arg))
    (data : gmap string pyval) :
  (forall g, from_dict import_fn data = Ret g ->
     dom data = ({["name"; "grade_fn"]} : gset string)
     /\ exists name grade_fn,
         data !! "name" = Some name /\ data !! "grade_fn" = Some grade_fn
         /\ __init__ import_fn name grade_fn = Ret g)
  /\ (forall name grade_fn,
        dom data = ({["name"; "grade_fn"]} : gset string) ->
        data !! "name" = Some name -> data !! "grade_fn" = Some grade_fn ->
        from_dict import_fn data = __init__ import_fn name grade_fn)
  /\ (forall k, k ∈ dom data -> k <> "name" -> k <> "grade_fn" ->
        exists e, from_dict import_fn data = Raise e /\ exn_cls e = TypeError)
  /\ (data !! "name" = None \/ data !! "grade_fn" = None ->
        exists e, from_dict import_fn data = Raise e /\ exn_cls e = TypeError).
Proof.
  unfold from_dict. split; [|split; [|split]].
  - intros g.
    destruct (bool_decide_reflect (dom data ⊆ ({["name"; "grade_fn"]} : gset string)))
      as [Hsub|Hsub]; cbn [negb]; [|discriminate].
    destruct (data !! "name") as [n|] eqn:En; [|discriminate].
    destruct (data !! "grade_fn") as [f|] eqn:Ef; [|discriminate].
    intros Hg. split; [|eauto].
    apply set_eq. intros k. split; [apply Hsub|].
    intros Hk. apply elem_of_dom.
    apply elem_of_union in Hk as [Hk|Hk]; apply elem_of_singleton in Hk;
      subst k; eauto.
  - intros n f Hdom Hn Hf.
    destruct (bool_decide_reflect (dom data ⊆ ({["name"; "grade_fn"]} : gset string)))
      as [Hsub|Hsub]; cbn [negb].
    + rewrite Hn, Hf. reflexivity.
    + exfalso. apply Hsub. rewrite Hdom. reflexivity.
  - intros k Hk Hn Hf.
    destruct (bool_decide_reflect (dom data ⊆ ({["name"; "grade_fn"]} : gset string)))
      as [Hsub|Hsub]; cbn [negb]; [|eexists; split; reflexivity].
    exfalso. specialize (Hsub k Hk).
    apply elem_of_union in Hsub as [Hx|Hx]; apply elem_of_singleton in Hx;
      contradiction.
  - intros Hmiss.
    destruct (negb _); [eexists; split; reflexivity|].
    destruct (data !! "name"), (data !! "grade_fn");
      try (eexists; split; reflexivity).
    destruct Hmiss; discriminate.
Qed.

End GraderConstruction.

Lemma init_checks_name_witness :
  Grader.__init__ (fun _ => Ret (CallExamples.located (fun _ => Ret (Builtin (VInt 1)))))
    (VStr "rmse") (VStr "metrics:rmse")
  = Ret (Grader.mkGrader "rmse" (CallExamples.located (fun _ => Ret (Builtin (VInt 1))))).
Proof.
  apply (init_checks_name
           (fun _ => Ret (CallExamples.located (fun _ => Ret (Builtin (VInt 1)))))
           (VStr "rmse") (VStr "metrics:rmse")).
  exists "rmse", (CallExamples.located (fun _ => Ret (Builtin (VInt 1)))).
  repeat split. discriminate.
Defined.

Lemma from_dict_takes_two_keys_witness :
  Grader.from_dict (fun _ => Ret (CallExamples.located (fun _ => Ret (Builtin (VInt 1)))))
    (<["name" := VStr "rmse"]> (<["grade_fn" := VStr "metrics:rmse"]> ∅))
  = Ret (Grader.mkGrader "rmse" (CallExamples.located (fun _ => Ret (Builtin (VInt 1))))).
Proof.
  destruct (from_dict_takes_two_keys
              (fun _ => Ret (CallExamples.located (fun _ => Ret (Builtin (VInt 1)))))
              (<["name" := VStr "rmse"]> (<["grade_fn" := VStr "metrics:rmse"]> ∅)))
    as (_ & Hbuild & _).
  rewrite (Hbuild (VStr "rmse") (VStr "metrics:rmse")); reflexivity.
Defined.

(** ** Further properties: the order of floats *)

Section FloatOrder.

Ltac key_done :=
  repeat split; intros Hx;
  first
    [ discriminate Hx
    | reflexivity
    | lia
    | subst; reflexivity
    | injection Hx; intros; subst; lia
    | exfalso; lia ].

Lemma SFcompare_key (a b : float) :
  is_nan a = false -> is_nan b = false ->
  exists c, SFcompare a b = Some c
    /\ (c = Lt <-> key_lt (order_key a) (order_key b))
    /\ (c = Eq <-> order_key a = order_key b)
    /\ (c = Gt <-> key_lt (order_key b) (order_key a)).
Proof.
  intros Ha Hb.
  destruct a as [sa|sa| |sa ma ea]; try discriminate Ha;
    destruct b as [sb|sb| |sb mb eb]; try discriminate Hb;
    cbn [SFcompare order_key]; try destruct sa; try destruct sb;
    try (eexists; split; [reflexivity|]; cbn [key_lt]; key_done).
  - (* two negative finite values *)
    change (Pos.compare_cont Eq ma mb) with (Pos.compare ma mb).
    eexists; split; [reflexivity|]. cbn [key_lt].
    destruct (Z.compare_spec ea eb); [destruct (Pos.compare_spec ma mb)|..];
      cbn [CompOpp]; key_done.
  - (* two positive finite values *)
    change (Pos.compare_cont Eq ma mb) with (Pos.compare ma mb).
    eexists; split; [reflexivity|]. cbn [key_lt].
    destruct (Z.compare_spec ea eb); [destruct (Pos.compare_spec ma mb)|..];
      key_done.
Qed.

Lemma fle_key (a b : float) :
  fle a b = true
  <-> is_nan a = false /\ is_nan b = false
      /\ (key_lt (order_key a) (order_key b) \/ order_key a = order_key b).
Proof.
  unfold fle, SFleb. split.
  - intros H.
    assert (Ha : is_nan a = false) by (destruct a; try reflexivity; discriminate H).
    assert (Hb : is_nan b = false)
      by (destruct b; try reflexivity; destruct a; discriminate H).
    destruct (SFcompare_key a b Ha Hb) as (c & Hc & Hlt & Heq & _).
    rewrite Hc in H. repeat split; try assumption.
    destruct c; [right; now apply Heq | left; now apply Hlt | discriminate].
  - intros (Ha & Hb & Hk).
    destruct (SFcompare_key a b Ha Hb) as (c & Hc & Hlt & Heq & Hgt).
    rewrite Hc. destruct c; try reflexivity. exfalso.
    pose proof (proj1 Hgt eq_refl) as Hg.
    destruct (order_key a) as [[a1 a2] a3], (order_key b) as [[b1 b2] b3].
    cbn [key_lt] in *. destruct Hk as [Hk|Hk]; [lia|]. injection Hk as -> -> ->. lia.
Qed.

Lemma flt_key (a b : float) :
  flt a b = true
  <-> is_nan a = false /\ is_nan b = false
      /\ key_lt (order_key a) (order_key b).
Proof.
  unfold flt, SFltb. split.
  - intros H.
    assert (Ha : is_nan a = false) by (destruct a; try reflexivity; discriminate H).
    assert (Hb : is_nan b = false)
      by (destruct b; try reflexivity; destruct a; discriminate H).
    destruct (SFcompare_key a b Ha Hb) as (c & Hc & Hlt & _).
    rewrite Hc in H. repeat split; try assumption.
    destruct c; try discriminate. now apply Hlt.
  - intros (Ha & Hb & Hk).
    destruct (SFcompare_key a b Ha Hb) as (c & Hc & Hlt & _).
    rewrite Hc. apply Hlt in Hk. now rewrite Hk.
Qed.

Lemma fle_trans (a b c : float) :
  fle a b = true -> fle b c = true -> fle a c = true.
Proof.
  rewrite !fle_key. intros (Ha & Hb & H1) (_ & Hc & H2).
  repeat split; try assumption.
  destruct (order_key a) as [[a1 a2] a3], (order_key b) as [[b1 b2] b3],
    (order_key c) as [[c1 c2] c3]. cbn [key_lt] in *.
  destruct H1 as [H1|H1]; [|injection H1 as -> -> ->; assumption].
  destruct H2 as [H2|H2]; [|injection H2 as <- <- <-; left; assumption].
  left. lia.
Qed.

Lemma flt_fle_trans (a b c : float) :
  flt a b = true -> fle b c = true -> flt a c = true.
Proof.
  rewrite !flt_key, fle_key. intros (Ha & Hb & H1) (_ & Hc & H2).
  repeat split; try assumption.
  destruct (order_key a) as [[a1 a2] a3], (order_key b) as [[b1 b2] b3],
    (order_key c) as [[c1 c2] c3]. cbn [key_lt] in *.
  destruct H2 as [H2|H2]; [|injection H2 as <- <- <-; assumption].
  lia.
Qed.

Lemma fle_flt_trans (a b c : float) :
  fle a b = true -> flt b c = true -> flt a c = true.
Proof.
  rewrite !flt_key, fle_key. intros (Ha & Hb & H1) (_ & Hc & H2).
  repeat split; try assumption.
  destruct (order_key a) as [[a1 a2] a3], (order_key b) as [[b1 b2] b3],
    (order_key c) as [[c1 c2] c3]. cbn [key_lt] in *.
  destruct H1 as [H1|H1]; [|injection H1 as -> -> ->; assumption].
  lia.
Qed.

Lemma fle_refl (a : float) : is_nan a = false -> fle a a = true.
Proof. intros Ha. apply fle_key. auto. Qed.

(** Comparisons of a float score with a threshold, as float orders. *)
Lemma num_ge_fle (x t : float) : num_ge (NFloat x) t = fle t x.
Proof.
  unfold num_ge, num_compare, fle, SFleb. rewrite (SFcompare_swap x t).
  destruct (SFcompare x t) as [[]|]; reflexivity.
Qed.

Lemma num_gt_flt (x t : float) : num_gt (NFloat x) t = flt t x.
Proof.
  unfold num_gt, num_compare, flt, SFltb. rewrite (SFcompare_swap x t).
  destruct (SFcompare x t) as [[]|]; reflexivity.
Qed.

End FloatOrder.

(** ** Further properties: ranking *)

Section RankingProperties.
Import Grader.

Lemma meets_as_good (lower : bool) (x t : float) :
  meets_or_beats lower (NFloat x) t = as_good lower x t.
Proof. destruct lower; cbn; [reflexivity | apply num_ge_fle]. Qed.

Lemma as_good_trans (lower : bool) (a b c : float) :
  as_good lower a b = true -> as_good lower b c = true ->
  as_good lower a c = true.
Proof. destruct lower; cbn; eauto using fle_trans. Qed.

Lemma as_good_refl (lower : bool) (a : float) :
  is_nan a = false -> as_good lower a a = true.
Proof. destruct lower; cbn; apply fle_refl. Qed.

Lemma strongly_sorted_lookup {R : float -> float -> Prop} (l : Series)
    (i j : nat) (a b : float) :
  StronglySorted R l -> l !! i = Some a -> l !! j = Some b -> (i < j)%nat ->
  R a b.
Proof.
  intros Hs. revert i j. induction Hs as [|x l Hs IH Hall]; intros i j Ha Hb Hij.
  - discriminate.
  - destruct j as [|j]; [lia|]. cbn in Hb.
    destruct i as [|i]; cbn in Ha.
    + injection Ha as ->. rewrite Forall_forall in Hall. apply Hall.
      eapply list_elem_of_lookup_2. exact Hb.
    + eapply IH; eauto. lia.
Qed.

Lemma spec_positions_ordered (n : Z) :
  1 <= n ->
  let '(pg, ps, pb) := spec_positions n in pg <= ps <= pb.
Proof.
  intros Hn. unfold spec_positions.
  assert (n / 10 <= n / 5) by (apply Z.div_le_compat_l; lia).
  assert (n / 5 <= n * 2 / 5) by (apply Z.div_le_mono; lia).
  assert (n / 20 <= n / 10) by (apply Z.div_le_compat_l; lia).
  destruct (Z.ltb_spec n 100); [lia|].
  destruct (Z.ltb_spec n 250).
  { assert (20 <= n / 5) by (apply Z.div_le_lower_bound; lia). lia. }
  destruct (Z.ltb_spec n 1000).
  { assert (n / 500 < 2) by (apply Z.div_lt_upper_bound; lia). lia. }
  assert (10 + n / 500 <= n / 20); [|lia].
  pose proof (Z.div_mod n 500 ltac:(lia)).
  pose proof (Z.mod_pos_bound n 500 ltac:(lia)).
  apply Z.div_le_lower_bound; lia.
Qed.

(** X4. [get_score_at_position] reads the row of a 1-based position
    and nothing else: it returns exactly on the positions [1 .. n], and
    raises [IndexError] on every other one, so that position [0] and
    the negative positions never read from the end of the column as a
    bare positional read would. *)
Theorem get_score_at_position_bounds {A} (scores : list A) (position : Z) :
  (forall x, get_score_at_position scores position = Ret x
     <-> 1 <= position <= Z.of_nat (length scores)
         /\ scores !! Z.to_nat (position - 1) = Some x)
  /\ (position < 1 \/ Z.of_nat (length scores) < position ->
      get_score_at_position scores position
      = raise IndexError "Position out of bounds in the leaderboard.")
  /\ (scores <> [] ->
      exists last, iloc scores (-1) = Ret last
                   /\ get_score_at_position scores 0
                      = raise IndexError "Position out of bounds in the leaderboard.").
Proof.
  assert (Hout : forall p, p < 1 \/ Z.of_nat (length scores) < p ->
      get_score_at_position scores p
      = raise IndexError "Position out of bounds in the leaderboard.").
  { intros p Hp. unfold get_score_at_position.
    destruct (Z.geb_spec (p - 1) (Z.of_nat (length scores)));
      [reflexivity|].
    destruct (Z.ltb_spec p 1); [reflexivity|]. lia. }
  split; [|split; [apply Hout|]].
  - intros x. split.
    + intros Hx.
      destruct (Z_lt_le_dec position 1) as [Hlt|Hge];
        [rewrite Hout in Hx by lia; discriminate|].
      destruct (Z_lt_le_dec (Z.of_nat (length scores)) position) as [Hgt|Hle];
        [rewrite Hout in Hx by lia; discriminate|].
      split; [lia|].
      destruct (get_score_at_position_ok scores position ltac:(lia))
        as (y & Hy & Hr).
      congruence.
    + intros [Hp Hx].
      destruct (get_score_at_position_ok scores position Hp) as (y & Hy & Hr).
      congruence.
  - intros Hne.
    destruct scores as [|a l]; [contradiction|].
    destruct (lookup_lt_is_Some_2 (a :: l) (length l) ltac:(cbn; lia)) as [z Hz].
    exists z. split.
    + unfold iloc. cbn [Z.ltb Z.compare].
      destruct (Z.leb_spec 0 (Z.of_nat (length (a :: l)) + -1)); [|cbn in *; lia].
      destruct (Z.ltb_spec (Z.of_nat (length (a :: l)) + -1)
                  (Z.of_nat (length (a :: l)))); [|lia].
      cbn [andb].
      replace (Z.to_nat (Z.of_nat (length (a :: l)) + -1)) with (length l)
        by (cbn [length]; lia).
      now rewrite Hz.
    + apply Hout. lia.
Qed.

(** Every outcome of [rank_score], by what [leaderboard["score"]]
    selects. *)
Lemma rank_score_outcome (score : pyval) (lb : DataFrame) :
  len lb < max_rows ->
  match getitem lb "score" with
  | Raise _ =>
      exists e, rank_score score lb = Raise e /\ exn_cls e = AssertionError
  | Ret (Frame _) =>
      exists e, rank_score score lb = Raise e
                /\ exn_cls e = (if len lb =? 0 then IndexError else ValueError)
  | Ret (Column scores) =>
      if len lb =? 0
      then exists e, rank_score score lb = Raise e /\ exn_cls e = IndexError
      else exists lower g s b,
             rank_score score lb = classify lower g s b (median scores) score
  end.
Proof.
  intros Hmax. pose proof (getitem_cases lb "score") as Hc.
  destruct (getitem lb "score") as [[scores|f]|e0] eqn:Hget.
  - destruct Hc as (_ & Hcol & Hs).
    destruct (Z.eqb_spec (len lb) 0) as [H0|H0].
    + assert (Hrows : rows lb = []).
      { unfold len in H0. destruct (rows lb); [reflexivity | cbn in H0; lia]. }
      unfold rank_score, is_lower_better. rewrite Hcol, Hget, Hs, Hrows.
      cbn. eexists. split; reflexivity.
    + assert (Hlen : 0 <= len lb) by (unfold len; lia).
      destruct (rank_score_run lb scores Hget ltac:(lia))
        as (lower & g & sv & b & _ & _ & _ & Hrun).
      exists lower, g, sv, b. apply Hrun.
  - destruct Hc as (_ & Hcol & _).
    destruct (is_lower_better_frame lb f Hget) as (e & He & Hcls).
    exists e. split; [|exact Hcls].
    unfold rank_score. rewrite Hcol, He. reflexivity.
  - destruct Hc as (_ & Hcol & _).
    unfold rank_score. rewrite Hcol. eexists. split; reflexivity.
Qed.

(** X5. [rank_score] returns a ranking exactly when exactly one
    column of the leaderboard is labelled [score], there is at least
    one row, and the score is [None] or a number. Otherwise it raises:
    [AssertionError] without such a column, [IndexError] on a table
    with one and no row, [ValueError] when several columns carry the
    label (the selection is then a table, whose comparison [bool]
    refuses), and [AssertionError] for a score that is neither [None]
    nor a number. *)
Theorem rank_score_returns_iff (score : pyval) (lb : DataFrame) :
  len lb < max_rows ->
  ((exists r, rank_score score lb = Ret r)
   <-> labelled lb "score" = 1%nat /\ 1 <= len lb
       /\ (score = VNone \/ is_Some (as_number score)))
  /\ (labelled lb "score" = 0%nat ->
      exists e, rank_score score lb = Raise e /\ exn_cls e = AssertionError)
  /\ ((1 <= labelled lb "score")%nat -> len lb = 0 ->
      exists e, rank_score score lb = Raise e /\ exn_cls e = IndexError)
  /\ ((2 <= labelled lb "score")%nat -> 1 <= len lb ->
      exists e, rank_score score lb = Raise e /\ exn_cls e = ValueError)
  /\ (labelled lb "score" = 1%nat -> 1 <= len lb ->
      score <> VNone -> as_number score = None ->
      exists e, rank_score score lb = Raise e /\ exn_cls e = AssertionError).
Proof.
  intros Hmax.
  pose proof (rank_score_outcome score lb Hmax) as Hout.
  pose proof (getitem_cases lb "score") as Hc.
  assert (Hlen : 0 <= len lb) by (unfold len; lia).
  destruct (getitem lb "score") as [[scores|f]|e0].
  - destruct Hc as (Hone & _ & _).
    destruct (Z.eqb_spec (len lb) 0) as [H0|H0].
    + destruct Hout as (e & He & Hcls). rewrite He.
      split; [split; [intros [r [=]] | intros (_ & Hn & _); lia]|].
      split; [intros; lia|]. split; [eauto|]. split; intros; lia.
    + destruct Hout as (lower & g & sv & b & Hrun). rewrite Hrun.
      unfold classify.
      split; [split|].
      * intros [r Hr]. split; [exact Hone|]. split; [lia|].
        destruct (decide (score = VNone)) as [|Hs]; [auto|]. right.
        destruct (as_number score) eqn:Hnum; [eauto|].
        destruct score; try contradiction; discriminate.
      * intros (_ & _ & [-> | [n Hnum]]); [eauto|]. rewrite Hnum.
        destruct score; try discriminate; eauto.
      * split; [intros; lia|]. split; [intros; lia|]. split; [intros; lia|].
        intros _ _ Hs Hnum. rewrite Hnum.
        destruct score; try contradiction; try discriminate;
          eexists; split; reflexivity.
  - destruct Hc as (Htwo & _ & _). destruct Hout as (e & He & Hcls).
    rewrite He.
    split; [split; [intros [r [=]] | intros (Hone & _); lia]|].
    split; [intros; lia|].
    split; [intros _ H0; rewrite H0 in Hcls; eauto|].
    split; [|intros; lia].
    intros _ Hn. exists e. split; [reflexivity|].
    destruct (Z.eqb_spec (len lb) 0); [lia | exact Hcls].
  - destruct Hc as (Hzero & _ & _). destruct Hout as (e & He & Hcls).
    rewrite He.
    split; [split; [intros [r [=]] | intros (Hone & _); lia]|].
    split; [eauto|]. split; [intros; lia|]. split; intros; lia.
Qed.

Lemma rank_score_returns_iff_witness :
  exists r, rank_score (VFloat (Examples.fl 35)) Examples.lb5 = Ret r.
Proof.
  apply (rank_score_returns_iff (VFloat (Examples.fl 35)) Examples.lb5).
  - reflexivity.
  - split; [reflexivity|]. split; [vm_compute; discriminate|].
    right. eexists. reflexivity.
Defined.

(** A leaderboard with two columns labelled [score]: the selection is
    a table, and the call raises on [bool], or on the first read when
    there is no row. *)
Example rank_score_duplicated_label :
  getitem (mkDataFrame ["score"; "team"; "score"] (rows Examples.lb5)) "score"
  = Ret (Frame (mkDataFrame ["score"; "score"] (rows Examples.lb5)))
  /\ rank_score VNone (mkDataFrame ["score"; "team"; "score"] (rows Examples.lb5))
     = raise ValueError "The truth value of a Series is ambiguous."
  /\ rank_score VNone (mkDataFrame ["score"; "team"; "score"] [])
     = raise IndexError "single positional indexer is out-of-bounds".
Proof. repeat split. Qed.



(** The ranking of a float score, in terms of the order of floats. *)
Lemma rank_float (lb : DataFrame) (scores : Series) (lower : bool) (x : float) :
  getitem lb "score" = Ret (Column scores) ->
  1 <= len lb < max_rows ->
  is_lower_better lb = Ret lower ->
  exists g s b,
    (let '(pg, ps, pb) := spec_positions (len lb) in
     scores !! Z.to_nat (pg - 1) = Some g
     /\ scores !! Z.to_nat (ps - 1) = Some s
     /\ scores !! Z.to_nat (pb - 1) = Some b)
    /\ rank_score (VFloat x) lb
       = Ret (mkRanking
                (as_good lower x g)
                (negb (as_good lower x g) && as_good lower x s)
                (negb (as_good lower x g)
                 && negb (negb (as_good lower x g) && as_good lower x s)
                 && as_good lower x b)
                (better lower x (median scores))
                g s b (median scores)).
Proof.
  intros Hs Hn Hlow.
  destruct (rank_score_run lb scores Hs Hn)
    as (lower' & g & s & b & Hlow' & Hpos & _ & Hrun).
  assert (lower' = lower) by congruence. subst lower'.
  exists g, s, b. split; [exact Hpos|].
  rewrite Hrun. unfold classify. cbn [as_number].
  rewrite <- !meets_as_good. unfold meets_or_beats, better.
  destruct lower; [reflexivity|]. now rewrite num_gt_flt.
Qed.

(** Two thresholds read at ordered positions of a sorted leaderboard
    are ordered. *)
Lemma sorted_thresholds (lower : bool) (scores : Series) (p q : Z) (a b x : float) :
  sorted_best_first lower scores ->
  1 <= p <= q ->
  scores !! Z.to_nat (p - 1) = Some a ->
  scores !! Z.to_nat (q - 1) = Some b ->
  as_good lower x a = true -> as_good lower x b = true.
Proof.
  intros Hsorted Hpq Ha Hb Hx.
  destruct (Z.eq_dec p q) as [->|Hne]; [congruence|].
  eapply as_good_trans; [exact Hx|].
  apply (strongly_sorted_lookup scores (Z.to_nat (p - 1)) (Z.to_nat (q - 1)) a b
           Hsorted Ha Hb). lia.
Qed.

(** X7. On a leaderboard sorted best to worst, the medal is the best
    threshold of the table the score meets. The thresholds returned
    are the scores of the table at the positions of its size band;
    the score has a medal exactly when it meets or beats the bronze
    one, gold or silver exactly when it meets or beats the silver one,
    and gold exactly when it meets or beats the gold one. *)
Theorem medal_is_best_threshold_met (lb : DataFrame) (scores : Series)
    (lower : bool) (x : float) :
  getitem lb "score" = Ret (Column scores) ->
  1 <= len lb < max_rows ->
  is_lower_better lb = Ret lower ->
  sorted_best_first lower scores ->
  exists r,
    rank_score (VFloat x) lb = Ret r
    /\ (let '(pg, ps, pb) := spec_positions (len lb) in
        scores !! Z.to_nat (pg - 1) = Some (gold_threshold r)
        /\ scores !! Z.to_nat (ps - 1) = Some (silver_threshold r)
        /\ scores !! Z.to_nat (pb - 1) = Some (bronze_threshold r))
    /\ gold_medal r = meets_or_beats lower (NFloat x) (gold_threshold r)
    /\ gold_medal r || silver_medal r
       = meets_or_beats lower (NFloat x) (silver_threshold r)
    /\ gold_medal r || silver_medal r || bronze_medal r
       = meets_or_beats lower (NFloat x) (bronze_threshold r).
Proof.
  intros Hs Hn Hlow Hsorted.
  destruct (rank_float lb scores lower x Hs Hn Hlow) as (g & s & b & Hpos & Hr).
  pose proof (spec_positions_ordered (len lb) ltac:(lia)) as Hord.
  pose proof (spec_positions_in_range (len lb) ltac:(lia)) as Hrange.
  eexists. split; [exact Hr|].
  cbn [gold_medal silver_medal bronze_medal
       gold_threshold silver_threshold bronze_threshold].
  split; [exact Hpos|].
  destruct (spec_positions (len lb)) as [[pg ps] pb].
  destruct Hpos as (Hg & Hsv & Hb). destruct Hrange as (Hg1 & _).
  rewrite !meets_as_good.
  pose proof (sorted_thresholds lower scores pg ps g s x Hsorted ltac:(lia) Hg Hsv)
    as Hgs.
  pose proof (sorted_thresholds lower scores ps pb s b x Hsorted ltac:(lia) Hsv Hb)
    as Hsb.
  destruct (as_good lower x g), (as_good lower x s), (as_good lower x b);
    cbn;
    first [ specialize (Hgs eq_refl); discriminate Hgs
          | specialize (Hsb eq_refl); discriminate Hsb
          | repeat split; reflexivity ].
Qed.

(** X8. On a leaderboard sorted best to worst, a score equal to the
    score of a row ranks with that row: the score of a row within the
    gold position has gold, within the silver position gold or silver,
    and within the bronze position a medal. *)
Theorem leaderboard_row_keeps_rank (lb : DataFrame) (scores : Series)
    (lower : bool) (i : nat) (x : float) :
  getitem lb "score" = Ret (Column scores) ->
  1 <= len lb < max_rows ->
  is_lower_better lb = Ret lower ->
  sorted_best_first lower scores ->
  scores !! i = Some x -> is_nan x = false ->
  exists r,
    rank_score (VFloat x) lb = Ret r
    /\ let '(pg, ps, pb) := spec_positions (len lb) in
       (Z.of_nat i < pg -> gold_medal r = true)
       /\ (Z.of_nat i < ps -> gold_medal r || silver_medal r = true)
       /\ (Z.of_nat i < pb ->
           gold_medal r || silver_medal r || bronze_medal r = true).
Proof.
  intros Hs Hn Hlow Hsorted Hi Hx.
  destruct (rank_float lb scores lower x Hs Hn Hlow) as (g & s & b & Hpos & Hr).
  pose proof (spec_positions_in_range (len lb) ltac:(lia)) as Hrange.
  destruct (spec_positions (len lb)) as [[pg ps] pb].
  destruct Hpos as (Hg & Hsv & Hb). destruct Hrange as (Hg1 & Hs1 & Hb1).
  assert (Hrow : forall p t, 1 <= p -> Z.of_nat i < p ->
             scores !! Z.to_nat (p - 1) = Some t -> as_good lower x t = true).
  { intros p t Hp Hip Ht.
    apply (sorted_thresholds lower scores (Z.of_nat i + 1) p x t x Hsorted);
      [lia| |exact Ht|apply as_good_refl; exact Hx].
    replace (Z.to_nat (Z.of_nat i + 1 - 1)) with i by lia. exact Hi. }
  eexists. split; [exact Hr|].
  cbn [gold_medal silver_medal bronze_medal].
  split; [|split].
  - intros H. apply (Hrow pg g); [lia|exact H|exact Hg].
  - intros H. rewrite (Hrow ps s ltac:(lia) H Hsv).
    destruct (as_good lower x g); reflexivity.
  - intros H. rewrite (Hrow pb b ltac:(lia) H Hb).
    destruct (as_good lower x g), (as_good lower x s); reflexivity.
Qed.

(** X9. The ranking is monotone in the score: on the same leaderboard
    a float score at least as good as another one holds every level
    the other holds, gold, at least silver, a medal at all, and
    above the median. *)
Theorem better_score_ranks_no_worse (lb : DataFrame) (scores : Series)
    (lower : bool) (x y : float) :
  getitem lb "score" = Ret (Column scores) ->
  1 <= len lb < max_rows ->
  is_lower_better lb = Ret lower ->
  as_good lower y x = true ->
  exists rx ry,
    rank_score (VFloat x) lb = Ret rx
    /\ rank_score (VFloat y) lb = Ret ry
    /\ (gold_medal rx = true -> gold_medal ry = true)
    /\ (gold_medal rx || silver_medal rx = true ->
        gold_medal ry || silver_medal ry = true)
    /\ (gold_medal rx || silver_medal rx || bronze_medal rx = true ->
        gold_medal ry || silver_medal ry || bronze_medal ry = true)
    /\ (above_median rx = true -> above_median ry = true).
Proof.
  intros Hs Hn Hlow Hyx.
  destruct (rank_float lb scores lower x Hs Hn Hlow) as (g & s & b & Hpos & Hrx).
  destruct (rank_float lb scores lower y Hs Hn Hlow) as (g' & s' & b' & Hpos' & Hry).
  destruct (spec_positions (len lb)) as [[pg ps] pb].
  destruct Hpos as (Hg & Hsv & Hb), Hpos' as (Hg' & Hsv' & Hb').
  assert (g' = g) by congruence. assert (s' = s) by congruence.
  assert (b' = b) by congruence. subst g' s' b'.
  do 2 eexists. split; [exact Hrx|]. split; [exact Hry|].
  cbn [gold_medal silver_medal bronze_medal above_median].
  assert (Hmono : forall t, as_good lower x t = true -> as_good lower y t = true)
    by (intros t Ht; eapply as_good_trans; eauto).
  assert (Hstrict : better lower x (median scores) = true ->
                    better lower y (median scores) = true).
  { unfold better, as_good in *. destruct lower.
    - intros H. eapply fle_flt_trans; eauto.
    - intros H. eapply flt_fle_trans; eauto. }
  pose proof (Hmono g) as Mg. pose proof (Hmono s) as Ms. pose proof (Hmono b) as Mb.
  destruct (as_good lower x g), (as_good lower x s), (as_good lower x b);
    destruct (as_good lower y g), (as_good lower y s), (as_good lower y b);
    cbn; repeat split; auto; intros _;
    first [ specialize (Mg eq_refl); discriminate Mg
          | specialize (Ms eq_refl); discriminate Ms
          | specialize (Mb eq_refl); discriminate Mb ].
Qed.

(** X17. A NaN score on a non-empty leaderboard is ranked, and
    gets nothing: no medal and not [above_median], in either
    direction, since every comparison with NaN is false. *)
Theorem nan_score_gets_nothing (lb : DataFrame) (scores : Series) :
  getitem lb "score" = Ret (Column scores) ->
  1 <= len lb < max_rows ->
  exists r,
    rank_score (VFloat S754_nan) lb = Ret r
    /\ gold_medal r = false /\ silver_medal r = false
    /\ bronze_medal r = false /\ above_median r = false.
Proof.
  intros Hs Hn.
  destruct (is_lower_better_nonempty lb scores Hs ltac:(lia))
    as (top & bottom & _ & _ & Hlow).
  destruct (rank_float lb scores _ S754_nan Hs Hn Hlow)
    as (g & s & b & _ & Hr).
  eexists. split; [exact Hr|].
  cbn [gold_medal silver_medal bronze_medal above_median].
  assert (Hnan : forall t, as_good (flt top bottom) S754_nan t = false).
  { intros t. unfold as_good. destruct (flt top bottom); [reflexivity|].
    destruct t as [[]|[]| |[] ? ?]; reflexivity. }
  rewrite !Hnan. repeat split.
  unfold better. destruct (flt top bottom); [reflexivity|].
  destruct (median scores) as [[]|[]| |[] ? ?]; reflexivity.
Qed.

Lemma nan_score_gets_nothing_witness :
  exists r,
    rank_score (VFloat S754_nan) Examples.lb5 = Ret r
    /\ gold_medal r = false /\ silver_medal r = false
    /\ bronze_medal r = false /\ above_median r = false.
Proof.
  apply (nan_score_gets_nothing Examples.lb5 Examples.scores5).
  - reflexivity.
  - split; [vm_compute; discriminate | reflexivity].
Defined.

Lemma scores5_sorted : sorted_best_first false Examples.scores5.
Proof.
  unfold sorted_best_first, Examples.scores5. cbn [map].
  repeat (constructor; [|repeat (constructor; [vm_compute; reflexivity|])]);
    constructor.
Qed.

Lemma medal_is_best_threshold_met_witness :
  exists r,
    rank_score (VFloat (Examples.fl 35)) Examples.lb5 = Ret r
    /\ (let '(pg, ps, pb) := spec_positions (len Examples.lb5) in
        Examples.scores5 !! Z.to_nat (pg - 1) = Some (gold_threshold r)
        /\ Examples.scores5 !! Z.to_nat (ps - 1) = Some (silver_threshold r)
        /\ Examples.scores5 !! Z.to_nat (pb - 1) = Some (bronze_threshold r))
    /\ gold_medal r
       = meets_or_beats false (NFloat (Examples.fl 35)) (gold_threshold r)
    /\ gold_medal r || silver_medal r
       = meets_or_beats false (NFloat (Examples.fl 35)) (silver_threshold r)
    /\ gold_medal r || silver_medal r || bronze_medal r
       = meets_or_beats false (NFloat (Examples.fl 35)) (bronze_threshold r).
Proof.
  apply (medal_is_best_threshold_met Examples.lb5 Examples.scores5 false
           (Examples.fl 35)).
  - reflexivity.
  - split; [vm_compute; discriminate | reflexivity].
  - reflexivity.
  - exact scores5_sorted.
Defined.

Lemma leaderboard_row_keeps_rank_witness :
  exists r,
    rank_score (VFloat (Examples.fl 40)) Examples.lb5 = Ret r
    /\ let '(pg, ps, pb) := spec_positions (len Examples.lb5) in
       (Z.of_nat 1 < pg -> gold_medal r = true)
       /\ (Z.of_nat 1 < ps -> gold_medal r || silver_medal r = true)
       /\ (Z.of_nat 1 < pb ->
           gold_medal r || silver_medal r || bronze_medal r = true).
Proof.
  apply (leaderboard_row_keeps_rank Examples.lb5 Examples.scores5 false 1%nat
           (Examples.fl 40)).
  - reflexivity.
  - split; [vm_compute; discriminate | reflexivity].
  - reflexivity.
  - exact scores5_sorted.
  - reflexivity.
  - reflexivity.
Defined.

Lemma better_score_ranks_no_worse_witness :
  exists rx ry,
    rank_score (VFloat (Examples.fl 35)) Examples.lb5 = Ret rx
    /\ rank_score (VFloat (Examples.fl 45)) Examples.lb5 = Ret ry
    /\ (gold_medal rx = true -> gold_medal ry = true)
    /\ (gold_medal rx || silver_medal rx = true ->
        gold_medal ry || silver_medal ry = true)
    /\ (gold_medal rx || silver_medal rx || bronze_medal rx = true ->
        gold_medal ry || silver_medal ry || bronze_medal ry = true)
    /\ (above_median rx = true -> above_median ry = true).
Proof.
  apply (better_score_ranks_no_worse Examples.lb5 Examples.scores5 false
           (Examples.fl 35) (Examples.fl 45)).
  - reflexivity.
  - split; [vm_compute; discriminate | reflexivity].
  - reflexivity.
  - reflexivity.
Defined.

End RankingProperties.

(** ** Further properties: the report codecs *)

Section ReportProperties.
Context `{Runtime}.

Ltac in_keys := apply (bool_decide_unpack _); vm_compute; exact I.

Ltac head_scrutinee t :=
  lazymatch t with
  | mbind _ ?m => head_scrutinee m
  | match ?x with _ => _ end => head_scrutinee x
  | _ => t
  end.

Ltac refute_decodable :=
  match goal with
  | H : is_Some None |- _ => destruct H as [? [=]]
  | H : forall v, Some ?p = Some v -> exists x, py_float v = Ret x,
    E : py_float ?p = Raise _ |- _ =>
      destruct (H p eq_refl) as [? ?]; congruence
  | H : forall v, Some ?p = Some v -> v <> VNone -> exists x, py_float v = Ret x,
    E : py_float ?p = Raise _, N : ?p <> VNone |- _ =>
      destruct (H p eq_refl N) as [? ?]; congruence
  | H : forall v, Some ?p = Some v -> exists t, py_fromisoformat v = Ret t,
    E : py_fromisoformat ?p = Raise _ |- _ =>
      destruct (H p eq_refl) as [? ?]; congruence
  end.

(** One step of a decoder: a case split on what it reads next. *)
Ltac step_decode :=
  match goal with
  | |- ?lhs = _ -> _ =>
      lazymatch lhs with
      | Ret _ => fail
      | Raise _ => fail
      | _ => let x := head_scrutinee lhs in
             destruct x eqn:?; cbn [mbind result_bind]
      end
  end.

Lemma decode_report_cases (d : dict) :
  match decode_report d with
  | Ret r => decodable d /\ typed_report r = true
  | Raise e => decode_failure d e /\ ~ decodable d
  end.
Proof.
  destruct (decode_report d) as [r|e] eqn:E; revert E;
    unfold decode_report, dec_float, dec_bool, lookup_key, decodable,
      decode_failure, raise, report_keys, threshold_keys;
    rewrite ?Forall_cons, ?Forall_nil.
  - repeat step_decode; try discriminate.
    all: intros [= <-]; split; [|reflexivity].
    all: repeat split; eauto; intros ? [= <-]; eauto; contradiction.
  - repeat step_decode; try discriminate.
    all: intros [= <-]; split.
    all: try (intros (Hk & Hf & Hs & Ht); destruct_and!; refute_decodable).
    all: first
           [ left; eexists; split_and!; [|eassumption|reflexivity]; in_keys
           | right; left; eexists; split_and!;
             [reflexivity|assumption|eassumption]
           | right; right; left;
             match goal with
             | Hf : py_float ?v = Raise _, Hk : _ !! ?k = Some ?v |- _ =>
                 exists k, v; split_and!; [in_keys | exact Hk | exact Hf]
             end
           | do 3 right; eexists; split; [reflexivity|eassumption] ].
Qed.

Lemma decode_code_report_cases (d : dict) :
  match decode_code_report d with
  | Ret r => code_decodable d
  | Raise e => code_decode_failure d e /\ ~ code_decodable d
  end.
Proof.
  destruct (decode_code_report d) as [r|e] eqn:E; revert E;
    unfold decode_code_report, dec_bool, lookup_key, code_decodable,
      code_decode_failure, raise, code_report_keys;
    rewrite ?Forall_cons, ?Forall_nil.
  - repeat step_decode; try discriminate.
    all: intros [= <-].
    all: repeat split; eauto; intros ? [= <-]; eauto.
  - repeat step_decode; try discriminate.
    all: intros [= <-]; split.
    all: try (intros (Hk & Ht); destruct_and!; refute_decodable).
    all: first
           [ left; eexists; split_and!; [|eassumption|reflexivity]; in_keys
           | right; eexists; split; [reflexivity|eassumption] ].
Qed.

(** X10. [CompetitionReport.from_dict] returns a report exactly when
    the dictionary has every one of the sixteen keys, [float] accepts
    the four thresholds and a score other than [None], and
    [datetime.fromisoformat] accepts the timestamp. Otherwise it
    raises: [KeyError] with the name of a missing key, or the exception
    of the conversion that failed. A missing key always makes it
    raise. *)
Theorem from_dict_returns_iff (σ : store) (data : loc) (d : dict) :
  σ !! data = Some d ->
  ((exists r, fst (CompetitionReport.from_dict data σ) = Ret r) <-> decodable d)
  /\ (forall e, fst (CompetitionReport.from_dict data σ) = Raise e ->
      decode_failure d e)
  /\ (forall k, k ∈ report_keys -> d !! k = None ->
      exists e, fst (CompetitionReport.from_dict data σ) = Raise e).
Proof.
  intros Hd. rewrite (from_dict_run σ data d Hd). cbn [fst].
  pose proof (decode_report_cases d) as Hc.
  destruct (decode_report d) as [r|e]; destruct Hc as [H1 H2].
  - split; [|split].
    + split; [intros _; exact H1 | intros _; eauto].
    + intros e [=].
    + intros k Hk Hnone. destruct H1 as (Hall & _).
      rewrite Forall_forall in Hall. destruct (Hall k Hk) as [v Hv]. congruence.
  - split; [|split].
    + split; [intros [r [=]] | intros Hdec; contradiction].
    + intros e' [= <-]. exact H1.
    + eauto.
Qed.

(** X11. [CodeCompetitionReport.from_dict] returns a report exactly
    when the dictionary has every one of the twelve keys and
    [datetime.fromisoformat] accepts the timestamp; otherwise it raises
    [KeyError] with the name of a missing key, or the exception of
    [datetime.fromisoformat]. *)
Theorem code_from_dict_returns_iff (σ : store) (data : loc) (d : dict) :
  σ !! data = Some d ->
  ((exists c, fst (CodeCompetitionReport.from_dict data σ) = Ret c)
   <-> code_decodable d)
  /\ (forall e, fst (CodeCompetitionReport.from_dict data σ) = Raise e ->
      code_decode_failure d e)
  /\ (forall k, k ∈ code_report_keys -> d !! k = None ->
      exists e, fst (CodeCompetitionReport.from_dict data σ) = Raise e).
Proof.
  intros Hd. rewrite (code_from_dict_run σ data d Hd). cbn [fst].
  pose proof (decode_code_report_cases d) as Hc.
  destruct (decode_code_report d) as [r|e].
  - split; [|split].
    + split; [intros _; exact Hc | intros _; eauto].
    + intros e [=].
    + intros k Hk Hnone. destruct Hc as (Hall & _).
      rewrite Forall_forall in Hall. destruct (Hall k Hk) as [v Hv]. congruence.
  - destruct Hc as [H1 H2]. split; [|split].
    + split; [intros [r [=]] | intros Hdec; contradiction].
    + intros e' [= <-]. exact H1.
    + eauto.
Qed.

(** X12. A report that [CompetitionReport.from_dict] returns is well
    typed, whatever the types of the values in the dictionary: its
    thresholds are floats, its flags are booleans and its score is a
    float or [None]. So [to_dict] never raises on it. *)
Theorem decoded_report_encodes (σ : store) (data : loc) (d : dict)
    (r : CompetitionReport.report) :
  σ !! data = Some d ->
  fst (CompetitionReport.from_dict data σ) = Ret r ->
  typed_report r = true
  /\ forall σ', exists l, fst (CompetitionReport.to_dict r σ') = Ret l.
Proof.
  intros Hd. rewrite (from_dict_run σ data d Hd). cbn [fst]. intros Hr.
  pose proof (decode_report_cases d) as Hc. rewrite Hr in Hc.
  destruct Hc as [_ Hty]. split; [exact Hty|].
  intros σ'. unfold CompetitionReport.to_dict, CompetitionReport.to_dict_items.
  unfold typed_report in Hty. repeat (apply andb_prop in Hty as [Hty ?]).
  destruct (CompetitionReport.gold_threshold r); try discriminate.
  destruct (CompetitionReport.silver_threshold r); try discriminate.
  destruct (CompetitionReport.bronze_threshold r); try discriminate.
  destruct (CompetitionReport.median_threshold r); try discriminate.
  eexists. reflexivity.
Qed.

(** X13. Both [from_dict] read the keys of their report and nothing
    else: two dictionaries that agree on these keys, whatever other
    keys they hold and wherever they are stored, decode to the same
    report or raise the same exception. *)
Theorem from_dict_reads_fields_only (σ σ' : store) (data data' : loc)
    (d d' : dict) :
  σ !! data = Some d -> σ' !! data' = Some d' ->
  ((forall k, k ∈ report_keys -> d !! k = d' !! k) ->
   fst (CompetitionReport.from_dict data σ)
   = fst (CompetitionReport.from_dict data' σ'))
  /\ ((forall k, k ∈ code_report_keys -> d !! k = d' !! k) ->
      fst (CodeCompetitionReport.from_dict data σ)
      = fst (CodeCompetitionReport.from_dict data' σ')).
Proof.
  intros Hd Hd'.
  rewrite (from_dict_run σ data d Hd), (from_dict_run σ' data' d' Hd'),
    (code_from_dict_run σ data d Hd), (code_from_dict_run σ' data' d' Hd').
  cbn [fst]. split; intros Hk.
  - unfold decode_report, dec_float, dec_bool, lookup_key.
    repeat match goal with
      | |- context [d !! ?k] => rewrite (Hk k ltac:(in_keys))
      end.
    reflexivity.
  - unfold decode_code_report, dec_bool, lookup_key.
    repeat match goal with
      | |- context [d !! ?k] => rewrite (Hk k ltac:(in_keys))
      end.
    reflexivity.
Qed.

Ltac eval_items :=
  repeat match goal with
    | |- context [ @lookup _ _ _ _ ?k (list_to_map ?items) ] =>
        let t := constr:(@lookup string pyval (gmap string pyval) _ k
                           (list_to_map items)) in
        let v := eval vm_compute in t in
        change t with v
    end.

(** X14. Decoding the encoding of a report gives the report as
    [to_dict] converts it: thresholds through [float], flags through
    [bool] (so an unset flag comes back [False]) and the score through
    its text. [to_dict] itself fails only when [float] rejects a
    threshold, and then leaves the store as it was. The encoding of a
    [CodeCompetitionReport] never fails. *)
Theorem encode_decode_converts (r : CompetitionReport.report)
    (c : CodeCompetitionReport.report) (σ : store) :
  fromisoformat (isoformat (CompetitionReport.created_at r))
  = Ret (CompetitionReport.created_at r) ->
  fromisoformat (isoformat (CodeCompetitionReport.created_at c))
  = Ret (CodeCompetitionReport.created_at c) ->
  match CompetitionReport.to_dict r σ with
  | (Ret data, σ1) =>
      fst (CompetitionReport.from_dict data σ1)
      = (score ← reread_score (CompetitionReport.score r); converted r score)
  | (Raise e, σ1) => σ1 = σ /\ forall score, converted r score = Raise e
  end
  /\ exists data σ1,
       CodeCompetitionReport.to_dict c σ = (Ret data, σ1)
       /\ fst (CodeCompetitionReport.from_dict data σ1)
          = Ret (code_converted c).
Proof.
  intros Hiso Hiso'. split.
  - destruct r as [cid sc g s b m am gm sm bm ab se vs lb ca sp].
    unfold CompetitionReport.to_dict, CompetitionReport.to_dict_items,
      converted, reread_score.
    cbn [CompetitionReport.gold_threshold CompetitionReport.silver_threshold
         CompetitionReport.bronze_threshold CompetitionReport.median_threshold
         CompetitionReport.any_medal CompetitionReport.gold_medal
         CompetitionReport.silver_medal CompetitionReport.bronze_medal
         CompetitionReport.above_median CompetitionReport.submission_exists
         CompetitionReport.valid_submission CompetitionReport.is_lower_better
         CompetitionReport.created_at CompetitionReport.score
         CompetitionReport.competition_id CompetitionReport.submission_path]
      in *.
    unfold mbind at 1, M_bind, lift.
    generalize (py_bool am), (py_bool gm), (py_bool sm), (py_bool bm),
      (py_bool ab), (py_bool se), (py_bool vs), (py_bool lb).
    intros fam fgm fsm fbm fab fse fvs flb.
    remember (isoformat ca) as iso eqn:Eiso.
    remember (py_str sc) as txt eqn:Etxt.
    destruct (py_float g) as [xg|e]; cbn [mbind result_bind];
      [|split; [reflexivity | intros _; reflexivity]].
    destruct (py_float s) as [xs|e]; cbn [mbind result_bind];
      [|split; [reflexivity | intros _; reflexivity]].
    destruct (py_float b) as [xb|e]; cbn [mbind result_bind];
      [|split; [reflexivity | intros _; reflexivity]].
    destruct (py_float m) as [xm|e]; cbn [mbind result_bind];
      [|split; [reflexivity | intros _; reflexivity]].
    rewrite new_dict_run.
    rewrite (from_dict_run _ _ _ (lookup_insert_eq _ _ _)). cbn [fst].
    unfold decode_report, dec_float, dec_bool, lookup_key.
    destruct (decide (sc = VNone)) as [Hsc|Hsc]; eval_items;
      cbn [mbind result_bind py_float py_bool py_fromisoformat].
    + destruct (decide (VNone = VNone)) as [_|]; [|contradiction].
      rewrite Hiso. reflexivity.
    + destruct (decide (VStr txt = VNone)) as [|_]; [discriminate|].
      destruct (float_of_string txt); cbn [mbind result_bind]; [|reflexivity].
      rewrite Hiso. reflexivity.
  - destruct c as [cid dc ic dm em df ef tm se vs ca sp].
    cbn [CodeCompetitionReport.created_at] in Hiso'.
    unfold CodeCompetitionReport.to_dict, CodeCompetitionReport.to_dict_items,
      code_converted.
    cbn [CodeCompetitionReport.competition_id CodeCompetitionReport.defined_classes
         CodeCompetitionReport.initialized_classes
         CodeCompetitionReport.defined_class_methods
         CodeCompetitionReport.executed_class_methods
         CodeCompetitionReport.defined_functions
         CodeCompetitionReport.executed_functions CodeCompetitionReport.test_metric
         CodeCompetitionReport.submission_exists
         CodeCompetitionReport.valid_submission
         CodeCompetitionReport.created_at CodeCompetitionReport.submission_path].
    generalize (py_bool se), (py_bool vs). intros fse fvs.
    remember (isoformat ca) as iso eqn:Eiso.
    do 2 eexists. split; [apply new_dict_run|].
    rewrite (code_from_dict_run _ _ _ (lookup_insert_eq _ _ _)). cbn [fst].
    unfold decode_code_report, dec_bool, lookup_key.
    eval_items. cbn [mbind result_bind py_bool py_fromisoformat].
    rewrite Hiso'. reflexivity.
Qed.


End ReportProperties.

Lemma from_dict_returns_iff_witness :
  ((exists r, fst (CompetitionReport.from_dict 1%positive
                     ExampleRuntime.encoded_store) = Ret r)
   <-> decodable ExampleRuntime.encoded)
  /\ (forall e, fst (CompetitionReport.from_dict 1%positive
                       ExampleRuntime.encoded_store) = Raise e ->
      decode_failure ExampleRuntime.encoded e)
  /\ (forall k, k ∈ report_keys -> ExampleRuntime.encoded !! k = None ->
      exists e, fst (CompetitionReport.from_dict 1%positive
                       ExampleRuntime.encoded_store) = Raise e).
Proof.
  apply (from_dict_returns_iff ExampleRuntime.encoded_store 1%positive
           ExampleRuntime.encoded).
  reflexivity.
Defined.

Lemma code_from_dict_returns_iff_witness :
  ((exists c, fst (CodeCompetitionReport.from_dict 1%positive
                     ExampleRuntime.small_store) = Ret c)
   <-> code_decodable ExampleRuntime.small_dict)
  /\ (forall e, fst (CodeCompetitionReport.from_dict 1%positive
                       ExampleRuntime.small_store) = Raise e ->
      code_decode_failure ExampleRuntime.small_dict e)
  /\ (forall k, k ∈ code_report_keys -> ExampleRuntime.small_dict !! k = None ->
      exists e, fst (CodeCompetitionReport.from_dict 1%positive
                       ExampleRuntime.small_store) = Raise e).
Proof.
  apply (code_from_dict_returns_iff ExampleRuntime.small_store 1%positive
           ExampleRuntime.small_dict).
  reflexivity.
Defined.

Lemma encoded_decodes :
  fst (CompetitionReport.from_dict 1%positive ExampleRuntime.encoded_store)
  = Ret ExampleRuntime.decoded.
Proof.
  rewrite (from_dict_run ExampleRuntime.encoded_store 1%positive
             ExampleRuntime.encoded eq_refl).
  cbn [fst].
  assert (Hscore : float_of_string "0.81234" = Ret (decimal 81234 5))
    by (vm_compute; reflexivity).
  assert (Hone : float_of_int 1 = Ret (decimal 1 0))
    by (vm_compute; reflexivity).
  assert (Htime : fromisoformat "2025-03-09T14:05:00" = Ret ExampleRuntime.created)
    by (vm_compute; reflexivity).
  unfold decode_report, dec_float, dec_bool, lookup_key, ExampleRuntime.encoded.
  repeat match goal with
    | |- context [ @lookup _ _ _ _ ?k (list_to_map ?items) ] =>
        let t := constr:(@lookup string pyval (gmap string pyval) _ k
                           (list_to_map items)) in
        let v := eval vm_compute in t in
        change t with v
    end.
  cbn [mbind result_bind py_float py_fromisoformat].
  destruct (decide (VStr "0.81234" = VNone)) as [|_]; [discriminate|].
  rewrite Hscore, Hone, Htime. reflexivity.
Qed.

Lemma decoded_report_encodes_witness :
  typed_report ExampleRuntime.decoded = true
  /\ forall σ', exists l,
       fst (CompetitionReport.to_dict ExampleRuntime.decoded σ') = Ret l.
Proof.
  apply (decoded_report_encodes ExampleRuntime.encoded_store 1%positive
           ExampleRuntime.encoded ExampleRuntime.decoded).
  - reflexivity.
  - exact encoded_decodes.
Defined.

Lemma from_dict_reads_fields_only_witness :
  fst (CompetitionReport.from_dict 1%positive ExampleRuntime.encoded_store)
  = fst (CompetitionReport.from_dict 2%positive
           (<[2%positive := delete "agent" ExampleRuntime.encoded]> ∅)).
Proof.
  apply (from_dict_reads_fields_only ExampleRuntime.encoded_store
           (<[2%positive := delete "agent" ExampleRuntime.encoded]> ∅)
           1%positive 2%positive
           ExampleRuntime.encoded (delete "agent" ExampleRuntime.encoded)).
  - reflexivity.
  - reflexivity.
  - intros k Hk. symmetry. apply lookup_delete_ne. intros <-.
    revert Hk. apply (bool_decide_unpack _). vm_compute. exact I.
Defined.

Lemma encode_decode_converts_witness :
  match CompetitionReport.to_dict ExampleRuntime.unflagged_report ∅ with
  | (Ret data, σ1) =>
      fst (CompetitionReport.from_dict data σ1)
      = (score ← reread_score
                   (CompetitionReport.score ExampleRuntime.unflagged_report);
         converted ExampleRuntime.unflagged_report score)
  | (Raise e, σ1) =>
      σ1 = ∅
      /\ forall score, converted ExampleRuntime.unflagged_report score = Raise e
  end
  /\ exists data σ1,
       CodeCompetitionReport.to_dict ExampleRuntime.code_report ∅ = (Ret data, σ1)
       /\ fst (CodeCompetitionReport.from_dict data σ1)
          = Ret (code_converted ExampleRuntime.code_report).
Proof.
  apply (encode_decode_converts ExampleRuntime.unflagged_report
           ExampleRuntime.code_report ∅).
  - vm_compute. reflexivity.
  - vm_compute. reflexivity.
Defined.

(** An unset flag and an integer threshold come back converted. *)
Example unflagged_converted :
  converted ExampleRuntime.unflagged_report VNone
  = Ret (CompetitionReport.mkReport
           (VStr "spaceship-titanic") VNone
           (VFloat (decimal 82066 5)) (VFloat (decimal 81388 5))
           (VFloat (decimal 80967 5)) (VFloat (decimal 79565 5))
           (VBool false) (VBool false) (VBool false) (VBool false)
           (VBool false) (VBool false) (VBool false) (VBool false)
           ExampleRuntime.created (VStr "runs/3/submission.csv")).
Proof. reflexivity. Qed.

(** ** Further properties: the call and the positions *)

Section CallProperties.
Import Grader.
Context {arg : Type}.

(** X15. What a call can do besides returning the score. It logs at
    most one record, and logs one exactly when the scoring function
    raised and the call returned [None] in its place. It raises in two
    cases only: the scoring function raised an exception that does not
    derive from [Exception], which propagates; or it raised one that
    does, other than the invalid-submission signal, and the lookup of
    the function's source location then raised something other than
    [TypeError], which propagates in place of the first. *)
Theorem call_outcomes (self : Grader arg) (gi : GradingInput arg) :
  let run := fn_call (grade_fn self) (kwargs gi) in
  let out := __call__ self gi in
  (length (fst out) <= 1)%nat
  /\ (fst out <> [] <->
      exists e, run = Raise e /\ snd out = Ret (Builtin VNone))
  /\ forall e',
       snd out = Raise e'
       <-> (run = Raise e' /\ is_Exception (exn_cls e') = false)
           \/ (exists e,
                 run = Raise e
                 /\ exn_cls e <> InvalidSubmissionError
                 /\ is_Exception (exn_cls e) = true
                 /\ exn_cls e' <> TypeError
                 /\ (inspect_getfile (grade_fn self) = Raise e'
                     \/ exists fpath,
                          inspect_getfile (grade_fn self) = Ret fpath
                          /\ inspect_getsourcelines (grade_fn self) = Raise e')).
Proof.
  cbv zeta. unfold __call__.
  destruct (fn_call (grade_fn self) (kwargs gi)) as [v|e] eqn:Hrun.
  - cbn [fst snd length]. split; [lia|]. split.
    + split; [intros Hne; now contradiction Hne | intros (e & [=] & _)].
    + intros e'. split; [intros [=] | intros [[[=] _] | (e & [=] & _)]].
  - destruct (decide (exn_cls e = InvalidSubmissionError)) as [Hc|Hc].
    { cbn [fst snd length]. split; [lia|]. split.
      + split; [eauto | discriminate].
      + intros e'. split; [intros [=]|].
        intros [[[= <-] He'] | (e0 & [= <-] & Hne & _)];
          [rewrite Hc in He'; discriminate | contradiction]. }
    destruct (is_Exception (exn_cls e)) eqn:He.
    2:{ cbn [fst snd length]. split; [lia|]. split.
        + split; [intros Hne; now contradiction Hne | intros (e0 & _ & [=])].
        + intros e'. split.
          * intros [= <-]. left. split; [reflexivity | exact He].
          * intros [[[= <-] _] | (e0 & [= <-] & _ & He0 & _)];
              [reflexivity | congruence]. }
    destruct (inspect_getfile (grade_fn self)) as [fpath|e1] eqn:Hf;
      cbn [mbind result_bind];
      [destruct (inspect_getsourcelines (grade_fn self)) as [[lines ln]|e1] eqn:Hl;
       cbn [mbind result_bind]|].
    + cbn [fst snd length]. split; [lia|]. split.
      * split; [eauto | discriminate].
      * intros e'. split; [intros [=]|].
        intros [[[= <-] He'] | (e0 & _ & _ & _ & _ & [[=] | (f & _ & [=])])].
        congruence.
    + destruct (decide (exn_cls e1 = TypeError)) as [Ht|Ht];
        cbn [fst snd length]; (split; [lia|]); split.
      * split; [eauto | discriminate].
      * intros e'. split; [intros [=]|].
        intros [[[= <-] He'] | (e0 & _ & _ & _ & Hne & [[=] | (f & _ & [= <-])])];
          congruence.
      * split; [intros Hne; now contradiction Hne | intros (e0 & _ & [=])].
      * intros e'. split.
        -- intros [= <-]. right. exists e. eauto 10.
        -- intros [[[= <-] He'] | (e0 & _ & _ & _ & Hne & [[=] | (f & _ & [= <-])])];
             [congruence | reflexivity].
    + destruct (decide (exn_cls e1 = TypeError)) as [Ht|Ht];
        cbn [fst snd length]; (split; [lia|]); split.
      * split; [eauto | discriminate].
      * intros e'. split; [intros [=]|].
        intros [[[= <-] He'] | (e0 & _ & _ & _ & Hne & [[= <-] | (f & [=] & _)])];
          congruence.
      * split; [intros Hne; now contradiction Hne | intros (e0 & _ & [=])].
      * intros e'. split.
        -- intros [= <-]. right. exists e. eauto 10.
        -- intros [[[= <-] He'] | (e0 & _ & _ & _ & Hne & [[= <-] | (f & [=] & _)])];
             [congruence | reflexivity].
Qed.

(** X16. The positions of the thresholds are computed in binary64,
    [int(num_teams * 0.1)] and the like, and are nevertheless the exact
    integer parts of the tenth, fifth, two fifths, twentieth and
    five-hundredth of the number of teams, for every leaderboard of
    fewer than [2^50] rows. *)
Theorem positions_computed_exactly (num_teams : Z) :
  1 <= num_teams < max_rows ->
  int_mul num_teams c_0_1 = Ret (num_teams / 10)
  /\ int_mul num_teams c_0_2 = Ret (num_teams / 5)
  /\ int_mul num_teams c_0_4 = Ret (num_teams * 2 / 5)
  /\ int_mul num_teams c_0_05 = Ret (num_teams / 20)
  /\ int_mul num_teams c_0_002 = Ret (num_teams / 500).
Proof.
  unfold max_rows. intros Hn.
  repeat split;
    [ apply IEEE.int_mul_0_1 | apply IEEE.int_mul_0_2 | apply IEEE.int_mul_0_4
    | apply IEEE.int_mul_0_05 | apply IEEE.int_mul_0_002 ]; exact Hn.
Qed.

End CallProperties.

Lemma positions_computed_exactly_witness :
  int_mul 1234 c_0_1 = Ret (1234 / 10)
  /\ int_mul 1234 c_0_2 = Ret (1234 / 5)
  /\ int_mul 1234 c_0_4 = Ret (1234 * 2 / 5)
  /\ int_mul 1234 c_0_05 = Ret (1234 / 20)
  /\ int_mul 1234 c_0_002 = Ret (1234 / 500).
Proof.
  apply (positions_computed_exactly 1234). unfold max_rows. lia.
Defined.
